(** * Calendar widget and SimpleDatabase: a shallow embedding

    The development follows [src/pages/002/components/calendar-widget.js]
    and [src/pages/002/utils/simple-database.js].

    - [ESDate] gives the abstract operations of the ECMAScript [Date]
      object (Day, YearFromTime, MakeDay, ...) on which the widget rests.
    - [Tools] embeds the [tools] object of the widget file.
    - [Widget] embeds the [CalendarWidget] element: its fields, its
      shadow DOM (the navigator text and the 42 day cells) and its click
      listener, as a state machine driven by events.
    - [Database] embeds [SimpleDatabase] over a model of the object
      store; [Executor] adds the calls to IndexedDB that throw.
    - [Page] embeds the script of the page, which puts the widget and
      the database together. *)

From Stdlib Require Import ZArith Lia List Bool Ascii String.
From stdpp Require Import base option list strings pretty gmap.
Import ListNotations.

(** * ECMAScript time values *)

Module ESDate.
Local Open Scope Z_scope.

(** A time value is a number of milliseconds since 1970-01-01T00:00Z. The
    operations below are those of ECMA-262, section "Date Objects". Time
    values are taken in [Z]: the arithmetic of the standard is exact on
    the whole range of valid dates. *)

Definition msPerDay : Z := 86400000.

Definition Day (t : Z) : Z := t / msPerDay.
Definition TimeWithinDay (t : Z) : Z := t mod msPerDay.

Definition DaysInYear (y : Z) : Z :=
  if negb (y mod 4 =? 0) then 365
  else if negb (y mod 100 =? 0) then 366
  else if negb (y mod 400 =? 0) then 365
  else 366.

Definition DayFromYear (y : Z) : Z :=
  365 * (y - 1970) + (y - 1969) / 4 - (y - 1901) / 100 + (y - 1601) / 400.

Definition TimeFromYear (y : Z) : Z := msPerDay * DayFromYear y.

(** [YearFromTime t] is "the largest integer y such that
    TimeFromYear(y) <= t". It is computed from the mean length of a
    Gregorian year (146097 days in 400 years) and corrected by one. *)
Definition YearFromTime (t : Z) : Z :=
  let y0 := 1970 + (Day t * 400) / 146097 in
  if Day t <? DayFromYear y0 then y0 - 1
  else if DayFromYear (y0 + 1) <=? Day t then y0 + 1
  else y0.

Definition InLeapYear (t : Z) : Z :=
  if DaysInYear (YearFromTime t) =? 366 then 1 else 0.

Definition DayWithinYear (t : Z) : Z := Day t - DayFromYear (YearFromTime t).

Definition MonthFromTime (t : Z) : Z :=
  let d := DayWithinYear t in
  let leap := InLeapYear t in
  if d <? 31 then 0
  else if d <? 59 + leap then 1
  else if d <? 90 + leap then 2
  else if d <? 120 + leap then 3
  else if d <? 151 + leap then 4
  else if d <? 181 + leap then 5
  else if d <? 212 + leap then 6
  else if d <? 243 + leap then 7
  else if d <? 273 + leap then 8
  else if d <? 304 + leap then 9
  else if d <? 334 + leap then 10
  else 11.

Definition DateFromTime (t : Z) : Z :=
  let d := DayWithinYear t in
  let leap := InLeapYear t in
  match MonthFromTime t with
  | 0 => d + 1
  | 1 => d - 30
  | 2 => d - 58 - leap
  | 3 => d - 89 - leap
  | 4 => d - 119 - leap
  | 5 => d - 150 - leap
  | 6 => d - 180 - leap
  | 7 => d - 211 - leap
  | 8 => d - 242 - leap
  | 9 => d - 272 - leap
  | 10 => d - 303 - leap
  | _ => d - 333 - leap
  end.

Definition WeekDay (t : Z) : Z := (Day t + 4) mod 7.

(** Number of days of the year before the first day of month [mn]
    (0 to 11), [leap] being 1 in a leap year. *)
Definition DaysBeforeMonth (mn leap : Z) : Z :=
  match mn with
  | 0 => 0
  | 1 => 31
  | 2 => 59 + leap
  | 3 => 90 + leap
  | 4 => 120 + leap
  | 5 => 151 + leap
  | 6 => 181 + leap
  | 7 => 212 + leap
  | 8 => 243 + leap
  | 9 => 273 + leap
  | 10 => 304 + leap
  | _ => 334 + leap
  end.

(** [MakeDay]: the month may be any integer and overflows into the year;
    the date may be any integer and overflows into the neighbouring
    months. *)
Definition MakeDay (year month date : Z) : Z :=
  let ym := year + month / 12 in
  let mn := month mod 12 in
  let leap := if DaysInYear ym =? 366 then 1 else 0 in
  DayFromYear ym + DaysBeforeMonth mn leap + date - 1.

Definition MakeDate (day time : Z) : Z := day * msPerDay + time.

(** Length of month [mn] (0 to 11) of year [y]; used in statements only. *)
Definition DaysInMonth (y mn : Z) : Z :=
  match mn with
  | 1 => if DaysInYear y =? 366 then 29 else 28
  | 3 | 5 | 8 | 10 => 30
  | _ => 31
  end.

End ESDate.

(** * The Date methods used by the program *)

Module JSDate.
Import ESDate.
Local Open Scope Z_scope.

(** The host environment fixes the offset of local time from UTC, in
    milliseconds (LocalTZA of ECMA-262). It is taken constant: the zone
    has one offset, positive east of Greenwich. *)
Class Env := { LocalTZA : Z }.

Section Methods.
Context {env : Env}.

Definition LocalTime (t : Z) : Z := t + LocalTZA.
Definition UTC (t : Z) : Z := t - LocalTZA.

(** The getters read the fields of the local time. *)
Definition getFullYear (t : Z) : Z := YearFromTime (LocalTime t).
Definition getMonth (t : Z) : Z := MonthFromTime (LocalTime t).
Definition getDate (t : Z) : Z := DateFromTime (LocalTime t).
Definition getDay (t : Z) : Z := WeekDay (LocalTime t).

(** The setters give the new time value of the object they mutate; the
    time within the day is kept. *)
Definition setDate (t dt : Z) : Z :=
  let lt := LocalTime t in
  UTC (MakeDate (MakeDay (YearFromTime lt) (MonthFromTime lt) dt)
                (TimeWithinDay lt)).

Definition setMonth (t month : Z) : Z :=
  let lt := LocalTime t in
  UTC (MakeDate (MakeDay (YearFromTime lt) month (DateFromTime lt))
                (TimeWithinDay lt)).

Definition setFullYear (t year : Z) : Z :=
  let lt := LocalTime t in
  UTC (MakeDate (MakeDay year (MonthFromTime lt) (DateFromTime lt))
                (TimeWithinDay lt)).

(** [toLocaleDateString('en-CA')]: the pattern of the locale is
    [y-MM-dd] on the local date; [y] is the year of the era, printed
    without padding, [MM] and [dd] are padded to two digits. *)
Definition eraYear (y : Z) : Z := if 0 <? y then y else 1 - y.

Definition pad2 (n : Z) : string :=
  if n <? 10 then "0" +:+ pretty n else pretty n.

Definition toLocaleDateString_enCA (t : Z) : string :=
  let lt := LocalTime t in
  pretty (eraYear (YearFromTime lt)) +:+ "-" +:+
  pad2 (MonthFromTime lt + 1) +:+ "-" +:+ pad2 (DateFromTime lt).

(** [toLocaleString('en-GB', { month: 'long' })] *)
Definition monthNames : list string :=
  ["January"; "February"; "March"; "April"; "May"; "June"; "July";
   "August"; "September"; "October"; "November"; "December"].

Definition toLocaleString_month (t : Z) : string :=
  default "" (monthNames !! Z.to_nat (getMonth t)).

(** [toLocaleString('en-GB', { weekday: 'long' })] *)
Definition dayNames : list string :=
  ["Sunday"; "Monday"; "Tuesday"; "Wednesday"; "Thursday"; "Friday";
   "Saturday"].

Definition toLocaleString_weekday (t : Z) : string :=
  default "" (dayNames !! Z.to_nat (getDay t)).

End Methods.

(** [new Date(string)] on the date-only form [YYYY-MM-DD] of the Date
    Time String Format: the date is read as UTC midnight, whatever the
    local zone. Any other string is outside the format and its reading
    is left to the implementation: the model gives [None] there. *)
Definition digitValue (c : ascii) : option Z :=
  let n := Z.of_nat (nat_of_ascii c) in
  if (48 <=? n) && (n <=? 57) then Some (n - 48) else None.

Fixpoint digitsValue (acc : Z) (cs : list ascii) : option Z :=
  match cs with
  | [] => Some acc
  | c :: cs' =>
      match digitValue c with
      | Some d => digitsValue (10 * acc + d) cs'
      | None => None
      end
  end.

Definition parseDateOnly (s : string) : option Z :=
  match list_ascii_of_string s with
  | [y1; y2; y3; y4; dash1; m1; m2; dash2; d1; d2] =>
      if bool_decide (dash1 = "-"%char) && bool_decide (dash2 = "-"%char) then
        match digitsValue 0 [y1; y2; y3; y4], digitsValue 0 [m1; m2],
              digitsValue 0 [d1; d2] with
        | Some y, Some m, Some d =>
            if (1 <=? m) && (m <=? 12) && (1 <=? d)
               && (d <=? DaysInMonth y (m - 1))
            then Some (MakeDate (MakeDay y (m - 1) d) 0)
            else None
        | _, _, _ => None
        end
      else None
  | _ => None
  end.

End JSDate.

(** * The [tools] object *)

Module Tools.
Import ESDate JSDate.
Local Open Scope Z_scope.

(** The options of [cloneDate]: a field left out is [undefined]. *)
Record CloneOpts := { day : option Z; month : option Z; year : option Z }.

Definition noOpts : CloneOpts := {| day := None; month := None; year := None |}.
Definition dayOpt (d : Z) : CloneOpts :=
  {| day := Some d; month := None; year := None |}.

Section Tools.
Context {env : Env}.

(** Dates are taken here by their time value; [Objects] below has the
    same two functions on Date objects with their identity. *)
Definition cloneDate (date : Z) (opts : CloneOpts) : Z :=
  let output := date in
  let output := match year opts with Some y => setFullYear output y | None => output end in
  let output := match month opts with Some m => setMonth output m | None => output end in
  let output := match day opts with Some d => setDate output d | None => output end in
  output.

(** The [for] loop of [getDateArray]: [n] iterations left, starting at
    [day], pushing onto [dates]. *)
Fixpoint pushDays (n : nat) (firstDate day : Z) (dates : list Z) : list Z :=
  match n with
  | O => dates
  | S n' =>
      let date := cloneDate firstDate (dayOpt day) in
      pushDays n' firstDate (day + 1) (dates ++ [date])
  end.

Definition getDateArray (date : Z) : list Z :=
  let firstDate := cloneDate date (dayOpt 1) in
  let firstIndex := getDay firstDate in
  let mondayIndex := Z.rem (firstIndex + 6) 7 in
  let start := 1 - mondayIndex in
  let end_ := start + 42 in
  pushDays (Z.to_nat (end_ - start)) firstDate start [].

Definition toOrdinal (date : Z) : string :=
  let day := getDate date in
  if (3 <? day) && (day <? 21) then pretty day +:+ "th"
  else match Z.rem day 10 with
       | 1 => pretty day +:+ "st"
       | 2 => pretty day +:+ "nd"
       | 3 => pretty day +:+ "rd"
       | _ => pretty day +:+ "th"
       end.

Definition toShort (date : Z) : string := toLocaleDateString_enCA date.
Definition toMonthIndex (date : Z) : Z := getMonth date.
Definition toMonthName (date : Z) : string := toLocaleString_month date.
Definition toDayName (date : Z) : string := toLocaleString_weekday date.
Definition toYear (date : Z) : Z := getFullYear date.

Definition toPretty (date : Z) : string :=
  let name := toDayName date in
  let ordinal := toOrdinal date in
  let month := toMonthName date in
  let year := toYear date in
  name +:+ " " +:+ ordinal +:+ " " +:+ month +:+ " " +:+ pretty year.

Definition isSameDate (d1 d2 : Z) : bool :=
  (getFullYear d1 =? getFullYear d2) &&
  (getMonth d1 =? getMonth d2) &&
  (getDate d1 =? getDate d2).

(** [isToday] samples the clock: [now] is the value of its [new Date()]. *)
Definition isToday (now : Z) (date : Z) : bool :=
  let today := now in
  isSameDate date today.

(** ** Notions for the statements *)

(** The number of the local day of a date: two dates are the same
    calendar date when they have the same local day. *)
Definition localDay (t : Z) : Z := Day (LocalTime t).

(** The calendar date of a time value, as year, month index and day. *)
Definition calendarDate (t : Z) : Z * Z * Z :=
  (getFullYear t, getMonth t, getDate t).

(** The [mondayIndex] of [getDateArray]. *)
Definition mondayIndex (t : Z) : Z :=
  Z.rem (getDay (cloneDate t (dayOpt 1)) + 6) 7.

End Tools.

(** The local day of the first cell of the grid of month [mn] of [y]. *)
Definition gridStart (y mn : Z) : Z :=
  MakeDay y mn 1 - (MakeDay y mn 1 + 3) mod 7.

(** The key [toShort] gives to every date of local day [D]. *)
Definition dateKey (D : Z) : string :=
  let t := MakeDate D 0 in
  pretty (eraYear (YearFromTime t)) +:+ "-" +:+
  pad2 (MonthFromTime t + 1) +:+ "-" +:+ pad2 (DateFromTime t).

(** The suffix of an English ordinal: "th" for 11, 12 and 13 in every
    hundred; otherwise "st", "nd", "rd" after a last digit 1, 2, 3, and
    "th" after the others. *)
Definition ordinalSuffix (n : Z) : string :=
  if bool_decide (n mod 100 ∈ [11; 12; 13]) then "th"
  else if n mod 10 =? 1 then "st"
  else if n mod 10 =? 2 then "nd"
  else if n mod 10 =? 3 then "rd"
  else "th".

(** The weekday numbers of the header row Mo Tu We Th Fr Sa Su. *)
Definition weekRow : list Z := [1; 2; 3; 4; 5; 6; 0].

End Tools.


(** * Date objects with their identity

    A JavaScript [Date] is a mutable object: [setDate], [setMonth] and
    [setFullYear] change it in place. Here the objects live in a heap,
    [cloneDate] and [getDateArray] are written as in the source, and
    the facts below tell which objects they change. *)

Module Objects.
Import ESDate JSDate Tools.
Local Open Scope Z_scope.

Definition ref : Type := nat.

(** The time value of each allocated Date object, by address. *)
Definition Heap : Type := list Z.

(** Computations on the heap; [None] is the read of an address that was
    never allocated. *)
Definition M (A : Type) : Type := Heap -> option (A * Heap).

Definition ret {A : Type} (a : A) : M A := fun h => Some (a, h).

Definition bind {A B : Type} (m : M A) (k : A -> M B) : M B :=
  fun h => match m h with
           | Some (a, h') => k a h'
           | None => None
           end.

Notation "x <- m ;; k" := (bind m (fun x => k))
  (at level 100, m at next level, right associativity).
Notation "m ;;; k" := (bind m (fun _ => k))
  (at level 100, right associativity).

(** [new Date(t)] *)
Definition newDate (t : Z) : M ref :=
  fun h => Some (length h, h ++ [t]).

Definition getTime (r : ref) : M Z :=
  fun h => match h !! r with
           | Some t => Some (t, h)
           | None => None
           end.

Definition setTime (r : ref) (t : Z) : M unit :=
  fun h => match h !! r with
           | Some _ => Some (tt, <[r := t]> h)
           | None => None
           end.

(** [if (x != null) f(x)] *)
Definition whenGiven {A : Type} (o : option A) (f : A -> M unit) : M unit :=
  match o with
  | Some a => f a
  | None => ret tt
  end.

Section Objects.
Context {env : Env}.

Definition getDay (r : ref) : M Z :=
  t <- getTime r ;; ret (JSDate.getDay t).

Definition setFullYear (r : ref) (y : Z) : M unit :=
  t <- getTime r ;; setTime r (JSDate.setFullYear t y).

Definition setMonth (r : ref) (m : Z) : M unit :=
  t <- getTime r ;; setTime r (JSDate.setMonth t m).

Definition setDate (r : ref) (d : Z) : M unit :=
  t <- getTime r ;; setTime r (JSDate.setDate t d).

Definition cloneDate (date : ref) (opts : CloneOpts) : M ref :=
  t <- getTime date ;;
  output <- newDate t ;;
  whenGiven (year opts) (setFullYear output) ;;;
  whenGiven (month opts) (setMonth output) ;;;
  whenGiven (day opts) (setDate output) ;;;
  ret output.

Fixpoint pushDays (n : nat) (firstDate : ref) (day : Z) (dates : list ref)
  : M (list ref) :=
  match n with
  | O => ret dates
  | S n' =>
      date <- cloneDate firstDate (dayOpt day) ;;
      pushDays n' firstDate (day + 1) (dates ++ [date])
  end.

Definition getDateArray (date : ref) : M (list ref) :=
  firstDate <- cloneDate date (dayOpt 1) ;;
  firstIndex <- getDay firstDate ;;
  let mondayIndex := Z.rem (firstIndex + 6) 7 in
  let start := 1 - mondayIndex in
  let end_ := start + 42 in
  pushDays (Z.to_nat (end_ - start)) firstDate start [].

End Objects.

(** The time values of the objects [refs], as the heap [h] has them. *)
Definition readDates (h : Heap) (refs : list ref) : list (option Z) :=
  (fun r => h !! r) <$> refs.

End Objects.

(** * The [CalendarWidget] element *)

Module Widget.
Import ESDate JSDate Tools.
Local Open Scope Z_scope.

(** A day cell of the shadow DOM: its class list, its text and its
    [data-date] attribute ([undefined] until the first render). *)
Record DayElement := {
  classList : list string;
  textContent : string;
  dataset_date : option string
}.

(** [DOMTokenList]: [remove], [add] and [toggle]. *)
Definition classList_remove (tokens : list string) (l : list string)
  : list string :=
  filter (fun c => c ∉ tokens) l.

Definition classList_add (token : string) (l : list string) : list string :=
  if decide (token ∈ l) then l else l ++ [token].

Definition classList_toggle (token : string) (l : list string) : list string :=
  if decide (token ∈ l) then filter (fun c => c ≠ token) l else l ++ [token].

Definition withClasses (f : list string -> list string) (el : DayElement)
  : DayElement :=
  {| classList := f (classList el);
     textContent := textContent el;
     dataset_date := dataset_date el |}.

(** What a click can hit inside the shadow root. *)
Inductive Target :=
| NavigatorText
| NavigatorLeft
| NavigatorRight
| DayCell (index : nat)     (* a [.day] cell of the grid, or a node inside it *)
| DayGridGap                (* the grid container itself, between two cells *)
| Elsewhere.                (* the weekday row, the navigator bar *)

(** The markup [<div class="cell day">&#8203;</div>], U+200B in UTF-8. *)
Definition zeroWidthSpace : string :=
  String (ascii_of_nat 226) (String (ascii_of_nat 128)
    (String (ascii_of_nat 139) EmptyString)).

Definition blankDay : DayElement :=
  {| classList := ["cell"; "day"]; textContent := zeroWidthSpace;
     dataset_date := None |}.

Section Widget.
Context {env : Env}.

(** The host page is abstract: its state is of type [Host], and the
    callback [onDayClick(date, element)] acts on it. The element is
    given by its index in the grid. *)
Variable Host : Type.

Definition Callback : Type := Z -> nat -> Host -> Host.

Record CalendarWidget := {
  dateChosen : Z;
  dateToday : Z;
  dateDisplayed : Z;
  starredDates : list string;
  onDayClick : option Callback;
  navigatorText : string;
  dayGrid : list DayElement
}.

Definition set_dateChosen (d : Z) (w : CalendarWidget) : CalendarWidget :=
  {| dateChosen := d; dateToday := dateToday w;
     dateDisplayed := dateDisplayed w; starredDates := starredDates w;
     onDayClick := onDayClick w; navigatorText := navigatorText w;
     dayGrid := dayGrid w |}.

Definition set_dateDisplayed (d : Z) (w : CalendarWidget) : CalendarWidget :=
  {| dateChosen := dateChosen w; dateToday := dateToday w;
     dateDisplayed := d; starredDates := starredDates w;
     onDayClick := onDayClick w; navigatorText := navigatorText w;
     dayGrid := dayGrid w |}.

Definition set_starredDates (l : list string) (w : CalendarWidget)
  : CalendarWidget :=
  {| dateChosen := dateChosen w; dateToday := dateToday w;
     dateDisplayed := dateDisplayed w; starredDates := l;
     onDayClick := onDayClick w; navigatorText := navigatorText w;
     dayGrid := dayGrid w |}.

Definition set_onDayClick (cb : option Callback) (w : CalendarWidget)
  : CalendarWidget :=
  {| dateChosen := dateChosen w; dateToday := dateToday w;
     dateDisplayed := dateDisplayed w; starredDates := starredDates w;
     onDayClick := cb; navigatorText := navigatorText w;
     dayGrid := dayGrid w |}.

Definition set_view (text : string) (cells : list DayElement)
  (w : CalendarWidget) : CalendarWidget :=
  {| dateChosen := dateChosen w; dateToday := dateToday w;
     dateDisplayed := dateDisplayed w; starredDates := starredDates w;
     onDayClick := onDayClick w; navigatorText := text;
     dayGrid := cells |}.

Definition resetDayClasses (day : DayElement) : DayElement :=
  withClasses (classList_remove ["dimmed"; "marked"; "starred"; "today"]) day.

Definition shouldStar (w : CalendarWidget) (date : Z) : bool :=
  let shortDate := toShort date in
  bool_decide (shortDate ∈ starredDates w).

Definition toggleDayMarked (day : DayElement) : DayElement :=
  withClasses (classList_toggle "marked") day.

(** The body of the loop of [updateCalendar] on one cell; [now] is the
    clock read by [isToday] for this cell. *)
Definition renderDay (w : CalendarWidget) (date now dateObject : Z)
  (dayElement : DayElement) : DayElement :=
  let dayElement := resetDayClasses dayElement in
  let dayElement :=
    if negb (getMonth dateObject =? getMonth date) then
      withClasses (classList_add "dimmed") dayElement
    else if isToday now dateObject then
      withClasses (classList_add "today") dayElement
    else if isSameDate dateObject (dateChosen w) then
      withClasses (classList_add "marked") dayElement
    else if shouldStar w dateObject then
      withClasses (classList_add "starred") dayElement
    else dayElement in
  {| classList := classList dayElement;
     textContent := pretty (getDate dateObject);
     dataset_date := Some (toShort dateObject) |}.

(** The loop over [dateObjects.entries()]. A result [None] is the
    TypeError of [dayElements[index]] being [undefined]. The clock is
    given per cell: [clock index] is the time read for cell [index]. *)
Fixpoint renderDays (w : CalendarWidget) (date : Z) (clock : nat -> Z)
  (index : nat) (dateObjects : list Z) (dayElements : list DayElement)
  : option (list DayElement) :=
  match dateObjects with
  | [] => Some dayElements
  | dateObject :: rest =>
      match dayElements !! index with
      | None => None
      | Some dayElement =>
          renderDays w date clock (S index) rest
            (<[index := renderDay w date (clock index) dateObject dayElement]>
               dayElements)
      end
  end.

Definition updateCalendar (clock : nat -> Z) (date : Z) (w : CalendarWidget)
  : option CalendarWidget :=
  let dateObjects := getDateArray date in
  let dayElements := dayGrid w in
  let monthName := toMonthName date in
  let year := toYear date in
  match renderDays w date clock 0 dateObjects dayElements with
  | Some cells => Some (set_view (monthName +:+ " " +:+ pretty year) cells w)
  | None => None
  end.

Definition navigateMonth (clock : nat -> Z) (change : Z) (w : CalendarWidget)
  : option CalendarWidget :=
  let currentMonth := getMonth (dateDisplayed w) in
  let w := set_dateDisplayed (setMonth (dateDisplayed w) (currentMonth + change)) w in
  updateCalendar clock (dateDisplayed w) w.

(** The constructor: three readings of the clock, then the first render. *)
Definition construct (now1 now2 now3 : Z) (clock : nat -> Z)
  : option CalendarWidget :=
  let w := {| starredDates := []; dateToday := now1; dateChosen := now2;
              dateDisplayed := now3; onDayClick := None;
              navigatorText := ""; dayGrid := replicate 42 blankDay |} in
  updateCalendar clock (dateToday w) w.

(** The page: the widget, the host and the number of pending
    [setTimeout] callbacks (all of them the same closure). *)
Record World := {
  widget : CalendarWidget;
  host : Host;
  timeouts : nat
}.

Definition set_widget (w : CalendarWidget) (W : World) : World :=
  {| widget := w; host := host W; timeouts := timeouts W |}.

(** The click listener of [setupListeners]. A result [None] stands for
    what the model leaves out: a TypeError, or a [data-date] that is not
    in the date-only format, whose reading depends on the engine. *)
Definition click (clock : nat -> Z) (target : Target) (W : World)
  : option World :=
  let w := widget W in
  match target with
  | NavigatorText =>
      w' ← updateCalendar clock (dateToday w) w; Some (set_widget w' W)
  | NavigatorLeft =>
      w' ← navigateMonth clock (-1) w; Some (set_widget w' W)
  | NavigatorRight =>
      w' ← navigateMonth clock 1 w; Some (set_widget w' W)
  | DayCell index =>
      match dayGrid w !! index with
      | None => Some W
      | Some element =>
          match onDayClick w with
          | Some callback =>
              key ← dataset_date element;
              chosen ← parseDateOnly key;
              Some {| widget := set_dateChosen chosen w;
                      host := callback chosen index (host W);
                      timeouts := S (timeouts W) |}
          | None => Some W
          end
      end
  | DayGridGap => Some W
  | Elsewhere => Some W
  end.

(** A pending timeout fires: [this.updateCalendar(this.dateChosen)],
    with the field as it is when the callback runs. *)
Definition timeout (clock : nat -> Z) (W : World) : option World :=
  match timeouts W with
  | O => Some W
  | S n =>
      w' ← updateCalendar clock (dateChosen (widget W)) (widget W);
      Some {| widget := w'; host := host W; timeouts := n |}
  end.

(** What the host page does to the widget. *)
Inductive Event :=
| Click (target : Target)
| Timeout
| SetOnDayClick (callback : option Callback)
| PushStarred (keys : list string)
| UpdateCalendar (date : Z)
| NavigateMonth (change : Z).

Definition step (clock : nat -> Z) (e : Event) (W : World) : option World :=
  match e with
  | Click target => click clock target W
  | Timeout => timeout clock W
  | SetOnDayClick cb => Some (set_widget (set_onDayClick cb (widget W)) W)
  | PushStarred keys =>
      Some (set_widget
              (set_starredDates (starredDates (widget W) ++ keys) (widget W)) W)
  | UpdateCalendar date =>
      w' ← updateCalendar clock date (widget W); Some (set_widget w' W)
  | NavigateMonth change =>
      w' ← navigateMonth clock change (widget W); Some (set_widget w' W)
  end.

End Widget.

Arguments dateChosen {Host} _.
Arguments dateToday {Host} _.
Arguments dateDisplayed {Host} _.
Arguments starredDates {Host} _.
Arguments onDayClick {Host} _.
Arguments navigatorText {Host} _.
Arguments dayGrid {Host} _.
Arguments set_dateChosen {Host} _ _.
Arguments set_dateDisplayed {Host} _ _.
Arguments set_starredDates {Host} _ _.
Arguments set_onDayClick {Host} _ _.
Arguments set_view {Host} _ _ _.
Arguments shouldStar {env Host} _ _.
Arguments renderDay {env Host} _ _ _ _ _.
Arguments renderDays {env Host} _ _ _ _ _ _.
Arguments updateCalendar {env Host} _ _ _.
Arguments navigateMonth {env Host} _ _ _.
Arguments construct {env Host} _ _ _ _.
Arguments widget {Host} _.
Arguments host {Host} _.
Arguments timeouts {Host} _.
Arguments set_widget {Host} _ _.
Arguments click {env Host} _ _ _.
Arguments timeout {env Host} _ _.
Arguments Click {Host} _.
Arguments Timeout {Host}.
Arguments SetOnDayClick {Host} _.
Arguments PushStarred {Host} _.
Arguments UpdateCalendar {Host} _.
Arguments NavigateMonth {Host} _.
Arguments step {env Host} _ _ _.

(** ** Notions for the statements *)

(** The classes of a cell that tell its state, and the others. *)
Definition stateClasses (el : DayElement) : list string :=
  filter (fun c => c ∈ ["dimmed"; "marked"; "starred"; "today"]) (classList el).

Definition otherClasses (el : DayElement) : list string :=
  filter (fun c => c ∉ ["dimmed"; "marked"; "starred"; "today"]) (classList el).

(** The header label of the month of [date]: ["<MonthName> <Year>"]. *)
Definition monthLabel {env : Env} (date : Z) : string :=
  toMonthName date +:+ " " +:+ pretty (toYear date).

(** The visual state of a day cell as the specification has it, first
    match first: a date outside the year and month of the anchor is
    dimmed; else the current date is today; else the chosen date is
    marked; else a date whose key is starred is starred. *)
Inductive Classification := Dimmed | Today | Marked | Starred | Plain.

Definition classification {env : Env} (anchor now chosen : Z)
  (starred : list string) (d : Z) : Classification :=
  if bool_decide ((getFullYear d, getMonth d) ≠ (getFullYear anchor, getMonth anchor))
  then Dimmed
  else if bool_decide (calendarDate d = calendarDate now) then Today
  else if bool_decide (calendarDate d = calendarDate chosen) then Marked
  else if bool_decide (toShort d ∈ starred) then Starred
  else Plain.

Definition classesOf (c : Classification) : list string :=
  match c with
  | Dimmed => ["dimmed"]
  | Today => ["today"]
  | Marked => ["marked"]
  | Starred => ["starred"]
  | Plain => []
  end.

(** The widget shows the month of [anchor]: the label names it and the
    cells hold the days and the keys of its grid. *)
Definition showsMonth {env : Env} {Host : Type} (w : CalendarWidget Host)
  (anchor : Z) : Prop :=
  navigatorText w = monthLabel anchor /\
  forall j dj, getDateArray anchor !! j = Some dj ->
    exists el, dayGrid w !! j = Some el /\
               textContent el = pretty (getDate dj) /\
               dataset_date el = Some (toShort dj).

(** The page is well formed: 42 cells, showing one month. *)
Definition wellFormed {env : Env} {Host : Type} (W : World Host) : Prop :=
  length (dayGrid (widget W)) = 42%nat /\
  exists anchor, showsMonth (widget W) anchor.

(** A run of events, each with the clock read while it is handled. *)
Fixpoint runEvents {env : Env} {Host : Type}
  (events : list ((nat -> Z) * Event Host)) (W : World Host)
  : option (World Host) :=
  match events with
  | [] => Some W
  | (clock, e) :: events' =>
      match step clock e W with
      | Some W' => runEvents events' W'
      | None => None
      end
  end.

(** The timeouts a run of events fires, if as many are pending. *)
Fixpoint firings {Host : Type} (events : list ((nat -> Z) * Event Host)) : nat :=
  match events with
  | [] => 0
  | (_, Timeout) :: events' => S (firings events')
  | _ :: events' => firings events'
  end.

(** The events that move the month anchor. *)
Definition movesAnchor {Host : Type} (e : Event Host) : Prop :=
  match e with
  | Click NavigatorLeft | Click NavigatorRight | NavigateMonth _ => True
  | _ => False
  end.

Definition isDayClick {Host : Type} (e : Event Host) : Prop :=
  match e with
  | Click (DayCell _) => True
  | _ => False
  end.

End Widget.

(** * [SimpleDatabase] *)

Module Database.

(** JavaScript values, as far as [typeof] tells them apart. A string is
    a sequence of code units below 256. *)
Inductive JsValue :=
| JsString (s : string)
| JsNumber (n : Z)
| JsBoolean (b : bool)
| JsNull
| JsUndefined.

Global Instance JsValue_eq_dec : EqDecision JsValue.
Proof. solve_decision. Defined.

(** [String.prototype.trim]: white space and line terminators among the
    code units below 256 are TAB, LF, VT, FF, CR, SP and NBSP. *)
Definition isWhiteSpace (c : ascii) : bool :=
  bool_decide (nat_of_ascii c ∈ [9; 10; 11; 12; 13; 32; 160]%nat).

Fixpoint trimStart (s : string) : string :=
  match s with
  | EmptyString => EmptyString
  | String c s' => if isWhiteSpace c then trimStart s' else s
  end.

Definition trim (s : string) : string :=
  String.rev (trimStart (String.rev (trimStart s))).

Definition validString (args : list JsValue) : bool :=
  forallb (fun arg =>
             match arg with
             | JsString s => negb (bool_decide (trim s = ""))
             | _ => false
             end) args.

(** An error object, by its [name] and [message]. *)
Record JsError := { name : string; description : string }.

Global Instance JsError_eq_dec : EqDecision JsError.
Proof. solve_decision. Defined.

(** [new Error(text)] *)
Definition newError (text : string) : JsError :=
  {| name := "Error"; description := text |}.

(** [`${error?.name}`] where [error] may be [null] *)
Definition nameOf (error : option JsError) : string :=
  match error with
  | Some e => name e
  | None => "undefined"
  end.

(** The result objects [{ success, data?, message?, error? }]. *)
Record Result (D : Type) := {
  success : bool;
  data : option D;
  message : option string;
  error : option JsError
}.
Arguments success {D} _.
Arguments data {D} _.
Arguments message {D} _.
Arguments error {D} _.

Definition succeeded {D : Type} : Result D :=
  {| success := true; data := None; message := None; error := None |}.
Definition succeededWith {D : Type} (d : D) : Result D :=
  {| success := true; data := Some d; message := None; error := None |}.
Definition failed {D : Type} (msg : string) : Result D :=
  {| success := false; data := None; message := Some msg; error := None |}.
Definition failedWith {D : Type} (msg : string) (e : option JsError) : Result D :=
  {| success := false; data := None; message := Some msg; error := e |}.

(** A promise is pending until it is settled, and the first settlement
    stays. *)
Inductive Promise (D : Type) :=
| Pending
| Fulfilled (r : Result D)
| Rejected (reason : JsError).
Arguments Pending {D}.
Arguments Fulfilled {D} _.
Arguments Rejected {D} _.

Definition resolve {D : Type} (r : Result D) (p : Promise D) : Promise D :=
  match p with
  | Pending => Fulfilled r
  | _ => p
  end.

(** ** The IndexedDB side

    The browser holds, for each database name, the contents of its
    object store ['default']. A request answers by events, fired in
    order; the program hands the first of them to [resolve]. In the
    operations of this module the calls [transaction], [objectStore],
    [put], [get] themselves return normally: the connection is open and
    the store exists, as [open] leaves them. The calls that throw come
    with [Executor], after this module. *)
Abbreviation Store := (gmap string JsValue).
Abbreviation Browser := (gmap string Store).

Inductive IDBEvent :=
| UpgradeNeeded
| Blocked
| RequestSuccess
| RequestError (error : option JsError)
| TransactionError (error : option JsError)
| TransactionAbort
| TransactionComplete.

Global Instance IDBEvent_eq_dec : EqDecision IDBEvent.
Proof. solve_decision. Defined.

(** The transaction of a request commits when its [complete] event
    fires; a write is kept only then. *)
Definition committed (events : list IDBEvent) : bool :=
  bool_decide (TransactionComplete ∈ events).

(** A connection, by the name of its database. *)
Record IDBDatabase := { dbName : string }.

Record SimpleDatabase := {
  _dbName : string;
  _storeNames : list string;
  _storeName : string;
  _db : option IDBDatabase
}.

Definition set_db (db : option IDBDatabase) (this : SimpleDatabase)
  : SimpleDatabase :=
  {| _dbName := _dbName this; _storeNames := _storeNames this;
     _storeName := _storeName this; _db := db |}.

(** The constructor throws on a name that is not a valid string. *)
Definition constructor (dbName : JsValue) : JsError + SimpleDatabase :=
  match dbName with
  | JsString s =>
      if validString [dbName] then
        inr {| _dbName := s; _storeNames := ["default"];
               _storeName := "default"; _db := None |}
      else inl (newError "Expected non-empty string for dbName")
  | _ => inl (newError "Expected non-empty string for dbName")
  end.

(** The state an operation runs in, and what it leaves. *)
Definition State : Type := SimpleDatabase * Browser.

Definition storeOf (st : State) : Store :=
  default ∅ (st.2 !! _dbName st.1).

(** Events given to handlers, one after the other. *)
Definition dispatch {D : Type} (handler : IDBEvent -> Promise D -> Promise D)
  (events : list IDBEvent) : Promise D :=
  foldl (fun p ev => handler ev p) Pending events.

(** *** [open] *)
Definition open_handlers (ev : IDBEvent) (p : Promise unit) : Promise unit :=
  match ev with
  | RequestSuccess => resolve succeeded p
  | RequestError e =>
      resolve (failedWith ("Error in the opening process: " +:+ nameOf e) e) p
  | _ => p
  end.

Definition open (events : list IDBEvent) (st : State) : Promise unit * State :=
  let (this, browser) := st in
  match _db this with
  | Some _ => (Fulfilled succeeded, st)
  | None =>
      if bool_decide (RequestSuccess ∈ events) then
        (dispatch open_handlers events,
         (set_db (Some {| dbName := _dbName this |}) this,
          match browser !! _dbName this with
          | Some _ => browser
          | None => <[_dbName this := ∅]> browser
          end))
      else (dispatch open_handlers events, st)
  end.

(** *** [save] *)
Definition save_handlers (ev : IDBEvent) (p : Promise unit) : Promise unit :=
  match ev with
  | RequestSuccess => resolve succeeded p
  | RequestError e =>
      resolve (failedWith ("Error in the saving process: " +:+ nameOf e) e) p
  | TransactionError e =>
      resolve (failedWith ("Error in the saving process: " +:+ nameOf e) e) p
  | TransactionAbort =>
      let error := newError "Transaction aborted" in
      resolve (failedWith ("Error in the saving process: " +:+ name error)
                 (Some error)) p
  | _ => p
  end.

Definition save (key value : JsValue) (events : list IDBEvent) (st : State)
  : Promise unit * State :=
  let (this, browser) := st in
  match _db this with
  | None => (Fulfilled (failed "Database not currently linked"), st)
  | Some _ =>
      if negb (validString [key; value]) then
        (Fulfilled (failed "Expected a non-empty string"), st)
      else
        match key with
        | JsString k =>
            (dispatch save_handlers events,
             if committed events
             then (this, <[_dbName this := <[k := value]> (storeOf st)]> browser)
             else st)
        | _ => (dispatch save_handlers events, st)
        end
  end.

(** *** [load] *)
Definition nullish (v : JsValue) : bool :=
  match v with
  | JsNull | JsUndefined => true
  | _ => false
  end.

(** The handlers of the three reading requests; [result] is
    [request.result]. *)
Definition load_handlers {D : Type} (result : option D)
  (ev : IDBEvent) (p : Promise D) : Promise D :=
  match ev with
  | RequestSuccess =>
      match result with
      | Some d => resolve (succeededWith d) p
      | None => resolve (failed "Data was nullish") p
      end
  | RequestError e =>
      resolve (failedWith ("Error in the loading process: " +:+ nameOf e) e) p
  | TransactionError e =>
      resolve (failedWith ("Error in the loading process: " +:+ nameOf e) e) p
  | TransactionAbort =>
      let error := newError "Transaction aborted" in
      resolve (failedWith ("Error in the loading process: " +:+ name error)
                 (Some error)) p
  | _ => p
  end.

(** [store.get(key)]: the value, or [undefined]; [result != null]. *)
Definition getResult (st : State) (k : string) : option JsValue :=
  let result := default JsUndefined (storeOf st !! k) in
  if nullish result then None else Some result.

Definition load (key : JsValue) (events : list IDBEvent) (st : State)
  : Promise JsValue * State :=
  match _db st.1 with
  | None => (Fulfilled (failed "Database not currently linked"), st)
  | Some _ =>
      if negb (validString [key]) then
        (Fulfilled (failed "Expected a non-empty string"), st)
      else
        match key with
        | JsString k => (dispatch (load_handlers (getResult st k)) events, st)
        | _ => (dispatch (load_handlers None) events, st)
        end
  end.

(** *** [_loadAllKeys], [_loadAllValues], [loadAll] *)
Definition _loadAllKeys (events : list IDBEvent) (st : State)
  : Promise (list string) * State :=
  match _db st.1 with
  | None => (Fulfilled (failed "Database not currently linked"), st)
  | Some _ =>
      (dispatch (load_handlers (Some (map fst (map_to_list (storeOf st)))))
         events, st)
  end.

Definition _loadAllValues (events : list IDBEvent) (st : State)
  : Promise (list JsValue) * State :=
  match _db st.1 with
  | None => (Fulfilled (failed "Database not currently linked"), st)
  | Some _ =>
      (dispatch (load_handlers (Some (map snd (map_to_list (storeOf st)))))
         events, st)
  end.

(** [data[key] = value] on the plain object [data] of [loadAll], held
    here by its own properties. The key ['__proto__'] names the accessor
    of [Object.prototype]: the assignment calls its setter, which makes
    no own property (a value that is no object is ignored, [null] only
    takes the prototype away). Any other key becomes an own property. *)
Definition assign (key : string) (value : JsValue) (data : gmap string JsValue)
  : gmap string JsValue :=
  if bool_decide (key = "__proto__") then data else <[key := value]> data.

(** The cursor of [loadAll] fires [success] once per record and once
    more at the end; [records] are those still ahead. *)
Fixpoint loadAll_cursor (records : list (string * JsValue))
  (data : gmap string JsValue) (events : list IDBEvent)
  : Promise (gmap string JsValue) :=
  match events with
  | [] => Pending
  | RequestSuccess :: events' =>
      match records with
      | (k, v) :: records' => loadAll_cursor records' (assign k v data) events'
      | [] => Fulfilled (succeededWith data)
      end
  | RequestError e :: _ =>
      Fulfilled (failedWith ("Error in the loading process: " +:+ nameOf e) e)
  | TransactionError e :: _ =>
      Fulfilled (failedWith ("Error in the loading process: " +:+ nameOf e) e)
  | TransactionAbort :: _ =>
      let error := newError "Transaction aborted" in
      Fulfilled (failedWith ("Error in the loading process: " +:+ name error)
                   (Some error))
  | _ :: events' => loadAll_cursor records data events'
  end.

Definition loadAll (events : list IDBEvent) (st : State)
  : Promise (gmap string JsValue) * State :=
  match _db st.1 with
  | None => (Fulfilled (failed "Database not currently linked"), st)
  | Some _ => (loadAll_cursor (map_to_list (storeOf st)) ∅ events, st)
  end.

(** *** [_close], [_destroy], [reset] *)
Definition _close (st : State) : State :=
  match _db st.1 with
  | Some _ => (set_db None st.1, st.2)
  | None => st
  end.

Definition destroy_handlers (ev : IDBEvent) (p : Promise unit) : Promise unit :=
  match ev with
  | RequestSuccess => resolve succeeded p
  | Blocked =>
      let error := newError "Deletion blocked, other tabs may be accessing data" in
      resolve (failedWith ("Error in the deletion process: " +:+ name error)
                 (Some error)) p
  | RequestError e =>
      resolve (failedWith ("Error in the deletion process: " +:+ nameOf e) e) p
  | _ => p
  end.

Definition _destroy (events : list IDBEvent) (st : State)
  : Promise unit * State :=
  match _db st.1 with
  | None => (Fulfilled (failed "Database not currently linked"), st)
  | Some _ =>
      let st := _close st in
      (dispatch destroy_handlers events,
       if bool_decide (RequestSuccess ∈ events)
       then (st.1, delete (_dbName st.1) st.2)
       else st)
  end.

(** [reset] awaits [_destroy], then [open]; an [await] on a rejected
    promise would throw, and reject the promise of [reset]. *)
Definition reset (events1 events2 : list IDBEvent) (st : State)
  : Promise unit * State :=
  match _destroy events1 st with
  | (Fulfilled destroyResult, st1) =>
      if negb (success destroyResult) then (Fulfilled destroyResult, st1)
      else
        match open events2 st1 with
        | (Fulfilled openResult, st2) =>
            if negb (success openResult) then (Fulfilled openResult, st2)
            else (Fulfilled succeeded, st2)
        | (Pending, st2) => (Pending, st2)
        | (Rejected e, st2) => (Rejected e, st2)
        end
  | (Pending, st1) => (Pending, st1)
  | (Rejected e, st1) => (Rejected e, st1)
  end.

(** ** Notions for the statements *)

(** A promise is safe when it is not rejected and, if it is fulfilled
    with a failure, the result has a message. *)
Definition settlesSafely {D : Type} (p : Promise D) : Prop :=
  match p with
  | Pending => True
  | Fulfilled r => success r = false -> is_Some (message r)
  | Rejected _ => False
  end.


(** The database is linked: [this._db] is set. *)
Definition linked (st : State) : Prop := is_Some (_db st.1).

(** A string of white space only, the empty string among them. *)
Fixpoint blank (s : string) : bool :=
  match s with
  | EmptyString => true
  | String c s' => isWhiteSpace c && blank s'
  end.

(** The instance is not linked: [this._db] is [null]. *)
Definition unlinked (st : State) : Prop := _db st.1 = None.

(** The result every operation but [open] gives on an instance that is
    not linked. *)
Definition notLinked {D : Type} : Promise D :=
  Fulfilled (failed "Database not currently linked").

End Database.

(** * [SimpleDatabase], the calls that throw

    A call to IndexedDB need not return: [transaction] throws when the
    connection is closing or a store it names is missing
    ([InvalidStateError], [NotFoundError]), [put] when the value cannot
    be cloned, [indexedDB.open] and [indexedDB.deleteDatabase] where
    the storage is denied. Every operation makes its calls inside the
    executor of its promise, after its tests on [this._db] and on its
    arguments; no [try] is around them, and an exception thrown in an
    executor rejects the promise. The handlers, set after the calls,
    are not reached then.

    The browser answers the calls of an operation by an exception, or
    by the events of the request as in [Database]. *)

Module Executor.
Import Database.

Inductive Answer :=
| Thrown (reason : JsError)
| Fired (events : list IDBEvent).

Definition open (answer : Answer) (st : State) : Promise unit * State :=
  match answer with
  | Fired events => Database.open events st
  | Thrown reason =>
      match _db st.1 with
      | Some _ => (Fulfilled succeeded, st)
      | None => (Rejected reason, st)
      end
  end.

Definition save (key value : JsValue) (answer : Answer) (st : State)
  : Promise unit * State :=
  match answer with
  | Fired events => Database.save key value events st
  | Thrown reason =>
      match _db st.1 with
      | None => (Fulfilled (failed "Database not currently linked"), st)
      | Some _ =>
          if negb (validString [key; value]) then
            (Fulfilled (failed "Expected a non-empty string"), st)
          else (Rejected reason, st)
      end
  end.

Definition load (key : JsValue) (answer : Answer) (st : State)
  : Promise JsValue * State :=
  match answer with
  | Fired events => Database.load key events st
  | Thrown reason =>
      match _db st.1 with
      | None => (Fulfilled (failed "Database not currently linked"), st)
      | Some _ =>
          if negb (validString [key]) then
            (Fulfilled (failed "Expected a non-empty string"), st)
          else (Rejected reason, st)
      end
  end.

Definition _loadAllKeys (answer : Answer) (st : State)
  : Promise (list string) * State :=
  match answer with
  | Fired events => Database._loadAllKeys events st
  | Thrown reason =>
      match _db st.1 with
      | None => (Fulfilled (failed "Database not currently linked"), st)
      | Some _ => (Rejected reason, st)
      end
  end.

Definition _loadAllValues (answer : Answer) (st : State)
  : Promise (list JsValue) * State :=
  match answer with
  | Fired events => Database._loadAllValues events st
  | Thrown reason =>
      match _db st.1 with
      | None => (Fulfilled (failed "Database not currently linked"), st)
      | Some _ => (Rejected reason, st)
      end
  end.

Definition loadAll (answer : Answer) (st : State)
  : Promise (gmap string JsValue) * State :=
  match answer with
  | Fired events => Database.loadAll events st
  | Thrown reason =>
      match _db st.1 with
      | None => (Fulfilled (failed "Database not currently linked"), st)
      | Some _ => (Rejected reason, st)
      end
  end.

(** [_destroy] closes the connection before it calls
    [indexedDB.deleteDatabase]. *)
Definition _destroy (answer : Answer) (st : State) : Promise unit * State :=
  match answer with
  | Fired events => Database._destroy events st
  | Thrown reason =>
      match _db st.1 with
      | None => (Fulfilled (failed "Database not currently linked"), st)
      | Some _ => (Rejected reason, _close st)
      end
  end.

(** [reset] awaits [_destroy], then [open]; an [await] on a rejected
    promise throws, and rejects the promise of [reset]. *)
Definition reset (answer1 answer2 : Answer) (st : State)
  : Promise unit * State :=
  match _destroy answer1 st with
  | (Fulfilled destroyResult, st1) =>
      if negb (success destroyResult) then (Fulfilled destroyResult, st1)
      else
        match open answer2 st1 with
        | (Fulfilled openResult, st2) =>
            if negb (success openResult) then (Fulfilled openResult, st2)
            else (Fulfilled succeeded, st2)
        | (Pending, st2) => (Pending, st2)
        | (Rejected e, st2) => (Rejected e, st2)
        end
  | (Pending, st1) => (Pending, st1)
  | (Rejected e, st1) => (Rejected e, st1)
  end.

(** ** Notions for the statements *)


End Executor.

(** * The page: the widget and the database put together

    The script of the page builds a [SimpleDatabase] and a
    [CalendarWidget] in its [load] handler, fills the starred dates from
    the keys stored, and sets [onDayClick] to show the note of the day
    chosen. Ctrl+S saves the text under the date of the footer.

    Each handler is run to its end before the next event: the promise
    it awaits is settled, or not, by the events the browser answers the
    request with. The flashes of the footer and the console are left
    out. *)

Module Page.
Import ESDate JSDate Tools Widget Database.

Definition APP_NAME : string := "2025-08-03_CALENDAR_NOTES".

Definition THEMES : list (string * string) :=
  [("Default", "default"); ("Monochrome", "monochrome");
   ("Emerald", "emerald"); ("Ocean", "ocean"); ("Sunset", "sunset");
   ("Forest", "forest"); ("Neon", "neon"); ("Amber", "amber")].

(** [setTheme(name)], on [document.body]: the value it gives
    [dataset.theme]. A name left out is [None]. *)
Definition setTheme (name : option string) : string :=
  match name with
  | Some n =>
      if bool_decide (n = "") || bool_decide (n = "default") then "" else n
  | None => ""
  end.

(** What the script keeps and what it reads and writes in the document:
    the text and the [data-date] of the footer, the class [shown] of the
    modal, the value of the text area, the theme of the body. With them,
    the database and the browser behind it, and the answers the browser
    will give to the requests to come, one list of events for each. *)
Record PageState := {
  footerText : string;
  footerDate : string;
  modalShown : bool;
  textarea : string;
  database : State;
  responses : list (list IDBEvent);
  theme : string;
  themeIndex : nat
}.

Definition set_footer (text date : string) (h : PageState) : PageState :=
  {| footerText := text; footerDate := date; modalShown := modalShown h;
     textarea := textarea h; database := database h;
     responses := responses h; theme := theme h; themeIndex := themeIndex h |}.

Definition set_modalShown (b : bool) (h : PageState) : PageState :=
  {| footerText := footerText h; footerDate := footerDate h; modalShown := b;
     textarea := textarea h; database := database h;
     responses := responses h; theme := theme h; themeIndex := themeIndex h |}.

Definition set_textarea (text : string) (h : PageState) : PageState :=
  {| footerText := footerText h; footerDate := footerDate h;
     modalShown := modalShown h; textarea := text; database := database h;
     responses := responses h; theme := theme h; themeIndex := themeIndex h |}.

Definition set_database (st : State) (rs : list (list IDBEvent))
  (h : PageState) : PageState :=
  {| footerText := footerText h; footerDate := footerDate h;
     modalShown := modalShown h; textarea := textarea h; database := st;
     responses := rs; theme := theme h; themeIndex := themeIndex h |}.

Definition set_theme (index : nat) (name : string) (h : PageState) : PageState :=
  {| footerText := footerText h; footerDate := footerDate h;
     modalShown := modalShown h; textarea := textarea h;
     database := database h; responses := responses h; theme := name;
     themeIndex := index |}.

(** The answer of the browser to the next request. *)
Definition nextResponse (rs : list (list IDBEvent))
  : list IDBEvent * list (list IDBEvent) :=
  match rs with
  | [] => ([], [])
  | events :: rs' => (events, rs')
  end.

(** [save] and [load] ask the browser only once the instance is linked
    and the arguments are valid strings. *)
Definition asks (args : list JsValue) (st : State) : bool :=
  bool_decide (is_Some (_db st.1)) && validString args.

Definition responseTo (args : list JsValue) (h : PageState)
  : list IDBEvent * list (list IDBEvent) :=
  if asks args (database h) then nextResponse (responses h)
  else ([], responses h).

(** The host of the widget is the page. [None] stands for what the
    model leaves out: a value loaded that is not a string, given to
    [textarea.value]. *)
Definition PageHost : Type := option PageState.

Section Page.
Context {env : Env}.

(** The callback the script gives [onDayClick]. An [await] on a promise
    that is not settled leaves the rest of the handler undone. *)
Definition onDayClickCallback : Callback PageHost :=
  fun date element host =>
    h ← host;
    let h := set_footer (toPretty date) (toShort date) h in
    let h := set_modalShown false h in
    let date := footerDate h in
    let (events, rs) := responseTo [JsString date] h in
    let (promise, st) := load (JsString date) events (database h) in
    let h := set_database st rs h in
    match promise with
    | Fulfilled result =>
        if success result then
          match data result with
          | Some (JsString text) => Some (set_textarea text h)
          | _ => None
          end
        else Some (set_textarea "" h)
    | _ => Some h
    end.

(** The [keydown] listener, on Ctrl+S. *)
Definition saveNote (W : World PageHost) : option (World PageHost) :=
  h ← host W;
  let text := textarea h in
  let date := footerDate h in
  let (events, rs) := responseTo [JsString date; JsString text] h in
  let (promise, st) := save (JsString date) (JsString text) events (database h) in
  let h := set_database st rs h in
  match promise with
  | Fulfilled result =>
      if success result then
        Some {| widget := set_starredDates (starredDates (widget W) ++ [date])
                            (widget W);
                host := Some h; timeouts := timeouts W |}
      else Some {| widget := widget W; host := Some h; timeouts := timeouts W |}
  | _ => Some {| widget := widget W; host := Some h; timeouts := timeouts W |}
  end.

(** The [mousedown] listener, on a middle click. *)
Definition cycleTheme (h : PageState) : PageState :=
  let themeValues := THEMES.*2 in
  let themeIndex := ((themeIndex h + 1) `mod` length themeValues)%nat in
  let themeName := themeValues !! themeIndex in
  set_theme themeIndex (setTheme themeName) h.

Definition onHost (f : PageState -> PageState) (W : World PageHost)
  : option (World PageHost) :=
  h ← host W;
  Some {| widget := widget W; host := Some (f h); timeouts := timeouts W |}.

(** What happens on the page once it is set up. *)
Inductive PageEvent :=
| WidgetClick (clock : nat -> Z) (target : Target)
| WidgetTimeout (clock : nat -> Z)
| KeyCtrlS
| Typing (text : string)
| MiddleClick
| FooterDateClick
| ModalClick (inContent : bool).

Definition pageStep (e : PageEvent) (W : World PageHost) : option (World PageHost) :=
  match e with
  | WidgetClick clock target => click clock target W
  | WidgetTimeout clock => timeout clock W
  | KeyCtrlS => saveNote W
  | Typing text => onHost (set_textarea text) W
  | MiddleClick => onHost cycleTheme W
  | FooterDateClick => onHost (set_modalShown true) W
  | ModalClick inContent =>
      if inContent then Some W else onHost (set_modalShown false) W
  end.

Fixpoint runPage (events : list PageEvent) (W : World PageHost)
  : option (World PageHost) :=
  match events with
  | [] => Some W
  | e :: events' =>
      match pageStep e W with
      | Some W' => runPage events' W'
      | None => None
      end
  end.

(** ** The [load] handler of the window *)

(** How the handler ends: the page is ready, or an exception is thrown,
    or an awaited promise is never settled. *)
Inductive Outcome :=
| Ready (W : World PageHost)
| Throws (error : string)
| Waits.

Definition await {D : Type} (p : Promise D) (k : Result D -> Outcome) : Outcome :=
  match p with
  | Fulfilled result => k result
  | Rejected reason => Throws (name reason)
  | Pending => Waits
  end.

(** The handler, from the browser [browser] and the document as the
    markup gives it: [text0] in the text area, the modal shown or not.
    [now1], [now2], [now3] and [clock0] are the clock read by the
    constructor of the widget, [now4] and [clock1] the clock read for
    [widget.updateCalendar(new Date())]. *)
Definition setup (now1 now2 now3 : Z) (clock0 : nat -> Z) (now4 : Z)
  (clock1 : nat -> Z) (browser : Browser) (rs : list (list IDBEvent))
  (text0 : string) (modal0 : bool) : Outcome :=
  match constructor (JsString APP_NAME) with
  | inl e => Throws (name e)
  | inr db =>
      let st := (db, browser) in
      let (events, rs) :=
        if bool_decide (is_Some (_db st.1)) then ([], rs) else nextResponse rs in
      let (promise, st) := open events st in
      await promise (fun result =>
      let (events, rs) :=
        if bool_decide (is_Some (_db st.1)) then nextResponse rs else ([], rs) in
      let (promise, st) := loadAll events st in
      await promise (fun result =>
      let bodyTheme := setTheme (Some "emerald") in
      match construct now1 now2 now3 clock0 with
      | None => Throws "TypeError"
      | Some widget =>
          let (events, rs) :=
            if bool_decide (is_Some (_db st.1)) then nextResponse rs
            else ([], rs) in
          let (promise, st) := _loadAllKeys events st in
          await promise (fun result =>
          match data result with
          | None => Throws "TypeError"
          | Some keys =>
              let widget :=
                set_starredDates (starredDates widget ++ keys) widget in
              match updateCalendar clock1 now4 widget with
              | None => Throws "TypeError"
              | Some widget =>
                  let h := {| footerText := toPretty (dateToday widget);
                              footerDate := toShort (dateToday widget);
                              modalShown := modal0; textarea := text0;
                              database := st; responses := rs;
                              theme := bodyTheme; themeIndex := 0 |} in
                  let widget := set_onDayClick (Some onDayClickCallback) widget in
                  let date := footerDate h in
                  let (events, rs) := responseTo [JsString date] h in
                  let (promise, st) := load (JsString date) events (database h) in
                  let h := set_database st rs h in
                  await promise (fun result =>
                  if success result then
                    match data result with
                    | Some (JsString text) =>
                        Ready {| widget := widget;
                                 host := Some (set_textarea text h);
                                 timeouts := 0 |}
                    | _ => Ready {| widget := widget; host := None;
                                    timeouts := 0 |}
                    end
                  else Ready {| widget := widget; host := Some h;
                                timeouts := 0 |})
              end
          end)
      end))
  end.

End Page.

(** ** Notions for the statements *)

(** The note the store holds under a key: the empty text if there is
    none. *)
Definition noteOf (st : State) (key : string) : string :=
  match storeOf st !! key with
  | Some (JsString text) => text
  | _ => ""
  end.

(** The notes the browser holds for the page. *)
Definition notesIn (browser : Browser) : Store :=
  default ∅ (browser !! APP_NAME).

(** Every value of the store is a string, as [save] leaves it. *)
Definition holdsStrings (st : State) : Prop :=
  forall key value, storeOf st !! key = Some value ->
                    exists text, value = JsString text.

End Page.

(** * Environments, dates and pages for the examples *)

Module Samples.
Import ESDate JSDate Tools Widget.
Local Open Scope Z_scope.

(** A zone on UTC, and one five hours west of it. *)
Definition utc : Env := {| LocalTZA := 0 |}.
Definition utcMinus5 : Env := {| LocalTZA := -18000000 |}.

(** The time value of the local date [y]-[m+1]-[d], [ms] into the day. *)
Definition localDate {env : Env} (y m d ms : Z) : Z :=
  UTC (MakeDate (MakeDay y m d) ms).

(** A host that records the calls of its callback. *)
Definition Log : Type := list (Z * nat).

Definition spy : Callback Log := fun date index log => log ++ [(date, index)].

(** A clock that stands still. *)
Definition fixedClock (t : Z) : nat -> Z := fun _ => t.

(** The page once the widget is built at time [now] and the host has
    set [onDayClick]. *)
Definition page {env : Env} (now : Z) (callback : option (Callback Log))
  : option (World Log) :=
  w ← construct now now now (fixedClock now);
  Some {| widget := set_onDayClick callback w; host := []; timeouts := 0 |}.

(** A run of events under one reading of the clock. *)
Definition run {env : Env} (now : Z) (events : list (Event Log))
  (W : option (World Log)) : option (World Log) :=
  foldl (fun W e => W ≫= step (fixedClock now) e) W events.

(** The texts of the cells that carry the class [token]. *)
Definition cellsWith (token : string) (W : World Log) : list string :=
  textContent <$> filter (fun el => token ∈ classList el) (dayGrid (widget W)).

(** An empty widget of 42 blank cells, for the world below when a page
    is not built. *)
Definition blankWorld : World Log :=
  {| widget := {| dateChosen := 0; dateToday := 0; dateDisplayed := 0;
                  starredDates := []; onDayClick := None;
                  navigatorText := ""; dayGrid := replicate 42 blankDay |};
     host := []; timeouts := 0 |}.

(** The page built on 2025-08-15, 10:00, in the zone on UTC, with the
    recording callback. *)
Definition august15 : Z := localDate (env := utc) 2025 7 15 36000000.

Definition augustPage : World Log :=
  default blankWorld (page (env := utc) august15 (Some spy)).

(** The cell of August 3 on that page, and its date. *)
Definition august3Cell : DayElement :=
  default blankDay (dayGrid (widget augustPage) !! 6%nat).

Definition august3 : Z := localDate (env := utc) 2025 7 3 0.

(** A heap of two Date objects of August 2025. *)
Definition augustHeap : Objects.Heap :=
  [localDate (env := utc) 2025 7 1 0; august15].

(** A database that [open] has linked, in a browser that had none. *)
Definition openedDatabase : Database.State :=
  match Database.constructor (Database.JsString "2025-08-03_CALENDAR_NOTES") with
  | inr this =>
      (Database.open [Database.UpgradeNeeded; Database.RequestSuccess] (this, ∅)).2
  | inl _ =>
      ({| Database._dbName := ""; Database._storeNames := [];
          Database._storeName := ""; Database._db := None |}, ∅)
  end.


(** That database after two notes are saved, one of them under the key
    ['__proto__']. *)
Definition protoDatabase : Database.State :=
  (Database.save (Database.JsString "__proto__") (Database.JsString "a note")
     [Database.RequestSuccess; Database.TransactionComplete]
     (Database.save (Database.JsString "2025-08-03")
        (Database.JsString "note text")
        [Database.RequestSuccess; Database.TransactionComplete]
        openedDatabase).2).2.

(** The page after a click on the cell of August 4 (index 7), whose
    timeout is pending, and events that are no click on a day cell: a
    step to the right, a timeout that fires, a key that is starred. *)
Definition pendingPage : World Log :=
  default blankWorld
    (step (env := utc) (fixedClock august15) (Click (DayCell 7)) augustPage).

Definition quietEvents : list ((nat -> Z) * Event Log) :=
  [(fixedClock august15, Click NavigatorRight);
   (fixedClock august15, Timeout);
   (fixedClock august15, PushStarred ["2025-08-20"])].

(** The dates of two cells of August 2025, with the time of day of the
    anchor, and the first of August. *)
Definition august3Morning : Z := localDate (env := utc) 2025 7 3 36000000.
Definition august4 : Z := localDate (env := utc) 2025 7 4 0.
Definition august15Midnight : Z := localDate (env := utc) 2025 7 15 0.

(** The widget of [augustPage] after a render of the month of August 3,
    and the page after a click on the right arrow. *)
Definition august3View : CalendarWidget Log :=
  default (widget blankWorld)
    (updateCalendar (env := utc) (fixedClock august15) august3 (widget augustPage)).

Definition septemberPage : World Log :=
  default blankWorld
    (step (env := utc) (fixedClock august15) (Click NavigatorRight) augustPage).

(** The page as the constructor leaves it, and after the right arrow. *)
Definition freshPage : World Log :=
  {| widget := default (widget blankWorld)
                 (construct (env := utc) august15 august15 august15
                    (fixedClock august15));
     host := []; timeouts := 0 |}.

Definition freshSeptemberPage : World Log :=
  default blankWorld
    (runEvents (env := utc) [(fixedClock august15, Click NavigatorRight)] freshPage).

(** The page of the notes on 2025-08-15: the widget with the callback
    of the page, an empty database that is linked, and the answers of
    the browser to a load, a save, and two loads. *)
Definition notesState (text : string) (answers : list (list Database.IDBEvent))
  : Page.PageState :=
  {| Page.footerText := "Friday 15th August 2025";
     Page.footerDate := "2025-08-15";
     Page.modalShown := true;
     Page.textarea := text;
     Page.database := openedDatabase;
     Page.responses := answers;
     Page.theme := "emerald";
     Page.themeIndex := 0 |}.

Definition notesWidget : CalendarWidget Page.PageHost :=
  set_onDayClick (Some (Page.onDayClickCallback (env := utc)))
    (default
       {| dateChosen := 0; dateToday := 0; dateDisplayed := 0;
          starredDates := []; onDayClick := None;
          navigatorText := ""; dayGrid := replicate 42 blankDay |}
       (construct (env := utc) august15 august15 august15 (fixedClock august15))).

Definition notesPage (text : string) (answers : list (list Database.IDBEvent))
  : World Page.PageHost :=
  {| widget := notesWidget; host := Some (notesState text answers);
     timeouts := 0 |}.

Definition august4Cell : DayElement :=
  default blankDay (dayGrid notesWidget !! 7%nat).

End Samples.

(** * Facts on time values *)

Module ESDateFacts.
Import ESDate.
Local Open Scope Z_scope.

(** Quotients and remainders by constants, reduced to linear arithmetic. *)
Ltac zdiv := Z.div_mod_to_equations; lia.

Lemma DayFromYear_succ y : DayFromYear (y + 1) = DayFromYear y + DaysInYear y.
Proof.
  unfold DayFromYear, DaysInYear.
  destruct (Z.eqb_spec (y mod 4) 0); cbn [negb]; [|zdiv].
  destruct (Z.eqb_spec (y mod 100) 0); cbn [negb]; [|zdiv].
  destruct (Z.eqb_spec (y mod 400) 0); cbn [negb]; zdiv.
Qed.

Lemma DaysInYear_cases y : DaysInYear y = 365 \/ DaysInYear y = 366.
Proof.
  unfold DaysInYear.
  repeat match goal with |- context [negb (?a =? ?b)] => destruct (a =? b); cbn [negb] end; auto.
Qed.

Lemma DayFromYear_mono y1 y2 : y1 <= y2 -> DayFromYear y1 <= DayFromYear y2.
Proof. unfold DayFromYear. zdiv. Qed.

Lemma YearFromTime_spec t :
  DayFromYear (YearFromTime t) <= Day t < DayFromYear (YearFromTime t + 1).
Proof.
  unfold YearFromTime. generalize (Day t). intros d. cbv zeta.
  destruct (Z.ltb_spec d (DayFromYear (1970 + d * 400 / 146097))).
  - replace (1970 + d * 400 / 146097 - 1 + 1) with (1970 + d * 400 / 146097) by lia.
    split; [|lia]. unfold DayFromYear in *. zdiv.
  - destruct (Z.leb_spec (DayFromYear (1970 + d * 400 / 146097 + 1)) d).
    + split; [lia|]. unfold DayFromYear in *. zdiv.
    + lia.
Qed.

Lemma YearFromTime_unique t y :
  DayFromYear y <= Day t < DayFromYear (y + 1) -> YearFromTime t = y.
Proof.
  intros Hy. pose proof (YearFromTime_spec t) as Hs.
  destruct (Z.lt_trichotomy (YearFromTime t) y) as [Hlt | [Heq | Hgt]]; [|exact Heq|].
  - pose proof (DayFromYear_mono (YearFromTime t + 1) y ltac:(lia)). lia.
  - pose proof (DayFromYear_mono (y + 1) (YearFromTime t) ltac:(lia)). lia.
Qed.

Lemma DayWithinYear_range t :
  0 <= DayWithinYear t < DaysInYear (YearFromTime t).
Proof.
  unfold DayWithinYear. pose proof (YearFromTime_spec t) as Hs.
  rewrite DayFromYear_succ in Hs. lia.
Qed.

Ltac case_ltb :=
  match goal with
  | |- context [?a <? ?b] => destruct (Z.ltb_spec a b)
  end.

Lemma MakeDay_small y m dt :
  0 <= m < 12 ->
  MakeDay y m dt =
  DayFromYear y + DaysBeforeMonth m (if DaysInYear y =? 366 then 1 else 0) + dt - 1.
Proof.
  intros Hm. unfold MakeDay. cbv zeta.
  rewrite Z.div_small, Z.mod_small by lia. now rewrite Z.add_0_r.
Qed.

Lemma fields_of_time t :
  0 <= MonthFromTime t <= 11 /\
  1 <= DateFromTime t <= DaysInMonth (YearFromTime t) (MonthFromTime t) /\
  Day t = MakeDay (YearFromTime t) (MonthFromTime t) (DateFromTime t).
Proof.
  pose proof (DayWithinYear_range t) as Hr.
  unfold DateFromTime, MonthFromTime, InLeapYear, DaysInMonth.
  unfold DayWithinYear in *.
  set (y := YearFromTime t) in *. set (d := Day t) in *.
  destruct (DaysInYear_cases y) as [Hy | Hy]; rewrite Hy in *; cbn [Z.eqb Pos.eqb] in *.
  all: cbv zeta.
  all: repeat case_ltb; rewrite MakeDay_small by lia; rewrite Hy;
       cbn [Z.eqb Pos.eqb DaysBeforeMonth]; lia.
Qed.

Lemma time_of_fields t y mn dt :
  0 <= mn <= 11 -> 1 <= dt <= DaysInMonth y mn ->
  Day t = MakeDay y mn dt ->
  YearFromTime t = y /\ MonthFromTime t = mn /\ DateFromTime t = dt.
Proof.
  intros Hm Hd HD. rewrite MakeDay_small in HD by lia.
  assert (Hy : YearFromTime t = y).
  { apply YearFromTime_unique. rewrite DayFromYear_succ, HD.
    unfold DaysInMonth in Hd.
    destruct (DaysInYear_cases y) as [Hy | Hy]; rewrite Hy in *; cbn [Z.eqb Pos.eqb] in *.
    all: assert (Hc : mn = 0 \/ mn = 1 \/ mn = 2 \/ mn = 3 \/ mn = 4 \/ mn = 5 \/ mn = 6
               \/ mn = 7 \/ mn = 8 \/ mn = 9 \/ mn = 10 \/ mn = 11) by lia.
    all: repeat (destruct Hc as [-> | Hc]); try subst mn; cbn [DaysBeforeMonth] in *; lia. }
  split; [exact Hy|].
  unfold DateFromTime, MonthFromTime, InLeapYear, DayWithinYear. rewrite Hy, HD.
  unfold DaysInMonth in Hd.
  destruct (DaysInYear_cases y) as [Hl | Hl]; rewrite Hl in *; cbn [Z.eqb Pos.eqb] in *.
  all: assert (Hc : mn = 0 \/ mn = 1 \/ mn = 2 \/ mn = 3 \/ mn = 4 \/ mn = 5 \/ mn = 6
               \/ mn = 7 \/ mn = 8 \/ mn = 9 \/ mn = 10 \/ mn = 11) by lia.
  all: repeat (destruct Hc as [-> | Hc]); try subst mn; cbn [DaysBeforeMonth] in *.
  all: repeat case_ltb; try lia.
Qed.

Lemma Day_MakeDate d tod : 0 <= tod < msPerDay -> Day (MakeDate d tod) = d.
Proof. unfold Day, MakeDate, msPerDay. intros. zdiv. Qed.

Lemma TimeWithinDay_MakeDate d tod :
  0 <= tod < msPerDay -> TimeWithinDay (MakeDate d tod) = tod.
Proof. unfold TimeWithinDay, MakeDate, msPerDay. intros. zdiv. Qed.

Lemma TimeWithinDay_range t : 0 <= TimeWithinDay t < msPerDay.
Proof. unfold TimeWithinDay, msPerDay. zdiv. Qed.

Lemma MakeDay_date y m d1 d2 : MakeDay y m d1 = MakeDay y m d2 + (d1 - d2).
Proof. unfold MakeDay. lia. Qed.

(** Fields depend on the day only. *)
Lemma YearFromTime_Day t1 t2 : Day t1 = Day t2 -> YearFromTime t1 = YearFromTime t2.
Proof. unfold YearFromTime. now intros ->. Qed.

Lemma MonthFromTime_Day t1 t2 : Day t1 = Day t2 -> MonthFromTime t1 = MonthFromTime t2.
Proof.
  intros H. unfold MonthFromTime, DayWithinYear, InLeapYear.
  now rewrite (YearFromTime_Day _ _ H), H.
Qed.

Lemma DateFromTime_Day t1 t2 : Day t1 = Day t2 -> DateFromTime t1 = DateFromTime t2.
Proof.
  intros H. unfold DateFromTime, DayWithinYear, InLeapYear.
  now rewrite (MonthFromTime_Day _ _ H), (YearFromTime_Day _ _ H), H.
Qed.

Lemma WeekDay_Day t1 t2 : Day t1 = Day t2 -> WeekDay t1 = WeekDay t2.
Proof. unfold WeekDay. now intros ->. Qed.

(** [YearFromTime] is the largest year that starts at or before [t]. *)
Lemma YearFromTime_largest t :
  TimeFromYear (YearFromTime t) <= t /\
  forall y, TimeFromYear y <= t -> y <= YearFromTime t.
Proof.
  pose proof (YearFromTime_spec t) as [Hlo Hhi]. unfold TimeFromYear. split.
  - unfold Day, msPerDay in *. zdiv.
  - intros y Hy. destruct (Z.le_gt_cases y (YearFromTime t)) as [Hle|Hgt];
      [exact Hle|exfalso].
    pose proof (DayFromYear_mono (YearFromTime t + 1) y ltac:(lia)) as Hm.
    unfold Day, msPerDay in *. zdiv.
Qed.

Lemma MakeDay_normalize y month dt :
  MakeDay y month dt = MakeDay (y + month / 12) (month mod 12) dt.
Proof.
  unfold MakeDay. cbv zeta.
  replace (month mod 12 / 12) with 0 by zdiv.
  replace ((month mod 12) mod 12) with (month mod 12) by zdiv.
  now rewrite Z.add_0_r.
Qed.

(** [MakeDay year month 1] is the day of a time whose year is
    [year + floor(month / 12)], whose month is [month modulo 12] and
    whose date is 1, as the standard asks. *)
Lemma MakeDay_first_of_month year month :
  let t := MakeDate (MakeDay year month 1) 0 in
  YearFromTime t = year + month / 12 /\
  MonthFromTime t = month mod 12 /\
  DateFromTime t = 1.
Proof.
  cbv zeta. apply time_of_fields.
  - zdiv.
  - unfold DaysInMonth. repeat case_match; lia.
  - rewrite Day_MakeDate by (unfold msPerDay; lia). apply MakeDay_normalize.
Qed.

End ESDateFacts.

(** * Facts on the [tools] object *)

Module ToolsFacts.
Import ESDate JSDate Tools ESDateFacts.
Local Open Scope Z_scope.

Section ToolsFacts.
Context {env : Env}.

Lemma LocalTime_UTC x : LocalTime (UTC x) = x.
Proof. unfold LocalTime, UTC. lia. Qed.

(** The getters, through the local day. *)
Lemma fields_of_date t :
  0 <= getMonth t <= 11 /\
  1 <= getDate t <= DaysInMonth (getFullYear t) (getMonth t) /\
  localDay t = MakeDay (getFullYear t) (getMonth t) (getDate t).
Proof. exact (fields_of_time (LocalTime t)). Qed.

Lemma date_of_fields t y mn dt :
  0 <= mn <= 11 -> 1 <= dt <= DaysInMonth y mn ->
  localDay t = MakeDay y mn dt ->
  getFullYear t = y /\ getMonth t = mn /\ getDate t = dt.
Proof. exact (time_of_fields (LocalTime t) y mn dt). Qed.

Lemma getFullYear_localDay a b : localDay a = localDay b -> getFullYear a = getFullYear b.
Proof. exact (YearFromTime_Day (LocalTime a) (LocalTime b)). Qed.

Lemma getMonth_localDay a b : localDay a = localDay b -> getMonth a = getMonth b.
Proof. exact (MonthFromTime_Day (LocalTime a) (LocalTime b)). Qed.

Lemma getDate_localDay a b : localDay a = localDay b -> getDate a = getDate b.
Proof. exact (DateFromTime_Day (LocalTime a) (LocalTime b)). Qed.

Lemma getDay_localDay t : getDay t = (localDay t + 4) mod 7.
Proof. reflexivity. Qed.

Lemma localDay_setDate_MakeDay t dt :
  localDay (setDate t dt) = MakeDay (getFullYear t) (getMonth t) dt.
Proof.
  unfold localDay, setDate, getFullYear, getMonth.
  generalize (LocalTime t). intros lt. cbv zeta.
  rewrite LocalTime_UTC. apply Day_MakeDate, TimeWithinDay_range.
Qed.

Lemma localDay_setDate t dt :
  localDay (setDate t dt) = localDay t - getDate t + dt.
Proof.
  rewrite localDay_setDate_MakeDay.
  destruct (fields_of_date t) as (_ & _ & ->).
  rewrite (MakeDay_date _ _ dt (getDate t)). lia.
Qed.

Lemma localDay_setMonth t m :
  localDay (setMonth t m) = MakeDay (getFullYear t) m (getDate t).
Proof.
  unfold localDay, setMonth, getFullYear, getDate.
  generalize (LocalTime t). intros lt. cbv zeta.
  rewrite LocalTime_UTC. apply Day_MakeDate, TimeWithinDay_range.
Qed.

Lemma cloneDate_dayOpt t d : cloneDate t (dayOpt d) = setDate t d.
Proof. reflexivity. Qed.

(** The first of the month: its local day, and its fields. *)
Lemma firstDate_fields t :
  localDay (cloneDate t (dayOpt 1)) = MakeDay (getFullYear t) (getMonth t) 1 /\
  getFullYear (cloneDate t (dayOpt 1)) = getFullYear t /\
  getMonth (cloneDate t (dayOpt 1)) = getMonth t /\
  getDate (cloneDate t (dayOpt 1)) = 1.
Proof.
  rewrite cloneDate_dayOpt.
  pose proof (localDay_setDate_MakeDay t 1) as H1.
  split; [exact H1|].
  destruct (fields_of_date t) as (Hm & Hdt & _).
  apply date_of_fields; [exact Hm|lia|exact H1].
Qed.

Lemma pushDays_spec n firstDate day dates :
  pushDays n firstDate day dates =
  dates ++ map (fun k => setDate firstDate (day + Z.of_nat k)) (seq 0 n).
Proof.
  revert day dates. induction n as [|n IH]; intros day dates.
  - cbn [pushDays seq map]. now rewrite app_nil_r.
  - cbn [pushDays]. rewrite IH, cloneDate_dayOpt. cbn [seq map].
    rewrite <- seq_shift, map_map, <- app_assoc. cbn [app].
    rewrite Z.add_0_r. do 2 f_equal. apply map_ext. intros k. f_equal. lia.
Qed.

Lemma getDateArray_spec t :
  getDateArray t =
  map (fun k => setDate (cloneDate t (dayOpt 1)) (1 - mondayIndex t + Z.of_nat k))
      (seq 0 42).
Proof.
  unfold getDateArray, mondayIndex.
  generalize (Z.rem (getDay (cloneDate t (dayOpt 1)) + 6) 7). intros mi.
  generalize (cloneDate t (dayOpt 1)). intros firstDate. cbv zeta.
  rewrite pushDays_spec.
  replace (Z.to_nat (1 - mi + 42 - (1 - mi))) with 42%nat by lia.
  reflexivity.
Qed.

Lemma getDateArray_length t : length (getDateArray t) = 42%nat.
Proof. rewrite getDateArray_spec. now rewrite length_map, length_seq. Qed.

Lemma getDateArray_lookup t i :
  (i < 42)%nat ->
  getDateArray t !! i =
  Some (setDate (cloneDate t (dayOpt 1)) (1 - mondayIndex t + Z.of_nat i)).
Proof.
  intros Hi. rewrite getDateArray_spec, list_lookup_fmap.
  rewrite lookup_seq_lt by exact Hi. reflexivity.
Qed.

Lemma getDateArray_lookup_inv t i d :
  getDateArray t !! i = Some d ->
  (i < 42)%nat /\
  d = setDate (cloneDate t (dayOpt 1)) (1 - mondayIndex t + Z.of_nat i).
Proof.
  intros H. assert (Hi : (i < 42)%nat).
  { apply lookup_lt_Some in H. now rewrite getDateArray_length in H. }
  split; [exact Hi|]. rewrite getDateArray_lookup in H by exact Hi. congruence.
Qed.

Lemma mondayIndex_eq t :
  mondayIndex t = (localDay (cloneDate t (dayOpt 1)) + 3) mod 7.
Proof.
  unfold mondayIndex. rewrite getDay_localDay.
  generalize (localDay (cloneDate t (dayOpt 1))). intros D.
  rewrite Z.rem_mod_nonneg; zdiv.
Qed.

(** The local day of the cell at index [i]. *)
Lemma localDay_grid t i d :
  getDateArray t !! i = Some d ->
  localDay d = gridStart (getFullYear t) (getMonth t) + Z.of_nat i.
Proof.
  intros H. apply getDateArray_lookup_inv in H as [Hi ->].
  rewrite localDay_setDate, mondayIndex_eq. unfold gridStart.
  destruct (firstDate_fields t) as (-> & _ & _ & ->). lia.
Qed.

Lemma gridStart_range y mn :
  MakeDay y mn 1 - 6 <= gridStart y mn <= MakeDay y mn 1.
Proof. unfold gridStart. generalize (MakeDay y mn 1). intros D. zdiv. Qed.

Lemma gridStart_monday y mn : (gridStart y mn + 4) mod 7 = 1.
Proof. unfold gridStart. generalize (MakeDay y mn 1). intros D. zdiv. Qed.

Lemma setDate_succ t dt : setDate t (dt + 1) = setDate t dt + msPerDay.
Proof.
  unfold setDate, UTC, MakeDate, MakeDay, msPerDay. cbv zeta. lia.
Qed.

(** Two dates are the same calendar date when their local days agree. *)
Lemma calendarDate_localDay a b :
  calendarDate a = calendarDate b <-> localDay a = localDay b.
Proof.
  unfold calendarDate. split.
  - intros [= Hy Hm Hd].
    destruct (fields_of_date a) as (_ & _ & ->).
    destruct (fields_of_date b) as (_ & _ & ->). now rewrite Hy, Hm, Hd.
  - intros H. now rewrite (getFullYear_localDay a b H), (getMonth_localDay a b H),
      (getDate_localDay a b H).
Qed.

Lemma isSameDate_calendarDate d1 d2 :
  isSameDate d1 d2 = true <-> calendarDate d1 = calendarDate d2.
Proof.
  unfold isSameDate, calendarDate.
  rewrite !andb_true_iff, !Z.eqb_eq. split.
  - now intros [[-> ->] ->].
  - now intros [= -> -> ->].
Qed.

Lemma isSameDate_localDay d1 d2 :
  isSameDate d1 d2 = true <-> localDay d1 = localDay d2.
Proof. rewrite isSameDate_calendarDate. apply calendarDate_localDay. Qed.

Lemma toShort_dateKey t : toShort t = dateKey (localDay t).
Proof.
  unfold toShort, toLocaleDateString_enCA, dateKey. cbv zeta.
  assert (H : Day (LocalTime t) = Day (MakeDate (localDay t) 0)).
  { rewrite Day_MakeDate; [reflexivity|unfold msPerDay; lia]. }
  now rewrite (YearFromTime_Day _ _ H), (MonthFromTime_Day _ _ H),
    (DateFromTime_Day _ _ H).
Qed.

Lemma toShort_grid t i d :
  getDateArray t !! i = Some d ->
  toShort d = dateKey (gridStart (getFullYear t) (getMonth t) + Z.of_nat i).
Proof. intros H. now rewrite toShort_dateKey, (localDay_grid t i d H). Qed.

(** C1. For every anchor date, [getDateArray] returns 42 dates; each is
    the calendar day after the one before it (and exactly one day
    later); the first is a Monday and the last a Sunday. For an anchor in
    August 2025 the grid runs from 2025-07-28 at index 0 to 2025-09-07 at
    index 41, with August 1 at index 4. *)
Theorem getDateArray_month_grid (date : Z) :
  length (getDateArray date) = 42%nat /\
  (forall i : nat, (i < 41)%nat ->
     exists d d', getDateArray date !! i = Some d /\
                  getDateArray date !! S i = Some d' /\
                  localDay d' = localDay d + 1 /\ d' = d + msPerDay) /\
  getDay <$> getDateArray date !! 0%nat = Some 1 /\
  getDay <$> getDateArray date !! 41%nat = Some 0 /\
  (getFullYear date = 2025 -> getMonth date = 7 ->
     toShort <$> getDateArray date !! 0%nat = Some "2025-07-28" /\
     toShort <$> getDateArray date !! 41%nat = Some "2025-09-07" /\
     toShort <$> getDateArray date !! 4%nat = Some "2025-08-01").
Proof.
  split; [apply getDateArray_length|]. split; [|split; [|split]].
  - intros i Hi.
    eexists _, _. split; [apply getDateArray_lookup; lia|].
    split; [apply getDateArray_lookup; lia|]. split.
    + rewrite !localDay_setDate. lia.
    + rewrite <- setDate_succ. f_equal. lia.
  - rewrite getDateArray_lookup by lia. cbn [fmap option_fmap option_map]. f_equal.
    rewrite getDay_localDay, localDay_setDate, mondayIndex_eq.
    destruct (firstDate_fields date) as (-> & _ & _ & ->).
    generalize (MakeDay (getFullYear date) (getMonth date) 1). intros D. zdiv.
  - rewrite getDateArray_lookup by lia. cbn [fmap option_fmap option_map]. f_equal.
    rewrite getDay_localDay, localDay_setDate, mondayIndex_eq.
    destruct (firstDate_fields date) as (-> & _ & _ & ->).
    generalize (MakeDay (getFullYear date) (getMonth date) 1). intros D. zdiv.
  - intros Hy Hm.
    assert (Hk : forall i, (i < 42)%nat ->
              toShort <$> getDateArray date !! i =
              Some (dateKey (gridStart 2025 7 + Z.of_nat i))).
    { intros i Hi. destruct (getDateArray date !! i) as [d|] eqn:Hd.
      - cbn [fmap option_fmap option_map]. f_equal.
        rewrite (toShort_grid date i d Hd). now rewrite Hy, Hm.
      - apply lookup_ge_None in Hd. rewrite getDateArray_length in Hd. lia. }
    rewrite !Hk by lia. repeat split; vm_compute; reflexivity.
Qed.

(** Only the year and the month of the anchor reach the grid. *)
Lemma getDateArray_same_month a b :
  getFullYear a = getFullYear b -> getMonth a = getMonth b ->
  calendarDate <$> getDateArray a = calendarDate <$> getDateArray b.
Proof.
  intros Hy Hm. apply list_eq. intros i. rewrite !list_lookup_fmap.
  destruct (decide (i < 42)%nat) as [Hi|Hi].
  - destruct (lookup_lt_is_Some_2 (getDateArray a) i) as [da Ha];
      [now rewrite getDateArray_length|].
    destruct (lookup_lt_is_Some_2 (getDateArray b) i) as [db Hb];
      [now rewrite getDateArray_length|].
    rewrite Ha, Hb. cbn [fmap option_fmap option_map]. f_equal.
    apply calendarDate_localDay.
    rewrite (localDay_grid a i da Ha), (localDay_grid b i db Hb).
    now rewrite Hy, Hm.
  - rewrite !lookup_ge_None_2; [reflexivity| |]; rewrite getDateArray_length; lia.
Qed.

Lemma DaysBeforeMonth_leap mn l :
  0 <= l <= 1 ->
  DaysBeforeMonth mn 0 <= DaysBeforeMonth mn l <= DaysBeforeMonth mn 0 + 1.
Proof. intros Hl. unfold DaysBeforeMonth. repeat case_match; lia. Qed.

Lemma DaysInMonth_le y mn : DaysInMonth y mn <= 31.
Proof. unfold DaysInMonth. repeat case_match; lia. Qed.

Lemma leap_flag_range y : 0 <= (if DaysInYear y =? 366 then 1 else 0) <= 1.
Proof. destruct (DaysInYear y =? 366); lia. Qed.

(** The first day of a month, one year apart. *)
Lemma MakeDay_next_year y y' mn d d' :
  0 <= mn <= 11 -> y < y' -> MakeDay y mn d + 364 + (d' - d) <= MakeDay y' mn d'.
Proof.
  intros Hm Hy. rewrite !MakeDay_small by lia.
  pose proof (DayFromYear_mono (y + 1) y' ltac:(lia)) as Hmono.
  rewrite DayFromYear_succ in Hmono.
  pose proof (DaysBeforeMonth_leap mn _ (leap_flag_range y)).
  pose proof (DaysBeforeMonth_leap mn _ (leap_flag_range y')).
  destruct (DaysInYear_cases y); lia.
Qed.

(** In the grid of an anchor, a date of the month of the anchor is of
    its year too: the test on the month alone tells the dimmed cells. *)
Lemma grid_month_year t i d :
  getDateArray t !! i = Some d ->
  getMonth d = getMonth t -> getFullYear d = getFullYear t.
Proof.
  intros Hd Hm. pose proof (localDay_grid t i d Hd) as Hday.
  apply getDateArray_lookup_inv in Hd as [Hi _].
  pose proof (gridStart_range (getFullYear t) (getMonth t)) as Hg.
  destruct (fields_of_date d) as (Hmr & Hdt & Hfd).
  pose proof (DaysInMonth_le (getFullYear d) (getMonth d)) as H31.
  rewrite Hm in Hfd, Hmr.
  destruct (Z.lt_trichotomy (getFullYear d) (getFullYear t)) as [Hlt|[Heq|Hgt]];
    [|exact Heq|].
  - pose proof (MakeDay_next_year (getFullYear d) (getFullYear t) (getMonth t)
                  (getDate d) 1 Hmr Hlt). lia.
  - pose proof (MakeDay_next_year (getFullYear t) (getFullYear d) (getMonth t)
                  1 (getDate d) Hmr Hgt). lia.
Qed.

(** The anchor has one cell in its grid, and no date of the grid but
    that one is the date of the anchor. *)
Lemma anchor_in_grid t :
  exists i0 : nat, (i0 < 42)%nat /\
    forall i d, getDateArray t !! i = Some d ->
      (localDay d = localDay t <-> i = i0).
Proof.
  pose proof (gridStart_range (getFullYear t) (getMonth t)) as Hg.
  destruct (fields_of_date t) as (Hmr & Hdt & Hfd).
  pose proof (DaysInMonth_le (getFullYear t) (getMonth t)) as H31.
  pose proof (MakeDay_date (getFullYear t) (getMonth t) (getDate t) 1) as Hmd.
  exists (Z.to_nat (localDay t - gridStart (getFullYear t) (getMonth t))).
  split; [lia|]. intros i d Hd. rewrite (localDay_grid t i d Hd). lia.
Qed.

(** ** Keys: printing and reading back *)

Lemma digitValue_char (k : N) :
  (k < 10)%N -> digitValue (pretty_N_char k) = Some (Z.of_N k).
Proof.
  intros Hk.
  assert (Hc : (k = 0 \/ k = 1 \/ k = 2 \/ k = 3 \/ k = 4 \/ k = 5 \/ k = 6
                \/ k = 7 \/ k = 8 \/ k = 9)%N) by lia.
  repeat (destruct Hc as [-> | Hc]); try subst k; reflexivity.
Qed.

Lemma pretty_Z_nonneg (z : Z) : 0 <= z -> pretty z = pretty (Z.to_N z).
Proof. intros Hz. destruct z as [|p|p]; [reflexivity|reflexivity|lia]. Qed.

Lemma pretty_one (n : Z) :
  1 <= n <= 9 -> pretty n = String (pretty_N_char (Z.to_N n)) "".
Proof.
  intros Hn. rewrite pretty_Z_nonneg by lia. unfold pretty, pretty_N.
  destruct (decide (Z.to_N n = 0%N)); [lia|].
  rewrite pretty_N_go_step by lia.
  replace (Z.to_N n `div` 10)%N with 0%N by (symmetry; apply N.div_small; lia).
  rewrite pretty_N_go_0. now rewrite N.mod_small by lia.
Qed.

Lemma pretty_two (n : Z) :
  10 <= n <= 99 ->
  pretty n = String (pretty_N_char (Z.to_N (n / 10)))
               (String (pretty_N_char (Z.to_N (n mod 10))) "").
Proof.
  intros Hn. rewrite pretty_Z_nonneg by lia. unfold pretty, pretty_N.
  destruct (decide (Z.to_N n = 0%N)); [lia|].
  rewrite pretty_N_go_step by lia.
  assert (H1 : (Z.to_N n `div` 10 = Z.to_N (n / 10))%N) by (rewrite Z2N.inj_div by lia; reflexivity).
  assert (H2 : (Z.to_N n `mod` 10 = Z.to_N (n mod 10))%N) by (rewrite Z2N.inj_mod by lia; reflexivity).
  rewrite H1, H2. 
  rewrite pretty_N_go_step by zdiv.
  replace (Z.to_N (n / 10) `div` 10)%N with 0%N
    by (symmetry; apply N.div_small; zdiv).
  rewrite pretty_N_go_0. rewrite (N.mod_small (Z.to_N (n / 10))) by zdiv. reflexivity.
Qed.

Lemma pretty_go_step (n : Z) (s : string) :
  0 < n ->
  pretty_N_go (Z.to_N n) s =
  pretty_N_go (Z.to_N (n / 10)) (String (pretty_N_char (Z.to_N (n mod 10))) s).
Proof.
  intros Hn. rewrite pretty_N_go_step by lia.
  rewrite Z2N.inj_div, Z2N.inj_mod by lia. reflexivity.
Qed.

Lemma digitValue_digit (n : Z) :
  0 <= n <= 9 -> digitValue (pretty_N_char (Z.to_N n)) = Some n.
Proof. intros Hn. rewrite digitValue_char by lia. f_equal. lia. Qed.

Lemma pretty_four_shape (y : Z) :
  1000 <= y <= 9999 ->
  exists a b c e,
    pretty y = String a (String b (String c (String e ""))) /\
    digitsValue 0 [a; b; c; e] = Some y.
Proof.
  intros Hy. rewrite pretty_Z_nonneg by lia. unfold pretty, pretty_N.
  destruct (decide (Z.to_N y = 0%N)); [lia|].
  rewrite pretty_go_step by lia.
  rewrite pretty_go_step by zdiv.
  rewrite pretty_go_step by zdiv.
  rewrite pretty_go_step by zdiv.
  replace (Z.to_N (y / 10 / 10 / 10 / 10)) with 0%N by zdiv.
  rewrite pretty_N_go_0. eexists _, _, _, _. split; [reflexivity|].
  cbn [digitsValue]. rewrite !digitValue_digit by zdiv. f_equal. zdiv.
Qed.

Lemma pad2_shape (n : Z) :
  1 <= n <= 99 ->
  exists a b, pad2 n = String a (String b "") /\ digitsValue 0 [a; b] = Some n.
Proof.
  intros Hn. unfold pad2. destruct (Z.ltb_spec n 10).
  - rewrite pretty_Z_nonneg by lia. unfold pretty, pretty_N.
    destruct (decide (Z.to_N n = 0%N)); [lia|].
    rewrite pretty_go_step by lia.
    replace (Z.to_N (n / 10)) with 0%N by zdiv. rewrite pretty_N_go_0.
    eexists _, _. split; [reflexivity|].
    cbn [digitsValue]. change (digitValue "0") with (Some 0).
    rewrite digitValue_digit by zdiv. f_equal. zdiv.
  - rewrite pretty_Z_nonneg by lia. unfold pretty, pretty_N.
    destruct (decide (Z.to_N n = 0%N)); [lia|].
    rewrite pretty_go_step by lia. rewrite pretty_go_step by zdiv.
    replace (Z.to_N (n / 10 / 10)) with 0%N by zdiv. rewrite pretty_N_go_0.
    eexists _, _. split; [reflexivity|].
    cbn [digitsValue]. rewrite !digitValue_digit by zdiv. f_equal. zdiv.
Qed.

Lemma parse_dateKey (D : Z) :
  1000 <= YearFromTime (MakeDate D 0) <= 9999 ->
  parseDateOnly (dateKey D) = Some (MakeDate D 0).
Proof.
  intros Hy. unfold dateKey. cbv zeta.
  destruct (fields_of_time (MakeDate D 0)) as (Hm & Hd & Hday).
  pose proof (DaysInMonth_le (YearFromTime (MakeDate D 0)) (MonthFromTime (MakeDate D 0))) as H31.
  rewrite Day_MakeDate in Hday by (unfold msPerDay; lia).
  set (Y := YearFromTime (MakeDate D 0)) in *.
  set (M := MonthFromTime (MakeDate D 0)) in *.
  set (Dt := DateFromTime (MakeDate D 0)) in *.
  unfold eraYear. destruct (Z.ltb_spec 0 Y); [|lia].
  destruct (pretty_four_shape Y Hy) as (y1 & y2 & y3 & y4 & -> & HY).
  destruct (pad2_shape (M + 1)) as (m1 & m2 & -> & HM); [lia|].
  destruct (pad2_shape Dt) as (d1 & d2 & -> & HD); [lia|].
  unfold parseDateOnly. cbv [String.append list_ascii_of_string].
  rewrite !bool_decide_eq_true_2 by reflexivity. cbn [andb].
  rewrite HY, HM, HD.
  replace (M + 1 - 1) with M by lia.
  destruct (Z.leb_spec 1 (M + 1)); [|lia].
  destruct (Z.leb_spec (M + 1) 12); [|lia].
  destruct (Z.leb_spec 1 Dt); [|lia].
  destruct (Z.leb_spec Dt (DaysInMonth Y M)); [|lia].
  cbn [andb]. now rewrite Hday.
Qed.

Lemma parse_toShort t :
  1000 <= getFullYear t <= 9999 ->
  parseDateOnly (toShort t) = Some (MakeDate (localDay t) 0).
Proof.
  intros Hy. rewrite toShort_dateKey. apply parse_dateKey.
  rewrite (YearFromTime_Day (MakeDate (localDay t) 0) (LocalTime t)); [exact Hy|].
  apply Day_MakeDate. unfold msPerDay. lia.
Qed.

(** UTC midnight of day [D] is on local day [D] east of Greenwich, and
    on the day before west of it. *)
Lemma localDay_midnight_east D :
  0 <= LocalTZA < msPerDay -> localDay (MakeDate D 0) = D.
Proof. unfold localDay, LocalTime, Day, MakeDate, msPerDay. intros H. zdiv. Qed.

Lemma localDay_midnight_west D :
  - msPerDay <= LocalTZA < 0 -> localDay (MakeDate D 0) = D - 1.
Proof. unfold localDay, LocalTime, Day, MakeDate, msPerDay. intros H. zdiv. Qed.

(** The key of a date does not depend on the time of day. *)
Lemma toShort_time_of_day a b : localDay a = localDay b -> toShort a = toShort b.
Proof. intros H. now rewrite !toShort_dateKey, H. Qed.

(** Reading a key back and printing it again: the same key east of
    Greenwich, the key of the day before west of it. *)
Lemma toShort_roundtrip_east t :
  0 <= LocalTZA < msPerDay -> 1000 <= getFullYear t <= 9999 ->
  toShort <$> parseDateOnly (toShort t) = Some (toShort t).
Proof.
  intros Hz Hy. rewrite (parse_toShort t Hy). cbn [fmap option_fmap option_map].
  f_equal. apply toShort_time_of_day. now apply localDay_midnight_east.
Qed.

Lemma toShort_roundtrip_west t :
  - msPerDay <= LocalTZA < 0 -> 1000 <= getFullYear t <= 9999 ->
  toShort <$> parseDateOnly (toShort t) = Some (dateKey (localDay t - 1)).
Proof.
  intros Hz Hy. rewrite (parse_toShort t Hy). cbn [fmap option_fmap option_map].
  f_equal. rewrite toShort_dateKey. f_equal. now apply localDay_midnight_west.
Qed.

(** ** Moving by months *)

(** [setMonth] reaches the month asked for when that month has the day
    of the date: then the year and the month are those of the month
    index, normalized, and the day is kept. *)
Lemma setMonth_fields t m :
  getDate t <= DaysInMonth (getFullYear t + m / 12) (m mod 12) ->
  getFullYear (setMonth t m) = getFullYear t + m / 12 /\
  getMonth (setMonth t m) = m mod 12 /\
  getDate (setMonth t m) = getDate t.
Proof.
  intros Hfit. destruct (fields_of_date t) as (_ & Hdt & _).
  apply date_of_fields.
  - zdiv.
  - lia.
  - rewrite localDay_setMonth. apply MakeDay_normalize.
Qed.

(** When the month asked for is too short, the date runs over into the
    month after it. *)
Lemma setMonth_overflow t m :
  DaysInMonth (getFullYear t + m / 12) (m mod 12) < getDate t ->
  localDay (setMonth t m)
  = MakeDay (getFullYear t + m / 12) (m mod 12 + 1) 1
    + (getDate t - DaysInMonth (getFullYear t + m / 12) (m mod 12) - 1).
Proof.
  intros Hover. rewrite localDay_setMonth, MakeDay_normalize.
  set (y := getFullYear t + m / 12). set (mn := m mod 12).
  assert (Hmn : 0 <= mn <= 11) by (subst mn; zdiv).
  rewrite (MakeDay_small y mn) by lia.
  destruct (Z.eq_dec mn 11) as [->|Hne].
  - change (11 + 1) with 12. rewrite (MakeDay_normalize y 12 1).
    change (12 / 12) with 1. change (12 mod 12) with 0.
    rewrite (MakeDay_small (y + 1) 0) by lia. rewrite DayFromYear_succ.
    unfold DaysInMonth, DaysBeforeMonth.
    destruct (DaysInYear_cases y) as [Hy|Hy]; rewrite Hy; cbn [Z.eqb Pos.eqb]; lia.
  - rewrite (MakeDay_small y (mn + 1)) by lia.
    assert (Hc : mn = 0 \/ mn = 1 \/ mn = 2 \/ mn = 3 \/ mn = 4 \/ mn = 5
                 \/ mn = 6 \/ mn = 7 \/ mn = 8 \/ mn = 9 \/ mn = 10) by lia.
    clearbody y mn. unfold DaysInMonth in *.
    destruct (DaysInYear y =? 366);
      repeat (destruct Hc as [-> | Hc]); try subst mn;
      match goal with
      | |- context [DaysBeforeMonth (?a + 1) _] =>
          let v := eval vm_compute in (a + 1) in change (a + 1) with v
      end;
      cbn [DaysBeforeMonth] in *; lia.
Qed.

End ToolsFacts.

End ToolsFacts.

(** * Facts on Date objects *)

Module ObjectsFacts.
Import ESDate JSDate Tools ESDateFacts ToolsFacts Objects.
Local Open Scope Z_scope.

Lemma heap_lookup_last (h : Heap) (t : Z) : (h ++ [t]) !! length h = Some t.
Proof. induction h as [|x h IH]; [reflexivity|exact IH]. Qed.

Lemma heap_insert_last (h : Heap) (t v : Z) :
  <[length h := v]> (h ++ [t]) = h ++ [v].
Proof.
  rewrite insert_app_r_alt by lia. now rewrite Nat.sub_diag.
Qed.

Lemma heap_lookup_old (h h' : Heap) (r : ref) (t : Z) :
  h !! r = Some t -> (h ++ h') !! r = Some t.
Proof. intros H. now apply lookup_app_l_Some. Qed.

Section ObjectsFacts.
Context {env : Env}.

(** A setter applied to the object allocated last. *)
Lemma set_last (f : Z -> Z) (h : Heap) (t : Z) :
  (t' <- getTime (length h) ;; setTime (length h) (f t')) (h ++ [t])
  = Some (tt, h ++ [f t]).
Proof.
  unfold bind, getTime, setTime. rewrite heap_lookup_last.
  now rewrite heap_lookup_last, heap_insert_last.
Qed.

(** [cloneDate] allocates one object, gives it the value that
    [Tools.cloneDate] computes, and changes no other object. *)
Lemma cloneDate_run (date : ref) (opts : CloneOpts) (h : Heap) (t : Z) :
  h !! date = Some t ->
  cloneDate date opts h = Some (length h, h ++ [Tools.cloneDate t opts]).
Proof.
  intros Ht. unfold cloneDate, Tools.cloneDate.
  unfold bind at 1. unfold getTime at 1. rewrite Ht.
  unfold bind at 1. unfold newDate.
  destruct opts as [[d|] [m|] [y|]]; cbn [year month day whenGiven];
    unfold setFullYear, setMonth, setDate;
    repeat (unfold bind at 1; first [rewrite set_last | unfold ret at 1]);
    reflexivity.
Qed.

Lemma pushDays_run (n : nat) (firstDate : ref) (tf day : Z)
  (dates : list ref) (h : Heap) :
  h !! firstDate = Some tf ->
  pushDays n firstDate day dates h =
  Some (dates ++ seq (length h) n,
        h ++ map (fun k => JSDate.setDate tf (day + Z.of_nat k)) (seq 0 n)).
Proof.
  revert day dates h. induction n as [|n IH]; intros day dates h Hf.
  - cbn. now rewrite !app_nil_r.
  - cbn [pushDays]. unfold bind at 1. rewrite (cloneDate_run _ _ _ _ Hf).
    rewrite IH by (now apply heap_lookup_old).
    rewrite cloneDate_dayOpt, length_app. cbn [length seq map].
    rewrite Nat.add_1_r, <- !app_assoc. cbn [app].
    rewrite <- (seq_shift n 0), map_map, Z.add_0_r. do 4 f_equal.
    apply map_ext. intros k. f_equal. lia.
Qed.

(** [getDateArray] on objects: it allocates the clone of the first of
    the month and the 42 dates, whose values are those of
    [Tools.getDateArray], after the objects that exist. *)
Lemma getDateArray_run (date : ref) (h : Heap) (t : Z) :
  h !! date = Some t ->
  getDateArray date h =
  Some (seq (S (length h)) 42,
        h ++ Tools.cloneDate t (dayOpt 1) :: Tools.getDateArray t).
Proof.
  intros Ht. unfold getDateArray.
  unfold bind at 1. rewrite (cloneDate_run _ _ _ _ Ht).
  unfold bind at 1. unfold getDay, bind, getTime, ret.
  rewrite heap_lookup_last, getDateArray_spec. unfold mondayIndex.
  set (firstDate := Tools.cloneDate t (dayOpt 1)).
  set (mi := Z.rem (JSDate.getDay firstDate + 6) 7).
  replace (Z.to_nat (1 - mi + 42 - (1 - mi))) with 42%nat by lia.
  rewrite (pushDays_run 42 (length h) firstDate) by apply heap_lookup_last.
  rewrite length_app, <- app_assoc. cbn [length app].
  now rewrite Nat.add_1_r.
Qed.

Lemma read_allocated (h : Heap) (x : Z) (l : list Z) :
  (fun r : ref => (h ++ x :: l) !! r) <$> seq (S (length h)) (length l)
  = Some <$> l.
Proof.
  apply list_eq. intros i. rewrite !list_lookup_fmap.
  destruct (decide (i < length l)%nat) as [Hi|Hi].
  - rewrite lookup_seq_lt by exact Hi. cbn [fmap option_fmap option_map].
    rewrite lookup_app_r by lia.
    replace (S (length h) + i - length h)%nat with (S i) by lia.
    change ((x :: l) !! S i) with (l !! i).
    destruct (lookup_lt_is_Some_2 l i Hi) as [v ->]. reflexivity.
  - rewrite lookup_seq_ge by lia. rewrite lookup_ge_None_2 by lia. reflexivity.
Qed.

(** C7. Two anchors of the same year and month, whatever their day
    and their time of day, get grids of the same 42 calendar dates,
    position by position; [getDateArray] leaves its argument, and every
    object that exists, as they are. *)
Theorem getDateArray_month_only_and_pure (h : Heap) (ra rb : ref) (a b : Z) :
  h !! ra = Some a -> h !! rb = Some b ->
  getFullYear a = getFullYear b -> getMonth a = getMonth b ->
  exists refsA hA refsB hB,
    getDateArray ra h = Some (refsA, hA) /\
    getDateArray rb h = Some (refsB, hB) /\
    length refsA = 42%nat /\ length refsB = 42%nat /\
    readDates hA refsA = Some <$> Tools.getDateArray a /\
    readDates hB refsB = Some <$> Tools.getDateArray b /\
    calendarDate <$> Tools.getDateArray a = calendarDate <$> Tools.getDateArray b /\
    hA !! ra = Some a /\ hB !! rb = Some b /\
    (forall r t, h !! r = Some t -> hA !! r = Some t /\ hB !! r = Some t).
Proof.
  intros Ha Hb Hy Hm.
  eexists _, _, _, _.
  split; [exact (getDateArray_run ra h a Ha)|].
  split; [exact (getDateArray_run rb h b Hb)|].
  split; [now rewrite length_seq|]. split; [now rewrite length_seq|].
  split.
  { unfold readDates. rewrite <- (getDateArray_length a) at 1. apply read_allocated. }
  split.
  { unfold readDates. rewrite <- (getDateArray_length b) at 1. apply read_allocated. }
  split; [exact (getDateArray_same_month a b Hy Hm)|].
  split; [now apply heap_lookup_old|]. split; [now apply heap_lookup_old|].
  intros r t Hr. split; now apply heap_lookup_old.
Qed.

End ObjectsFacts.
End ObjectsFacts.

(** * Facts on the widget *)

Module WidgetFacts.
Import ESDate JSDate Tools ESDateFacts ToolsFacts Widget.
Local Open Scope Z_scope.

(** ** Class lists *)

Local Abbreviation stateTokens := ["dimmed"; "marked"; "starred"; "today"] (only parsing).

Lemma filter_state_other (l : list string) :
  filter (fun c => c ∈ stateTokens) (classList_remove stateTokens l) = [].
Proof.
  unfold classList_remove. induction l as [|c l IH]; [reflexivity|].
  rewrite (filter_cons (fun c => c ∉ stateTokens)).
  destruct (decide (c ∉ stateTokens)) as [Hc|Hc]; [|exact IH].
  rewrite filter_cons. destruct (decide (c ∈ stateTokens)); [contradiction|exact IH].
Qed.

Lemma filter_other_other (l : list string) :
  filter (fun c => c ∉ stateTokens) (classList_remove stateTokens l)
  = filter (fun c => c ∉ stateTokens) l.
Proof.
  unfold classList_remove. induction l as [|c l IH]; [reflexivity|].
  rewrite (filter_cons (fun c => c ∉ stateTokens) c l).
  destruct (decide (c ∉ stateTokens)) as [Hc|Hc]; [|exact IH].
  rewrite filter_cons. destruct (decide (c ∉ stateTokens)); [|contradiction].
  now rewrite IH.
Qed.

(** Adding a state class to a list that has none. *)
Lemma stateClasses_add (token : string) (el : DayElement) :
  token ∈ stateTokens ->
  stateClasses (withClasses (classList_add token) (resetDayClasses el)) = [token] /\
  otherClasses (withClasses (classList_add token) (resetDayClasses el))
  = otherClasses el.
Proof.
  intros Ht. unfold stateClasses, otherClasses, resetDayClasses, withClasses.
  cbn [classList]. unfold classList_add.
  destruct (decide (token ∈ classList_remove stateTokens (classList el)))
    as [Hin|Hin].
  - exfalso. unfold classList_remove in Hin.
    apply list_elem_of_filter in Hin as [Hn _]. contradiction.
  - rewrite !filter_app, filter_state_other, filter_other_other.
    rewrite !filter_cons, !filter_nil.
    destruct (decide (token ∈ stateTokens)); [|contradiction].
    destruct (decide (token ∉ stateTokens)); [contradiction|].
    now rewrite app_nil_r.
Qed.

Lemma stateClasses_reset (el : DayElement) :
  stateClasses (resetDayClasses el) = [] /\
  otherClasses (resetDayClasses el) = otherClasses el.
Proof.
  unfold stateClasses, otherClasses, resetDayClasses, withClasses.
  cbn [classList]. split; [apply filter_state_other|apply filter_other_other].
Qed.

(** ** Rendering *)

Section Rendering.
Context {env : Env} {Host : Type}.
Implicit Types (w : CalendarWidget Host) (el : DayElement).

Lemma renderDays_spec w date clock dateObjects :
  forall index dayElements,
  (index + length dateObjects <= length dayElements)%nat ->
  exists cells,
    renderDays w date clock index dateObjects dayElements = Some cells /\
    length cells = length dayElements /\
    (forall j, (j < index)%nat \/ (index + length dateObjects <= j)%nat ->
       cells !! j = dayElements !! j) /\
    (forall k d el, dateObjects !! k = Some d ->
       dayElements !! (index + k)%nat = Some el ->
       cells !! (index + k)%nat = Some (renderDay w date (clock (index + k)%nat) d el)).
Proof.
  induction dateObjects as [|dateObject rest IH]; intros index dayElements Hlen.
  - exists dayElements. cbn [renderDays].
    split; [reflexivity|]. split; [reflexivity|].
    split; [reflexivity|]. intros k d el Hk. rewrite lookup_nil in Hk. discriminate Hk.
  - cbn [length] in Hlen. cbn [renderDays].
    destruct (lookup_lt_is_Some_2 dayElements index) as [el0 Hel0]; [lia|].
    rewrite Hel0.
    destruct (IH (S index)
                (<[index := renderDay w date (clock index) dateObject el0]> dayElements))
      as (cells & Hrun & Hlen' & Hout & Hin).
    { rewrite length_insert. lia. }
    exists cells. split; [exact Hrun|]. rewrite length_insert in Hlen'.
    split; [exact Hlen'|]. split.
    + intros j Hj. rewrite Hout by (cbn [length] in Hj; lia).
      apply list_lookup_insert_ne. cbn [length] in Hj. lia.
    + intros k d el Hk Hel. destruct k as [|k].
      * cbn in Hk. injection Hk as ->. rewrite Nat.add_0_r in *.
        rewrite Hout by lia. rewrite Hel0 in Hel. injection Hel as ->.
        apply list_lookup_insert_eq. now apply lookup_lt_Some in Hel0.
      * cbn in Hk. replace (index + S k)%nat with (S index + k)%nat in * by lia.
        apply Hin; [exact Hk|]. rewrite list_lookup_insert_ne by lia. exact Hel.
Qed.

(** A render on a grid of 42 cells goes through: it sets the label and
    leaves on each cell what [renderDay] makes of it, and nothing else
    of the widget changes. *)
Lemma updateCalendar_spec w clock date :
  length (dayGrid w) = 42%nat ->
  exists cells,
    updateCalendar clock date w = Some (set_view (monthLabel date) cells w) /\
    length cells = 42%nat /\
    (forall i d el, getDateArray date !! i = Some d ->
       dayGrid w !! i = Some el ->
       cells !! i = Some (renderDay w date (clock i) d el)).
Proof.
  intros Hlen. unfold updateCalendar. cbv zeta.
  destruct (renderDays_spec w date clock (getDateArray date) 0 (dayGrid w))
    as (cells & -> & Hl & _ & Hin).
  { rewrite getDateArray_length, Hlen. lia. }
  exists cells. split; [reflexivity|]. split; [congruence|].
  intros i d el Hd Hel. exact (Hin i d el Hd Hel).
Qed.

(** The state classes that [renderDay] leaves are those of the
    classification; the other classes of the cell stay. *)
Lemma renderDay_classes w date now i d el :
  getDateArray date !! i = Some d ->
  stateClasses (renderDay w date now d el)
  = classesOf (classification date now (dateChosen w) (starredDates w) d) /\
  otherClasses (renderDay w date now d el) = otherClasses el.
Proof.
  intros Hd. unfold renderDay, classification. cbv zeta.
  unfold stateClasses, otherClasses. cbn [classList].
  fold (stateClasses (resetDayClasses el)).
  destruct (Z.eqb_spec (getMonth d) (getMonth date)) as [Hm|Hm]; cbn [negb].
  - rewrite bool_decide_eq_false_2
      by (intros Hne; apply Hne; now rewrite Hm, (grid_month_year date i d Hd Hm)).
    unfold isToday, shouldStar.
    destruct (isSameDate d now) eqn:Hnow.
    { rewrite (bool_decide_eq_true_2 (calendarDate d = calendarDate now))
        by (now apply isSameDate_calendarDate).
      apply (stateClasses_add "today"). set_solver. }
    rewrite (bool_decide_eq_false_2 (calendarDate d = calendarDate now))
      by (intros Hc; apply isSameDate_calendarDate in Hc; congruence).
    destruct (isSameDate d (dateChosen w)) eqn:Hch.
    { rewrite (bool_decide_eq_true_2 (calendarDate d = calendarDate (dateChosen w)))
        by (now apply isSameDate_calendarDate).
      apply (stateClasses_add "marked"). set_solver. }
    rewrite (bool_decide_eq_false_2 (calendarDate d = calendarDate (dateChosen w)))
      by (intros Hc; apply isSameDate_calendarDate in Hc; congruence).
    destruct (bool_decide (toShort d ∈ starredDates w)).
    { apply (stateClasses_add "starred"). set_solver. }
    apply stateClasses_reset.
  - rewrite bool_decide_eq_true_2 by congruence.
    apply (stateClasses_add "dimmed"). set_solver.
Qed.

Lemma renderDay_shows w date now d el :
  textContent (renderDay w date now d el) = pretty (getDate d) /\
  dataset_date (renderDay w date now d el) = Some (toShort d).
Proof. split; reflexivity. Qed.

(** C2. A render gives each of the 42 cells the state classes of its
    classification and no other, whatever classes the cell had: dimmed
    when the year and month of the cell are not those of the anchor,
    else today when the cell is the current date, else marked when it
    is the chosen date, else starred when its key is in [starredDates],
    else none. The clock of cell [i] is [clock i]. *)
Theorem updateCalendar_classifies w clock date :
  length (dayGrid w) = 42%nat ->
  exists w',
    updateCalendar clock date w = Some w' /\
    length (dayGrid w') = 42%nat /\
    forall i : nat, (i < 42)%nat ->
      exists d el el',
        getDateArray date !! i = Some d /\
        dayGrid w !! i = Some el /\
        dayGrid w' !! i = Some el' /\
        stateClasses el'
        = classesOf (classification date (clock i) (dateChosen w)
                       (starredDates w) d) /\
        otherClasses el' = otherClasses el.
Proof.
  intros Hlen.
  destruct (updateCalendar_spec w clock date Hlen) as (cells & Hrun & Hl & Hcells).
  exists (set_view (monthLabel date) cells w).
  split; [exact Hrun|]. split; [exact Hl|]. intros i Hi.
  destruct (lookup_lt_is_Some_2 (getDateArray date) i) as [d Hd];
    [now rewrite getDateArray_length|].
  destruct (lookup_lt_is_Some_2 (dayGrid w) i) as [el Hel]; [now rewrite Hlen|].
  exists d, el, (renderDay w date (clock i) d el).
  split; [exact Hd|]. split; [exact Hel|].
  split; [exact (Hcells i d el Hd Hel)|].
  exact (renderDay_classes w date (clock i) i d el Hd).
Qed.

(** ** The click listener *)

(** C9. With no [onDayClick] callback, a click on a day cell leaves the
    page as it is: the chosen date, the month anchor, the grid, the
    host, and the pending timeouts. *)
Theorem click_day_without_callback (clock : nat -> Z) (i : nat) (W : World Host) :
  onDayClick (widget W) = None ->
  click clock (DayCell i) W = Some W.
Proof.
  intros Hcb. unfold click. cbv zeta.
  destruct (dayGrid (widget W) !! i); [|reflexivity]. now rewrite Hcb.
Qed.

(** A click on a day cell with a callback: the key of the cell is read
    back as a date, which becomes the chosen date and goes to the
    callback, once; one timeout is added. *)
Lemma click_day_with_callback (clock : nat -> Z) (i : nat) (W : World Host)
  (callback : Callback Host) el (key : string) (chosen : Z) :
  onDayClick (widget W) = Some callback ->
  dayGrid (widget W) !! i = Some el ->
  dataset_date el = Some key ->
  parseDateOnly key = Some chosen ->
  click clock (DayCell i) W =
  Some {| widget := set_dateChosen chosen (widget W);
          host := callback chosen i (host W);
          timeouts := S (timeouts W) |}.
Proof.
  intros Hcb Hel Hkey Hparse. unfold click. cbv zeta.
  rewrite Hel, Hcb, Hkey. cbn [mbind option_bind]. now rewrite Hparse.
Qed.

Lemma classification_marked (anchor now chosen : Z) (starred : list string) (d : Z) :
  "marked" ∈ classesOf (classification anchor now chosen starred d) <->
  (getFullYear d, getMonth d) = (getFullYear anchor, getMonth anchor) /\
  calendarDate d <> calendarDate now /\
  calendarDate d = calendarDate chosen.
Proof.
  unfold classification.
  destruct (decide ((getFullYear d, getMonth d)
                    = (getFullYear anchor, getMonth anchor))) as [Ha|Ha].
  2:{ rewrite bool_decide_eq_true_2 by exact Ha. cbn [classesOf].
      rewrite list_elem_of_singleton. split; [discriminate|tauto]. }
  rewrite bool_decide_eq_false_2 by tauto.
  destruct (decide (calendarDate d = calendarDate now)) as [Hn|Hn].
  { rewrite bool_decide_eq_true_2 by exact Hn. cbn [classesOf].
    rewrite list_elem_of_singleton. split; [discriminate|tauto]. }
  rewrite bool_decide_eq_false_2 by exact Hn.
  destruct (decide (calendarDate d = calendarDate chosen)) as [Hc|Hc].
  { rewrite bool_decide_eq_true_2 by exact Hc. cbn [classesOf].
    rewrite list_elem_of_singleton. tauto. }
  rewrite bool_decide_eq_false_2 by exact Hc.
  destruct (bool_decide (toShort d ∈ starred)); cbn [classesOf].
  - rewrite list_elem_of_singleton. split; [discriminate|tauto].
  - rewrite elem_of_nil. tauto.
Qed.

Lemma classification_today (anchor now chosen : Z) (starred : list string) (d : Z) :
  (getFullYear d, getMonth d) = (getFullYear anchor, getMonth anchor) ->
  calendarDate d = calendarDate now ->
  classification anchor now chosen starred d = Today.
Proof.
  intros H1 H2. unfold classification.
  rewrite bool_decide_eq_false_2 by tauto. now rewrite bool_decide_eq_true_2.
Qed.

Lemma calendarDate_year_month (a b : Z) :
  calendarDate a = calendarDate b ->
  (getFullYear a, getMonth a) = (getFullYear b, getMonth b).
Proof. unfold calendarDate. now intros [= -> -> _]. Qed.

Lemma marked_stateClasses el :
  "marked" ∈ classList el <-> "marked" ∈ stateClasses el.
Proof.
  unfold stateClasses. rewrite list_elem_of_filter. split; [|tauto].
  intros H. split; [set_solver|exact H].
Qed.

(** What a render shows: the label of its anchor, and on each cell the
    date of the grid of its anchor. *)
Lemma updateCalendar_shows w clock date :
  length (dayGrid w) = 42%nat ->
  exists w',
    updateCalendar clock date w = Some w' /\
    dateChosen w' = dateChosen w /\ dateToday w' = dateToday w /\
    dateDisplayed w' = dateDisplayed w /\ starredDates w' = starredDates w /\
    onDayClick w' = onDayClick w /\
    navigatorText w' = monthLabel date /\
    length (dayGrid w') = 42%nat /\
    forall j dj, getDateArray date !! j = Some dj ->
      exists el', dayGrid w' !! j = Some el' /\
                  textContent el' = pretty (getDate dj) /\
                  dataset_date el' = Some (toShort dj).
Proof.
  intros Hlen.
  destruct (updateCalendar_spec w clock date Hlen) as (cells & Hrun & Hl & Hcells).
  exists (set_view (monthLabel date) cells w).
  split; [exact Hrun|]. do 6 (split; [reflexivity|]). split; [exact Hl|].
  intros j dj Hdj.
  destruct (lookup_lt_is_Some_2 (dayGrid w) j) as [el Hel].
  { apply getDateArray_lookup_inv in Hdj as [Hj _]. now rewrite Hlen. }
  exists (renderDay w date (clock j) dj el).
  split; [exact (Hcells j dj el Hdj Hel)|]. split; reflexivity.
Qed.

(** [navigateMonth] moves the anchor by [setMonth] and renders it. *)
Lemma navigateMonth_shows w clock change :
  length (dayGrid w) = 42%nat ->
  exists w',
    navigateMonth clock change w = Some w' /\
    dateDisplayed w' = setMonth (dateDisplayed w) (getMonth (dateDisplayed w) + change) /\
    dateChosen w' = dateChosen w /\ dateToday w' = dateToday w /\
    navigatorText w' = monthLabel (dateDisplayed w') /\
    length (dayGrid w') = 42%nat /\
    forall j dj, getDateArray (dateDisplayed w') !! j = Some dj ->
      exists el', dayGrid w' !! j = Some el' /\
                  textContent el' = pretty (getDate dj) /\
                  dataset_date el' = Some (toShort dj).
Proof.
  intros Hlen. unfold navigateMonth. cbv zeta.
  set (w0 := set_dateDisplayed _ w).
  destruct (updateCalendar_shows w0 clock (dateDisplayed w0) Hlen)
    as (w' & Hrun & Hc & Ht & Hd & _ & _ & Hn & Hl & Hcells).
  exists w'. split; [exact Hrun|]. rewrite Hd.
  split; [reflexivity|]. split; [exact Hc|]. split; [exact Ht|].
  split; [exact Hn|]. split; [exact Hl|]. exact Hcells.
Qed.

(** An event that is no click on a day cell keeps the chosen date, the
    host and the 42 cells; a timeout that fires is one pending timeout
    less. *)
Lemma step_keeps_dateChosen (clock : nat -> Z) (e : Event Host) (W : World Host) :
  length (dayGrid (widget W)) = 42%nat ->
  ~ isDayClick e ->
  exists W' : World Host,
    step clock e W = Some W' /\
    length (dayGrid (widget W')) = 42%nat /\
    dateChosen (widget W') = dateChosen (widget W) /\
    host W' = host W /\
    timeouts W' = (timeouts W - firings [(clock, e)])%nat.
Proof.
  intros Hlen Hquiet.
  assert (Hrender : forall date,
            exists W' : World Host,
              (w' ← updateCalendar clock date (widget W); Some (set_widget w' W))
              = Some W' /\
              length (dayGrid (widget W')) = 42%nat /\
              dateChosen (widget W') = dateChosen (widget W) /\
              host W' = host W /\ timeouts W' = (timeouts W - 0)%nat).
  { intros date.
    destruct (updateCalendar_shows (widget W) clock date Hlen)
      as (w' & Hrun & Hc & _ & _ & _ & _ & _ & Hl & _).
    exists (set_widget w' W). rewrite Hrun. split; [reflexivity|].
    cbn [set_widget widget host timeouts].
    split; [exact Hl|]. split; [exact Hc|]. split; [reflexivity|lia]. }
  assert (Hmove : forall change,
            exists W' : World Host,
              (w' ← navigateMonth clock change (widget W); Some (set_widget w' W))
              = Some W' /\
              length (dayGrid (widget W')) = 42%nat /\
              dateChosen (widget W') = dateChosen (widget W) /\
              host W' = host W /\ timeouts W' = (timeouts W - 0)%nat).
  { intros change.
    destruct (navigateMonth_shows (widget W) clock change Hlen)
      as (w' & Hrun & _ & Hc & _ & _ & Hl & _).
    exists (set_widget w' W). rewrite Hrun. split; [reflexivity|].
    cbn [set_widget widget host timeouts].
    split; [exact Hl|]. split; [exact Hc|]. split; [reflexivity|lia]. }
  assert (Hstay : exists W' : World Host,
            Some W = Some W' /\
            length (dayGrid (widget W')) = 42%nat /\
            dateChosen (widget W') = dateChosen (widget W) /\
            host W' = host W /\ timeouts W' = (timeouts W - 0)%nat).
  { exists W. split; [reflexivity|]. split; [exact Hlen|].
    split; [reflexivity|]. split; [reflexivity|lia]. }
  destruct e as [target| |cb|keys|date|change]; cbn [firings step].
  - destruct target as [| | |index| |]; unfold click; cbv zeta.
    + apply Hrender.
    + apply Hmove.
    + apply Hmove.
    + now contradiction Hquiet.
    + exact Hstay.
    + exact Hstay.
  - unfold timeout. destruct (timeouts W) as [|n] eqn:Hn.
    + exists W. split; [reflexivity|]. split; [exact Hlen|].
      split; [reflexivity|]. split; [reflexivity|]. rewrite Hn. reflexivity.
    + destruct (updateCalendar_shows (widget W) clock (dateChosen (widget W)) Hlen)
        as (w' & Hrun & Hc & _ & _ & _ & _ & _ & Hl & _).
      exists {| widget := w'; host := host W; timeouts := n |}.
      rewrite Hrun. split; [reflexivity|]. cbn [widget host timeouts].
      split; [exact Hl|]. split; [exact Hc|]. split; [reflexivity|lia].
  - eexists. split; [reflexivity|]. cbn [set_widget widget host timeouts].
    split; [exact Hlen|]. split; [reflexivity|]. split; [reflexivity|lia].
  - eexists. split; [reflexivity|]. cbn [set_widget widget host timeouts].
    split; [exact Hlen|]. split; [reflexivity|]. split; [reflexivity|lia].
  - apply Hrender.
  - apply Hmove.
Qed.

Lemma firings_cons (clock : nat -> Z) (e : Event Host)
  (events : list ((nat -> Z) * Event Host)) :
  firings ((clock, e) :: events) = (firings [(clock, e)] + firings events)%nat.
Proof. destruct e; reflexivity. Qed.

Lemma run_keeps_dateChosen (events : list ((nat -> Z) * Event Host)) :
  forall W : World Host,
    length (dayGrid (widget W)) = 42%nat ->
    Forall (fun ce => ~ isDayClick ce.2) events ->
    exists W' : World Host,
      runEvents events W = Some W' /\
      length (dayGrid (widget W')) = 42%nat /\
      dateChosen (widget W') = dateChosen (widget W) /\
      host W' = host W /\
      timeouts W' = (timeouts W - firings events)%nat.
Proof.
  induction events as [|[clock e] events IH]; intros W Hlen Hquiet.
  - exists W. split; [reflexivity|]. split; [exact Hlen|].
    split; [reflexivity|]. split; [reflexivity|]. cbn [firings]. lia.
  - apply Forall_cons in Hquiet as [He Hquiet]. cbn [snd] in He.
    destruct (step_keeps_dateChosen clock e W Hlen He)
      as (W1 & Hstep & Hl1 & Hc1 & Hh1 & Ht1).
    destruct (IH W1 Hl1 Hquiet) as (W' & Hrun & Hl & Hc & Hh & Ht).
    exists W'. cbn [runEvents]. rewrite Hstep.
    split; [exact Hrun|]. split; [exact Hl|].
    split; [now rewrite Hc|]. split; [now rewrite Hh|].
    rewrite Ht, Ht1, (firings_cons clock e events). lia.
Qed.

(** C5, amended. East of Greenwich, with a callback registered, a
    click on a cell that shows the date [d] (years 1000 to 9999) sets the
    chosen date to [d], calls the callback once with that date and the
    cell, and adds one timeout. Let any events follow that are no click
    on a day cell, among them no more firings than there were timeouts
    pending before the click: the chosen date and the host stay, and the
    timeout of the click is still pending. When it fires, the grid of
    the month of [d] is rendered: one cell [j0] holds [d]; it is marked,
    and no other cell is, unless [d] is the current date: then that cell
    is today and no cell is marked. *)
Theorem day_click_marks_chosen (W : World Host) (callback : Callback Host)
  (i : nat) el (d : Z) (clock1 clock2 : nat -> Z)
  (events : list ((nat -> Z) * Event Host)) :
  0 <= LocalTZA < msPerDay ->
  length (dayGrid (widget W)) = 42%nat ->
  onDayClick (widget W) = Some callback ->
  dayGrid (widget W) !! i = Some el ->
  dataset_date el = Some (toShort d) ->
  1000 <= getFullYear d <= 9999 ->
  Forall (fun ce => ~ isDayClick ce.2) events ->
  (firings events <= timeouts W)%nat ->
  exists (chosen : Z) (W1 W1' W2 : World Host) (j0 : nat),
    click clock1 (DayCell i) W = Some W1 /\
    dateChosen (widget W1) = chosen /\
    calendarDate chosen = calendarDate d /\
    host W1 = callback chosen i (host W) /\
    timeouts W1 = S (timeouts W) /\
    runEvents events W1 = Some W1' /\
    dateChosen (widget W1') = chosen /\
    host W1' = host W1 /\
    timeouts W1' = S (timeouts W - firings events) /\
    timeout clock2 W1' = Some W2 /\
    host W2 = host W1 /\
    timeouts W2 = (timeouts W - firings events)%nat /\
    (j0 < 42)%nat /\
    forall j : nat, (j < 42)%nat ->
      exists dj el',
        getDateArray chosen !! j = Some dj /\
        dayGrid (widget W2) !! j = Some el' /\
        dataset_date el' = Some (toShort dj) /\
        (calendarDate dj = calendarDate d <-> j = j0) /\
        ("marked" ∈ classList el' <->
         j = j0 /\ calendarDate d <> calendarDate (clock2 j0)) /\
        (j = j0 -> calendarDate d = calendarDate (clock2 j0) ->
         stateClasses el' = ["today"]).
Proof.
  intros Hz Hlen Hcb Hel Hkey Hy Hquiet Hfire.
  set (chosen := MakeDate (localDay d) 0).
  assert (Hsame : calendarDate chosen = calendarDate d).
  { apply calendarDate_localDay. now apply localDay_midnight_east. }
  pose proof (click_day_with_callback clock1 i W callback el (toShort d) chosen
                Hcb Hel Hkey (parse_toShort d Hy)) as Hclick.
  set (W1 := {| widget := set_dateChosen chosen (widget W);
                host := callback chosen i (host W);
                timeouts := S (timeouts W) |}) in Hclick.
  assert (Hlen1 : length (dayGrid (widget W1)) = 42%nat) by exact Hlen.
  destruct (run_keeps_dateChosen events W1 Hlen1 Hquiet)
    as (W1' & Hrun1 & Hlen1' & Hc1' & Hh1' & Ht1').
  change (dateChosen (widget W1)) with chosen in Hc1'.
  change (timeouts W1) with (S (timeouts W)) in Ht1'.
  assert (Htime : timeouts W1' = S (timeouts W - firings events)) by lia.
  destruct (updateCalendar_spec (widget W1') clock2 chosen Hlen1')
    as (cells & Hrun & Hl & Hcells).
  destruct (anchor_in_grid chosen) as (j0 & Hj0 & Huniq).
  exists chosen, W1, W1',
    {| widget := set_view (monthLabel chosen) cells (widget W1');
       host := host W1'; timeouts := (timeouts W - firings events)%nat |}, j0.
  split; [exact Hclick|]. split; [reflexivity|]. split; [exact Hsame|].
  split; [reflexivity|]. split; [reflexivity|].
  split; [exact Hrun1|]. split; [exact Hc1'|]. split; [exact Hh1'|].
  split; [exact Htime|].
  split.
  { unfold timeout. rewrite Htime, Hc1', Hrun. reflexivity. }
  split; [exact Hh1'|]. split; [reflexivity|].
  split; [exact Hj0|]. intros j Hj.
  destruct (lookup_lt_is_Some_2 (getDateArray chosen) j) as [dj Hdj];
    [now rewrite getDateArray_length|].
  destruct (lookup_lt_is_Some_2 (dayGrid (widget W1')) j) as [elj Helj];
    [now rewrite Hlen1'|].
  pose proof (Hcells j dj elj Hdj Helj) as Hcell.
  destruct (renderDay_classes (widget W1') chosen (clock2 j) j dj elj Hdj)
    as [Hstate _].
  rewrite Hc1' in Hstate.
  exists dj, (renderDay (widget W1') chosen (clock2 j) dj elj).
  split; [exact Hdj|]. split; [exact Hcell|]. split; [reflexivity|].
  assert (Hcell_d : calendarDate dj = calendarDate d <-> j = j0).
  { rewrite <- Hsame, calendarDate_localDay. exact (Huniq j dj Hdj). }
  split; [exact Hcell_d|]. split.
  - rewrite marked_stateClasses, Hstate, classification_marked. split.
    + intros (_ & Hnow & Hch). rewrite Hsame in Hch.
      assert (j = j0) by now apply Hcell_d. subst j.
      split; [reflexivity|]. now rewrite <- Hch.
    + intros [-> Hnow]. assert (Hd0 : calendarDate dj = calendarDate d)
        by now apply Hcell_d.
      split; [|split; [now rewrite Hd0|now rewrite Hd0, Hsame]].
      apply calendarDate_year_month. now rewrite Hd0, Hsame.
  - intros -> Hnow. rewrite Hstate.
    assert (Hd0 : calendarDate dj = calendarDate d) by now apply Hcell_d.
    rewrite classification_today; [reflexivity| |now rewrite Hd0].
    apply calendarDate_year_month. now rewrite Hd0, Hsame.
Qed.

(** The grid has 42 cells from the constructor on. *)
Lemma construct_grid (now1 now2 now3 : Z) (clock : nat -> Z) :
  exists w : CalendarWidget Host,
    construct now1 now2 now3 clock = Some w /\
    dateToday w = now1 /\ dateChosen w = now2 /\ dateDisplayed w = now3 /\
    starredDates w = [] /\ onDayClick w = None /\
    navigatorText w = monthLabel now1 /\
    length (dayGrid w) = 42%nat.
Proof.
  unfold construct. cbv zeta.
  match goal with
  | |- context [updateCalendar clock ?d ?w0] =>
      destruct (updateCalendar_shows w0 clock d) as
        (w & Hrun & Hc & Ht & Hd & Hs & Ho & Hn & Hl & _);
      [reflexivity|]
  end.
  exists w. split; [exact Hrun|].
  split; [exact Ht|]. split; [exact Hc|]. split; [exact Hd|].
  split; [exact Hs|]. split; [exact Ho|]. split; [exact Hn|exact Hl].
Qed.

(** The listener, target by target. *)
Lemma click_NavigatorText (clock : nat -> Z) (W : World Host) :
  click clock NavigatorText W =
  (w' ← updateCalendar clock (dateToday (widget W)) (widget W);
   Some (set_widget w' W)).
Proof. reflexivity. Qed.

Lemma click_NavigatorLeft (clock : nat -> Z) (W : World Host) :
  click clock NavigatorLeft W =
  (w' ← navigateMonth clock (-1) (widget W); Some (set_widget w' W)).
Proof. reflexivity. Qed.

Lemma click_NavigatorRight (clock : nat -> Z) (W : World Host) :
  click clock NavigatorRight W =
  (w' ← navigateMonth clock 1 (widget W); Some (set_widget w' W)).
Proof. reflexivity. Qed.

Lemma click_DayCell_grid (clock : nat -> Z) (index : nat) (W W' : World Host) :
  click clock (DayCell index) W = Some W' ->
  dayGrid (widget W') = dayGrid (widget W).
Proof.
  unfold click. cbv zeta.
  destruct (dayGrid (widget W) !! index) as [el|]; [|now intros [= <-]].
  destruct (onDayClick (widget W)); [|now intros [= <-]].
  destruct (dataset_date el) as [key|]; [|discriminate].
  cbn [mbind option_bind].
  destruct (parseDateOnly key); [|discriminate].
  cbn [mbind option_bind]. now intros [= <-].
Qed.

Lemma render_step_grid (clock : nat -> Z) (date : Z) (W W' : World Host) :
  length (dayGrid (widget W)) = 42%nat ->
  (w' ← updateCalendar clock date (widget W); Some (set_widget w' W)) = Some W' ->
  length (dayGrid (widget W')) = 42%nat.
Proof.
  intros Hlen H.
  destruct (updateCalendar_shows (widget W) clock date Hlen) as (w2 & Hrun & Hrest).
  rewrite Hrun in H. cbn [mbind option_bind] in H. injection H as <-.
  apply Hrest.
Qed.

Lemma navigate_step_grid (clock : nat -> Z) (change : Z) (W W' : World Host) :
  length (dayGrid (widget W)) = 42%nat ->
  (w' ← navigateMonth clock change (widget W); Some (set_widget w' W)) = Some W' ->
  length (dayGrid (widget W')) = 42%nat.
Proof.
  intros Hlen H.
  destruct (navigateMonth_shows (widget W) clock change Hlen) as (w2 & Hrun & Hrest).
  rewrite Hrun in H. cbn [mbind option_bind] in H. injection H as <-.
  apply Hrest.
Qed.

Lemma click_grid (clock : nat -> Z) (target : Target) (W W' : World Host) :
  length (dayGrid (widget W)) = 42%nat ->
  click clock target W = Some W' ->
  length (dayGrid (widget W')) = 42%nat.
Proof.
  intros Hlen Hstep. destruct target.
  - rewrite click_NavigatorText in Hstep. exact (render_step_grid _ _ _ _ Hlen Hstep).
  - rewrite click_NavigatorLeft in Hstep. exact (navigate_step_grid _ _ _ _ Hlen Hstep).
  - rewrite click_NavigatorRight in Hstep. exact (navigate_step_grid _ _ _ _ Hlen Hstep).
  - now rewrite (click_DayCell_grid clock index W W' Hstep).
  - injection Hstep as <-. exact Hlen.
  - injection Hstep as <-. exact Hlen.
Qed.

Lemma timeout_grid (clock : nat -> Z) (W W' : World Host) :
  length (dayGrid (widget W)) = 42%nat ->
  timeout clock W = Some W' ->
  length (dayGrid (widget W')) = 42%nat.
Proof.
  intros Hlen Hstep.
  unfold timeout in Hstep. destruct (timeouts W) as [|n];
      [injection Hstep as <-; exact Hlen|].
    destruct (updateCalendar_shows (widget W) clock (dateChosen (widget W)) Hlen)
      as (w2 & Hrun & Hrest).
    rewrite Hrun in Hstep. cbn [mbind option_bind] in Hstep.
    injection Hstep as <-. apply Hrest.
Qed.

(** The steps of the host, unfolded. *)
Lemma step_UpdateCalendar (clock : nat -> Z) (date : Z) (W : World Host) :
  step clock (UpdateCalendar date) W =
  (w' ← updateCalendar clock date (widget W); Some (set_widget w' W)).
Proof. reflexivity. Qed.

Lemma step_NavigateMonth (clock : nat -> Z) (change : Z) (W : World Host) :
  step clock (NavigateMonth change) W =
  (w' ← navigateMonth clock change (widget W); Some (set_widget w' W)).
Proof. reflexivity. Qed.

(** Every step keeps the 42 cells of the grid. *)
Lemma step_grid (clock : nat -> Z) (e : Event Host) (W W' : World Host) :
  length (dayGrid (widget W)) = 42%nat ->
  step clock e W = Some W' ->
  length (dayGrid (widget W')) = 42%nat.
Proof.
  intros Hlen Hstep.
  destruct e as [target| |cb|keys|date|change].
  - exact (click_grid clock target W W' Hlen Hstep).
  - exact (timeout_grid clock W W' Hlen Hstep).
  - injection Hstep as <-. exact Hlen.
  - injection Hstep as <-. exact Hlen.
  - rewrite step_UpdateCalendar in Hstep.
    exact (render_step_grid clock date W W' Hlen Hstep).
  - rewrite step_NavigateMonth in Hstep.
    exact (navigate_step_grid clock change W W' Hlen Hstep).
Qed.

(** [navigateMonth] shows the month [change] months from the anchor
    when that month has the day of the anchor. *)
Lemma navigateMonth_adds_months w clock change :
  length (dayGrid w) = 42%nat ->
  getDate (dateDisplayed w)
  <= DaysInMonth (getFullYear (dateDisplayed w)
                  + (getMonth (dateDisplayed w) + change) / 12)
                 ((getMonth (dateDisplayed w) + change) mod 12) ->
  exists w',
    navigateMonth clock change w = Some w' /\
    getFullYear (dateDisplayed w')
    = getFullYear (dateDisplayed w) + (getMonth (dateDisplayed w) + change) / 12 /\
    getMonth (dateDisplayed w') = (getMonth (dateDisplayed w) + change) mod 12 /\
    navigatorText w' = monthLabel (dateDisplayed w').
Proof.
  intros Hlen Hfit.
  destruct (navigateMonth_shows w clock change Hlen)
    as (w' & Hnav & Hd & _ & _ & Hn & _).
  exists w'. split; [exact Hnav|]. rewrite Hd.
  destruct (setMonth_fields (dateDisplayed w) _ Hfit) as (Hy & Hm & _).
  split; [exact Hy|]. split; [exact Hm|]. now rewrite Hn, Hd.
Qed.

(** What the click on the header label does, in every state: it
    renders the grid of [dateToday], the date read when the widget was
    built, whatever the clock is at the click. The label is the month of
    [dateToday], the cells hold the dates of its grid, and [dateToday]
    and the anchor [dateDisplayed] stay as they were. *)
Theorem header_click_renders_dateToday (clock : nat -> Z) (W : World Host) :
  length (dayGrid (widget W)) = 42%nat ->
  exists W' : World Host,
    click clock NavigatorText W = Some W' /\
    dateToday (widget W') = dateToday (widget W) /\
    dateDisplayed (widget W') = dateDisplayed (widget W) /\
    navigatorText (widget W') = monthLabel (dateToday (widget W)) /\
    length (dayGrid (widget W')) = 42%nat /\
    (forall j dj, getDateArray (dateToday (widget W)) !! j = Some dj ->
       exists el', dayGrid (widget W') !! j = Some el' /\
                   textContent el' = pretty (getDate dj) /\
                   dataset_date el' = Some (toShort dj)) /\
    host W' = host W /\ timeouts W' = timeouts W.
Proof.
  intros Hlen.
  destruct (updateCalendar_shows (widget W) clock (dateToday (widget W)) Hlen)
    as (w' & Hrun & _ & Ht & Hd & _ & _ & Hn & Hl & Hcells).
  exists (set_widget w' W). split.
  { unfold click. cbv zeta. rewrite Hrun. reflexivity. }
  cbn [set_widget widget host timeouts].
  split; [exact Ht|]. split; [exact Hd|]. split; [exact Hn|]. split; [exact Hl|].
  split; [exact Hcells|]. split; reflexivity.
Qed.

(** C10, amended. After a click on a day cell, the timeout renders the
    grid of the chosen date and leaves [dateDisplayed] as it was before
    the click; a [navigateMonth] after it starts from that date, the
    anchor stored before the click, and renders the month it reaches.
    The anchor is the date the last navigation reached, or the date of
    the construction: it need not be in the month shown before the
    click. *)
Theorem delayed_render_keeps_dateDisplayed (W : World Host)
  (callback : Callback Host) (i : nat) el (key : string) (chosen : Z)
  (clock1 clock2 clock3 : nat -> Z) (change : Z) :
  length (dayGrid (widget W)) = 42%nat ->
  onDayClick (widget W) = Some callback ->
  dayGrid (widget W) !! i = Some el ->
  dataset_date el = Some key ->
  parseDateOnly key = Some chosen ->
  exists (W1 W2 : World Host) (w3 : CalendarWidget Host),
    click clock1 (DayCell i) W = Some W1 /\
    dateChosen (widget W1) = chosen /\
    timeout clock2 W1 = Some W2 /\
    navigatorText (widget W2) = monthLabel chosen /\
    (forall j dj, getDateArray chosen !! j = Some dj ->
       exists el', dayGrid (widget W2) !! j = Some el' /\
                   dataset_date el' = Some (toShort dj)) /\
    dateDisplayed (widget W2) = dateDisplayed (widget W) /\
    navigateMonth clock3 change (widget W2) = Some w3 /\
    dateDisplayed w3 =
      setMonth (dateDisplayed (widget W))
               (getMonth (dateDisplayed (widget W)) + change) /\
    navigatorText w3 = monthLabel (dateDisplayed w3) /\
    (forall j dj, getDateArray (dateDisplayed w3) !! j = Some dj ->
       exists el', dayGrid w3 !! j = Some el' /\
                   dataset_date el' = Some (toShort dj)).
Proof.
  intros Hlen Hcb Hel Hkey Hparse.
  pose proof (click_day_with_callback clock1 i W callback el key chosen
                Hcb Hel Hkey Hparse) as Hclick.
  set (W1 := {| widget := set_dateChosen chosen (widget W);
                host := callback chosen i (host W);
                timeouts := S (timeouts W) |}) in Hclick.
  assert (Hlen1 : length (dayGrid (widget W1)) = 42%nat) by exact Hlen.
  destruct (updateCalendar_shows (widget W1) clock2 chosen Hlen1)
    as (w2 & Hrun & _ & _ & Hd2 & _ & _ & Hn2 & Hl2 & Hcells2).
  destruct (navigateMonth_shows w2 clock3 change Hl2)
    as (w3 & Hnav & Hd3 & _ & _ & Hn3 & _ & Hcells3).
  exists W1, {| widget := w2; host := host W1; timeouts := timeouts W |}, w3.
  split; [exact Hclick|]. split; [reflexivity|]. split.
  { unfold timeout. change (timeouts W1) with (S (timeouts W)). cbv iota beta.
    change (dateChosen (widget W1)) with chosen. rewrite Hrun. reflexivity. }
  cbn [widget]. split; [exact Hn2|]. split.
  { intros j dj Hdj. destruct (Hcells2 j dj Hdj) as (el' & He & _ & Hk).
    exists el'. now split. }
  split; [exact Hd2|]. split; [exact Hnav|]. split.
  { rewrite Hd3, Hd2. reflexivity. }
  split; [exact Hn3|].
  intros j dj Hdj. destruct (Hcells3 j dj Hdj) as (el' & He & _ & Hk).
  exists el'. now split.
Qed.

End Rendering.

End WidgetFacts.

(** * Facts on [SimpleDatabase] *)

Module DatabaseFacts.
Import Database.

(** ** Promises *)

Lemma resolve_safe {D : Type} (r : Result D) (p : Promise D) :
  (success r = false -> is_Some (message r)) ->
  settlesSafely p -> settlesSafely (resolve r p).
Proof. intros Hr Hp. destruct p; [exact Hr|exact Hp|exact Hp]. Qed.

Lemma resolve_settled {D : Type} (r r' : Result D) :
  resolve r (Fulfilled r') = Fulfilled r'.
Proof. reflexivity. Qed.

Lemma failedWith_message {D : Type} (msg : string) (e : option JsError) :
  success (failedWith (D := D) msg e) = false ->
  is_Some (message (failedWith (D := D) msg e)).
Proof. intros _. now eexists. Qed.

Lemma failed_message {D : Type} (msg : string) :
  success (failed (D := D) msg) = false -> is_Some (message (failed (D := D) msg)).
Proof. intros _. now eexists. Qed.

Lemma succeeded_message {D : Type} (r : Result D) :
  success r = true -> success r = false -> is_Some (message r).
Proof. congruence. Qed.

Lemma dispatch_from_safe {D : Type}
  (handler : IDBEvent -> Promise D -> Promise D) (events : list IDBEvent) :
  (forall ev p, settlesSafely p -> settlesSafely (handler ev p)) ->
  forall p, settlesSafely p -> settlesSafely (foldl (fun p ev => handler ev p) p events).
Proof.
  intros Hh. induction events as [|ev events IH]; intros p Hp; [exact Hp|].
  cbn [foldl]. apply IH, Hh, Hp.
Qed.

Lemma dispatch_safe {D : Type}
  (handler : IDBEvent -> Promise D -> Promise D) (events : list IDBEvent) :
  (forall ev p, settlesSafely p -> settlesSafely (handler ev p)) ->
  settlesSafely (dispatch handler events).
Proof. intros Hh. now apply dispatch_from_safe. Qed.

(** Once a promise is fulfilled, later events do not change it. *)
Lemma dispatch_from_settled {D : Type}
  (handler : IDBEvent -> Promise D -> Promise D) (events : list IDBEvent)
  (r : Result D) :
  (forall ev, handler ev (Fulfilled r) = Fulfilled r) ->
  foldl (fun p ev => handler ev p) (Fulfilled r) events = Fulfilled r.
Proof.
  intros Hh. induction events as [|ev events IH]; [reflexivity|].
  cbn [foldl]. now rewrite Hh.
Qed.

Ltac safe_handler :=
  let ev := fresh "ev" in let p := fresh "p" in let Hp := fresh "Hp" in
  intros ev p Hp; destruct ev; try exact Hp;
  repeat match goal with
         | |- settlesSafely (match ?o with _ => _ end) => destruct o
         end;
  apply resolve_safe; try exact Hp;
  first [apply failedWith_message | apply failed_message
        | apply succeeded_message; reflexivity].

Lemma open_handlers_safe ev p :
  settlesSafely p -> settlesSafely (open_handlers ev p).
Proof. revert ev p. unfold open_handlers. safe_handler. Qed.



Lemma destroy_handlers_safe ev p :
  settlesSafely p -> settlesSafely (destroy_handlers ev p).
Proof. revert ev p. unfold destroy_handlers. safe_handler. Qed.


(** ** The operations *)

Lemma open_safe events st : settlesSafely (open events st).1.
Proof.
  unfold open. destruct st as [this browser]. destruct (_db this).
  - cbn. congruence.
  - destruct (bool_decide _); cbn [fst]; apply dispatch_safe, open_handlers_safe.
Qed.






Lemma destroy_safe events st : settlesSafely (_destroy events st).1.
Proof.
  unfold _destroy. destruct (_db st.1); [|exact (failed_message _)].
  apply dispatch_safe, destroy_handlers_safe.
Qed.

Lemma reset_safe events1 events2 st : settlesSafely (reset events1 events2 st).1.
Proof.
  unfold reset. pose proof (destroy_safe events1 st) as Hd.
  destruct (_destroy events1 st) as [[|r1|e1] st1]; cbn [fst] in *;
    [exact I| |exact Hd].
  destruct (success r1) eqn:Hs1; cbn [negb]; [|exact Hd].
  pose proof (open_safe events2 st1) as Ho.
  destruct (open events2 st1) as [[|r2|e2] st2]; cbn [fst] in *;
    [exact I| |exact Ho].
  destruct (success r2) eqn:Hs2; cbn [negb]; [|exact Ho].
  cbn. congruence.
Qed.

(** ** Saving and loading *)

Lemma save_handlers_settled ev (r : Result unit) :
  save_handlers ev (Fulfilled r) = Fulfilled r.
Proof. destruct ev; reflexivity. Qed.

Lemma load_handlers_settled {D : Type} (result : option D) ev (r : Result D) :
  load_handlers result ev (Fulfilled r) = Fulfilled r.
Proof. destruct ev; try reflexivity. cbn. now destruct result. Qed.

Lemma dispatch_save_success rest :
  dispatch save_handlers (RequestSuccess :: rest) = Fulfilled succeeded.
Proof.
  unfold dispatch. cbn [foldl save_handlers resolve].
  apply dispatch_from_settled. intros ev. apply save_handlers_settled.
Qed.

Lemma dispatch_load_success {D : Type} (result : option D) rest :
  dispatch (load_handlers result) (RequestSuccess :: rest) =
  Fulfilled (match result with
             | Some d => succeededWith d
             | None => failed "Data was nullish"
             end).
Proof.
  unfold dispatch. cbn [foldl load_handlers].
  destruct result; cbn [resolve]; apply dispatch_from_settled;
    intros ev; apply load_handlers_settled.
Qed.

Lemma validString_cons (a : JsValue) (args : list JsValue) :
  validString (a :: args) = validString [a] && validString args.
Proof. unfold validString. cbn [forallb]. now rewrite andb_true_r. Qed.

(** What a committed [save] leaves in the store. *)
Lemma save_run (k : string) (value : JsValue) (rest : list IDBEvent) (st : State) :
  linked st ->
  validString [JsString k; value] = true ->
  TransactionComplete ∈ rest ->
  save (JsString k) value (RequestSuccess :: rest) st =
  (Fulfilled succeeded,
   (st.1, <[_dbName st.1 := <[k := value]> (storeOf st)]> st.2)).
Proof.
  intros [c Hc] Hv Hcommit. unfold save. destruct st as [this browser].
  cbn [fst snd] in *. rewrite Hc, Hv. cbn [negb].
  rewrite dispatch_save_success. unfold committed.
  rewrite bool_decide_eq_true_2 by (now apply list_elem_of_further).
  reflexivity.
Qed.

Lemma storeOf_saved (this : SimpleDatabase) (browser : Browser) (store : Store) :
  storeOf (this, <[_dbName this := store]> browser) = store.
Proof. unfold storeOf. cbn [fst snd]. now rewrite lookup_insert_eq. Qed.

Lemma load_run (k : string) (rest : list IDBEvent) (st : State) :
  linked st ->
  validString [JsString k] = true ->
  load (JsString k) (RequestSuccess :: rest) st =
  (Fulfilled (match getResult st k with
              | Some d => succeededWith d
              | None => failed "Data was nullish"
              end), st).
Proof.
  intros [c Hc] Hv. unfold load. rewrite Hc, Hv. cbn [negb].
  now rewrite dispatch_load_success.
Qed.



(** ** The calls that throw *)























End DatabaseFacts.

(** * More on the [tools] object *)

Module ToolsMore.
Import ESDate JSDate Tools ESDateFacts ToolsFacts.
Local Open Scope Z_scope.

Section ToolsMore.
Context {env : Env}.

Lemma getDay_grid t i d :
  getDateArray t !! i = Some d -> getDay d = (Z.of_nat i + 1) mod 7.
Proof.
  intros H. rewrite getDay_localDay, (localDay_grid t i d H).
  pose proof (gridStart_monday (getFullYear t) (getMonth t)) as Hm.
  revert Hm. generalize (gridStart (getFullYear t) (getMonth t)). intros g Hm.
  zdiv.
Qed.

(** X1. The cells of the grid stand under the header row: the weekdays of
    the 42 dates are Monday to Sunday, six times over. *)
Theorem getDateArray_columns (date : Z) :
  getDay <$> getDateArray date = mjoin (replicate 6 weekRow).
Proof.
  apply list_eq. intros i. rewrite list_lookup_fmap.
  destruct (getDateArray date !! i) as [d|] eqn:Hd.
  - destruct (getDateArray_lookup_inv date i d Hd) as [Hi _].
    cbn [fmap option_fmap option_map]. rewrite (getDay_grid date i d Hd).
    do 42 (destruct i as [|i]; [reflexivity|]). lia.
  - apply lookup_ge_None_1 in Hd. rewrite getDateArray_length in Hd.
    cbn [fmap option_fmap option_map]. symmetry. apply lookup_ge_None_2.
    exact Hd.
Qed.

Lemma mondayIndex_MakeDay t :
  mondayIndex t = (MakeDay (getFullYear t) (getMonth t) 1 + 3) mod 7.
Proof.
  rewrite mondayIndex_eq. destruct (firstDate_fields t) as [-> _]. reflexivity.
Qed.

Lemma mondayIndex_range t : 0 <= mondayIndex t <= 6.
Proof. rewrite mondayIndex_MakeDay. zdiv. Qed.

Lemma localDay_cell t i d :
  getDateArray t !! i = Some d ->
  localDay d = MakeDay (getFullYear t) (getMonth t) (Z.of_nat i - mondayIndex t + 1).
Proof.
  intros H. rewrite (localDay_grid t i d H), mondayIndex_MakeDay.
  unfold gridStart.
  rewrite (MakeDay_date _ _ (Z.of_nat i - _ + 1) 1). lia.
Qed.

Lemma cell_in_month t i d :
  getDateArray t !! i = Some d ->
  1 <= Z.of_nat i - mondayIndex t + 1 <= DaysInMonth (getFullYear t) (getMonth t) ->
  calendarDate d = (getFullYear t, getMonth t, Z.of_nat i - mondayIndex t + 1).
Proof.
  intros H Hk. pose proof (localDay_cell t i d H) as Hd.
  destruct (fields_of_date t) as (Hm & _ & _).
  destruct (date_of_fields d _ _ _ Hm Hk Hd) as (Hy & Hmn & Hdt).
  unfold calendarDate. now rewrite Hy, Hmn, Hdt.
Qed.

(** X2. Every day of the month of the anchor has its cell: day [k] is
    at index [mondayIndex + k - 1], and no other cell holds that
    calendar date. *)
Theorem getDateArray_holds_month (date k : Z) :
  1 <= k <= DaysInMonth (getFullYear date) (getMonth date) ->
  exists d,
    getDateArray date !! Z.to_nat (mondayIndex date + k - 1) = Some d /\
    calendarDate d = (getFullYear date, getMonth date, k) /\
    forall j d', getDateArray date !! j = Some d' ->
                 calendarDate d' = calendarDate d ->
                 j = Z.to_nat (mondayIndex date + k - 1).
Proof.
  intros Hk. pose proof (mondayIndex_range date) as Hmi.
  pose proof (DaysInMonth_le (getFullYear date) (getMonth date)) as Hle.
  set (i := Z.to_nat (mondayIndex date + k - 1)).
  assert (Hi : (i < 42)%nat) by (unfold i; lia).
  assert (Hki : Z.of_nat i - mondayIndex date + 1 = k) by (unfold i; lia).
  exists (setDate (cloneDate date (dayOpt 1)) (1 - mondayIndex date + Z.of_nat i)).
  pose proof (getDateArray_lookup date i Hi) as Hd.
  split; [exact Hd|]. split.
  - rewrite (cell_in_month date i _ Hd); rewrite Hki; [reflexivity|exact Hk].
  - intros j d' Hd' Heq. apply calendarDate_localDay in Heq.
    rewrite (localDay_grid date j d' Hd'), (localDay_grid date i _ Hd) in Heq.
    lia.
Qed.

(** X3. A cell of the grid is in the month of the anchor exactly when
    its index is one of the [DaysInMonth] indexes from [mondayIndex] on:
    the cells before are days of an earlier month, the cells after are
    days of a later one. *)
Theorem getDateArray_in_month (date : Z) (i : nat) (d : Z) :
  getDateArray date !! i = Some d ->
  (getMonth d = getMonth date <->
   mondayIndex date <= Z.of_nat i
     < mondayIndex date + DaysInMonth (getFullYear date) (getMonth date)).
Proof.
  intros Hd. split.
  - intros Hm. pose proof (grid_month_year date i d Hd Hm) as Hy.
    destruct (fields_of_date d) as (_ & Hdt & Hday).
    rewrite Hy, Hm in Hdt, Hday.
    rewrite (localDay_cell date i d Hd) in Hday.
    rewrite (MakeDay_date _ _ (Z.of_nat i - _ + 1) (getDate d)) in Hday.
    lia.
  - intros Hi.
    assert (Hk : 1 <= Z.of_nat i - mondayIndex date + 1
                 <= DaysInMonth (getFullYear date) (getMonth date)) by lia.
    pose proof (cell_in_month date i d Hd Hk) as Hc.
    unfold calendarDate in Hc. congruence.
Qed.

Lemma TimeWithinDay_setDate t dt :
  TimeWithinDay (LocalTime (setDate t dt)) = TimeWithinDay (LocalTime t).
Proof.
  unfold setDate. cbv zeta. rewrite LocalTime_UTC.
  apply TimeWithinDay_MakeDate, TimeWithinDay_range.
Qed.

Lemma TimeWithinDay_setMonth t m :
  TimeWithinDay (LocalTime (setMonth t m)) = TimeWithinDay (LocalTime t).
Proof.
  unfold setMonth. cbv zeta. rewrite LocalTime_UTC.
  apply TimeWithinDay_MakeDate, TimeWithinDay_range.
Qed.

Lemma TimeWithinDay_setFullYear t y :
  TimeWithinDay (LocalTime (setFullYear t y)) = TimeWithinDay (LocalTime t).
Proof.
  unfold setFullYear. cbv zeta. rewrite LocalTime_UTC.
  apply TimeWithinDay_MakeDate, TimeWithinDay_range.
Qed.

Lemma localDay_setFullYear t y :
  localDay (setFullYear t y) = MakeDay y (getMonth t) (getDate t).
Proof.
  unfold localDay, setFullYear. cbv zeta. rewrite LocalTime_UTC.
  apply Day_MakeDate, TimeWithinDay_range.
Qed.

Lemma DaysInMonth_ge y mn : 28 <= DaysInMonth y mn.
Proof.
  unfold DaysInMonth.
  destruct mn as [|[p|p|]|]; try lia;
    repeat (destruct p as [p|p|]; try lia);
    destruct (DaysInYear y =? 366); lia.
Qed.

(** The cells keep the time of day of the anchor: only the
    calendar date differs from one cell to the next. *)
Lemma getDateArray_time_of_day (date : Z) (i : nat) (d : Z) :
  getDateArray date !! i = Some d ->
  TimeWithinDay (LocalTime d) = TimeWithinDay (LocalTime date).
Proof.
  intros Hd. destruct (getDateArray_lookup_inv date i d Hd) as [_ ->].
  rewrite TimeWithinDay_setDate, cloneDate_dayOpt.
  apply TimeWithinDay_setDate.
Qed.

(** X4. With the three options given, [cloneDate] yields the calendar
    date asked for and keeps the time of day, provided the day of the
    source is at most 28: the year and the month are set before the day,
    on the day of the source. *)
Theorem cloneDate_all_options (date y m d : Z) :
  getDate date <= 28 -> 0 <= m <= 11 -> 1 <= d <= DaysInMonth y m ->
  calendarDate (cloneDate date {| day := Some d; month := Some m; year := Some y |})
    = (y, m, d) /\
  TimeWithinDay (LocalTime
    (cloneDate date {| day := Some d; month := Some m; year := Some y |}))
    = TimeWithinDay (LocalTime date).
Proof.
  intros H28 Hm Hd.
  change (cloneDate date {| day := Some d; month := Some m; year := Some y |})
    with (setDate (setMonth (setFullYear date y) m) d).
  destruct (fields_of_date date) as (Hm0 & Hd0 & _).
  pose proof (DaysInMonth_ge y (getMonth date)) as Hge1.
  assert (Hd1 : 1 <= getDate date <= DaysInMonth y (getMonth date)) by lia.
  destruct (date_of_fields (setFullYear date y) y (getMonth date) (getDate date)
              Hm0 Hd1 (localDay_setFullYear date y)) as (Hy1 & Hm1 & Hdt1).
  assert (Hdiv : m / 12 = 0 /\ m mod 12 = m) by zdiv.
  destruct Hdiv as [Hq Hr].
  pose proof (DaysInMonth_ge y m) as Hge2.
  destruct (setMonth_fields (setFullYear date y) m) as (Hy2 & Hm2 & Hdt2).
  { rewrite Hy1, Hdt1, Hq, Hr, Z.add_0_r. lia. }
  rewrite Hy1, Hq, Z.add_0_r in Hy2. rewrite Hr in Hm2.
  pose proof (localDay_setDate_MakeDay (setMonth (setFullYear date y) m) d) as Hl.
  rewrite Hy2, Hm2 in Hl.
  destruct (date_of_fields _ y m d Hm Hd Hl) as (Hy3 & Hm3 & Hdt3).
  split.
  - unfold calendarDate. now rewrite Hy3, Hm3, Hdt3.
  - now rewrite TimeWithinDay_setDate, TimeWithinDay_setMonth,
      TimeWithinDay_setFullYear.
Qed.

(** X5. [toOrdinal] writes the day of the month with the suffix of the
    English ordinal, for every date: 1st, 2nd, 3rd, 4th, ..., 11th, 12th,
    13th, ..., 21st, 22nd, 23rd, ..., 31st. *)
Theorem toOrdinal_english (date : Z) :
  toOrdinal date = pretty (getDate date) +:+ ordinalSuffix (getDate date).
Proof.
  destruct (fields_of_date date) as (_ & Hd & _).
  pose proof (DaysInMonth_le (getFullYear date) (getMonth date)) as Hle.
  unfold toOrdinal. cbv zeta.
  revert Hd Hle. generalize (DaysInMonth (getFullYear date) (getMonth date)).
  generalize (getDate date). intros day dim Hd Hle.
  assert (Hin : In day (map Z.of_nat (seq 1 31))).
  { apply in_map_iff. exists (Z.to_nat day). split; [lia|].
    apply in_seq. lia. }
  assert (Hall : forallb
            (fun day =>
               String.eqb
                 (if (3 <? day) && (day <? 21) then pretty day +:+ "th"
                  else match Z.rem day 10 with
                       | 1 => pretty day +:+ "st"
                       | 2 => pretty day +:+ "nd"
                       | 3 => pretty day +:+ "rd"
                       | _ => pretty day +:+ "th"
                       end)
                 (pretty day +:+ ordinalSuffix day))
            (map Z.of_nat (seq 1 31)) = true) by (vm_compute; reflexivity).
  rewrite forallb_forall in Hall. apply String.eqb_eq. exact (Hall day Hin).
Qed.

(** X6. [isSameDate] tells whether two dates fall on the same local
    day, whatever their times of day; it is reflexive, symmetric and
    transitive. *)
Theorem isSameDate_same_day :
  (forall a b, isSameDate a b = true <->
               (a + LocalTZA) / msPerDay = (b + LocalTZA) / msPerDay) /\
  (forall a, isSameDate a a = true) /\
  (forall a b, isSameDate a b = isSameDate b a) /\
  (forall a b c, isSameDate a b = true -> isSameDate b c = true ->
                 isSameDate a c = true).
Proof.
  split; [|split; [|split]].
  - intros a b. exact (isSameDate_localDay a b).
  - intros a. now apply isSameDate_localDay.
  - intros a b. apply eq_true_iff_eq.
    rewrite !isSameDate_localDay. split; congruence.
  - intros a b c. rewrite !isSameDate_localDay. congruence.
Qed.

(** X7. For years of four digits, the key [toShort] gives is the
    identity of the calendar date: two dates have the same key exactly
    when they fall on the same local day. *)
Theorem toShort_injective (a b : Z) :
  1000 <= getFullYear a <= 9999 -> 1000 <= getFullYear b <= 9999 ->
  (toShort a = toShort b <-> calendarDate a = calendarDate b).
Proof.
  intros Ha Hb. rewrite calendarDate_localDay. split.
  - intros Heq. pose proof (parse_toShort a Ha) as Pa.
    pose proof (parse_toShort b Hb) as Pb.
    rewrite Heq, Pb in Pa. injection Pa as Pa.
    unfold MakeDate, msPerDay in Pa. lia.
  - apply toShort_time_of_day.
Qed.

(** X8. At or east of Greenwich, for years of four digits, a key read
    back by [new Date(key)] is a date of the same calendar day: its key
    is the key read, and [isSameDate] holds with the date the key came
    from. *)
Theorem toShort_read_back_east (date : Z) :
  0 <= LocalTZA < msPerDay -> 1000 <= getFullYear date <= 9999 ->
  exists back, parseDateOnly (toShort date) = Some back /\
               toShort back = toShort date /\
               isSameDate back date = true.
Proof.
  intros Htz Hy. exists (MakeDate (localDay date) 0).
  pose proof (localDay_midnight_east (localDay date) Htz) as Hl.
  split; [exact (parse_toShort date Hy)|]. split.
  - now apply toShort_time_of_day.
  - now apply isSameDate_localDay.
Qed.

End ToolsMore.
End ToolsMore.

(** * More on Date objects *)

Module ObjectsMore.
Import ESDate JSDate Tools ESDateFacts ToolsFacts Objects ObjectsFacts.
Local Open Scope Z_scope.

Section ObjectsMore.
Context {env : Env}.

(** X9. [cloneDate] gives a new Date object and changes no other: the
    source keeps its value, also when the clone is changed afterwards. *)
Theorem cloneDate_new_object (date : ref) (opts : CloneOpts) (h : Heap) (t d : Z) :
  h !! date = Some t ->
  exists output h',
    cloneDate date opts h = Some (output, h') /\
    h !! output = None /\
    h' !! output = Some (Tools.cloneDate t opts) /\
    length h' = S (length h) /\
    (forall r x, h !! r = Some x -> h' !! r = Some x) /\
    exists h'', Objects.setDate output d h' = Some (tt, h'') /\
                h'' !! date = Some t /\
                h'' !! output = Some (JSDate.setDate (Tools.cloneDate t opts) d).
Proof.
  intros Ht. exists (length h), (h ++ [Tools.cloneDate t opts]).
  split; [exact (cloneDate_run date opts h t Ht)|].
  split; [apply lookup_ge_None_2; lia|].
  split; [apply heap_lookup_last|].
  split; [rewrite length_app; cbn [length]; lia|].
  split; [intros r x Hr; now apply heap_lookup_old|].
  exists (h ++ [JSDate.setDate (Tools.cloneDate t opts) d]).
  split; [exact (set_last (fun t' => JSDate.setDate t' d) h (Tools.cloneDate t opts))|].
  split; [now apply heap_lookup_old|apply heap_lookup_last].
Qed.

End ObjectsMore.
End ObjectsMore.

(** * More on the widget *)

Module WidgetMore.
Import ESDate JSDate Tools ESDateFacts ToolsFacts ToolsMore Widget WidgetFacts.
Local Open Scope Z_scope.

(** ** Rendering twice *)

Local Abbreviation stateTokens := ["dimmed"; "marked"; "starred"; "today"] (only parsing).

Lemma classList_add_fresh (token : string) (l : list string) :
  token ∈ stateTokens ->
  classList_add token (classList_remove stateTokens l)
  = classList_remove stateTokens l ++ [token].
Proof.
  intros Ht. unfold classList_add.
  destruct (decide (token ∈ classList_remove stateTokens l)) as [Hin|Hin];
    [|reflexivity].
  exfalso. unfold classList_remove in Hin.
  apply list_elem_of_filter in Hin as [Hn _]. contradiction.
Qed.

Lemma classList_remove_again (l : list string) :
  classList_remove stateTokens (classList_remove stateTokens l)
  = classList_remove stateTokens l.
Proof. exact (filter_other_other l). Qed.

Lemma classList_add_again (token : string) (l : list string) :
  token ∈ stateTokens ->
  classList_add token
    (classList_remove stateTokens
       (classList_add token (classList_remove stateTokens l)))
  = classList_add token (classList_remove stateTokens l).
Proof.
  intros Ht. rewrite (classList_add_fresh token l Ht).
  assert (Hrm : classList_remove stateTokens
                  (classList_remove stateTokens l ++ [token])
                = classList_remove stateTokens l).
  { unfold classList_remove at 1. rewrite filter_app.
    fold (classList_remove stateTokens (classList_remove stateTokens l)).
    rewrite classList_remove_again, filter_cons, filter_nil.
    destruct (decide (token ∉ stateTokens)); [contradiction|].
    apply app_nil_r. }
  rewrite Hrm. apply classList_add_fresh, Ht.
Qed.

Section Rendering.
Context {env : Env} {Host : Type}.
Implicit Types (w : CalendarWidget Host) (el : DayElement).

Lemma renderDay_again w w' date now d el :
  dateChosen w' = dateChosen w -> starredDates w' = starredDates w ->
  renderDay w' date now d (renderDay w date now d el) = renderDay w date now d el.
Proof.
  intros Hc Hs. unfold renderDay, shouldStar. rewrite Hc, Hs.
  generalize (negb (getMonth d =? getMonth date)) (isToday now d)
    (isSameDate d (dateChosen w)) (bool_decide (toShort d ∈ starredDates w)).
  generalize (pretty (getDate d)) (toShort d).
  intros txt key b1 b2 b3 b4. destruct el as [l t0 k0].
  destruct b1; [|destruct b2; [|destruct b3; [|destruct b4]]];
    cbn [withClasses resetDayClasses classList textContent dataset_date];
    f_equal;
    try (apply classList_add_again; set_solver);
    apply classList_remove_again.
Qed.

(** X10. Rendering is idempotent: a second [updateCalendar] of the same
    date, with the clock unchanged, leaves the widget as the first one
    made it. *)
Theorem updateCalendar_idempotent w w' (clock : nat -> Z) (date : Z) :
  length (dayGrid w) = 42%nat ->
  updateCalendar clock date w = Some w' ->
  updateCalendar clock date w' = Some w'.
Proof.
  intros Hlen Hrun.
  destruct (updateCalendar_spec w clock date Hlen) as (cells & Hw & Hl & Hcells).
  rewrite Hw in Hrun. injection Hrun as <-.
  destruct (updateCalendar_spec (set_view (monthLabel date) cells w) clock date Hl)
    as (cells' & Hw' & Hl' & Hcells').
  rewrite Hw'. f_equal.
  assert (Heq : cells' = cells).
  { apply list_eq. intros i. destruct (decide (i < 42)%nat) as [Hi|Hi].
    - pose proof (getDateArray_lookup date i Hi) as Hd.
      destruct (lookup_lt_is_Some_2 (dayGrid w) i) as [el Hel]; [lia|].
      pose proof (Hcells i _ el Hd Hel) as Hc.
      rewrite (Hcells' i _ _ Hd Hc), Hc. f_equal.
      now apply renderDay_again.
    - rewrite (lookup_ge_None_2 cells') by lia.
      rewrite (lookup_ge_None_2 cells) by lia. reflexivity. }
  rewrite Heq. reflexivity.
Qed.

(** ** Navigation *)

Lemma setMonth_same t : setMonth t (getMonth t) = t.
Proof.
  destruct (fields_of_date t) as (_ & _ & Hday).
  unfold setMonth. cbv zeta.
  change (MakeDay (YearFromTime (LocalTime t)) (getMonth t) (DateFromTime (LocalTime t)))
    with (MakeDay (getFullYear t) (getMonth t) (getDate t)).
  rewrite <- Hday. unfold localDay, MakeDate, Day, TimeWithinDay, UTC, LocalTime.
  generalize LocalTZA. intros z. unfold msPerDay. zdiv.
Qed.

Lemma setMonth_setMonth t a b :
  getDate t <= 28 ->
  setMonth (setMonth t (getMonth t + a)) (getMonth (setMonth t (getMonth t + a)) + b)
  = setMonth t (getMonth t + (a + b)).
Proof.
  intros H28.
  pose proof (DaysInMonth_ge (getFullYear t + (getMonth t + a) / 12)
                ((getMonth t + a) mod 12)) as Hge.
  destruct (setMonth_fields t (getMonth t + a)) as (Hy & Hm & Hd); [lia|].
  pose proof (TimeWithinDay_setMonth t (getMonth t + a)) as Htod.
  revert Hy Hm Hd Htod. generalize (setMonth t (getMonth t + a)). intros t1 Hy Hm Hd Htod.
  unfold setMonth. cbv zeta.
  change (YearFromTime (LocalTime t1)) with (getFullYear t1).
  change (DateFromTime (LocalTime t1)) with (getDate t1).
  change (YearFromTime (LocalTime t)) with (getFullYear t).
  change (DateFromTime (LocalTime t)) with (getDate t).
  rewrite Hy, Hm, Hd, Htod.
  rewrite (MakeDay_normalize _ ((getMonth t + a) mod 12 + b)).
  rewrite (MakeDay_normalize _ (getMonth t + (a + b))).
  generalize (getFullYear t) (getMonth t). intros y m.
  replace (y + (m + a) / 12 + ((m + a) mod 12 + b) / 12) with (y + (m + (a + b)) / 12)
    by zdiv.
  replace (((m + a) mod 12 + b) mod 12) with ((m + (a + b)) mod 12) by zdiv.
  reflexivity.
Qed.

(** X11. When the month [change] months away has the day of the anchor,
    [navigateMonth] moves the anchor to that month of that year, the day
    and the time of day kept, and shows it: the label names the month
    and the cells hold the dates of its grid. *)
Theorem navigateMonth_exact w (clock : nat -> Z) (change : Z) :
  length (dayGrid w) = 42%nat ->
  getDate (dateDisplayed w)
  <= DaysInMonth (getFullYear (dateDisplayed w)
                  + (getMonth (dateDisplayed w) + change) / 12)
                 ((getMonth (dateDisplayed w) + change) mod 12) ->
  exists w',
    navigateMonth clock change w = Some w' /\
    calendarDate (dateDisplayed w')
    = (getFullYear (dateDisplayed w) + (getMonth (dateDisplayed w) + change) / 12,
       (getMonth (dateDisplayed w) + change) mod 12,
       getDate (dateDisplayed w)) /\
    TimeWithinDay (LocalTime (dateDisplayed w'))
    = TimeWithinDay (LocalTime (dateDisplayed w)) /\
    showsMonth w' (dateDisplayed w').
Proof.
  intros Hlen Hfit.
  destruct (navigateMonth_shows w clock change Hlen)
    as (w' & Hnav & Hd & _ & _ & Hn & _ & Hcells).
  exists w'. split; [exact Hnav|].
  destruct (setMonth_fields (dateDisplayed w) _ Hfit) as (Hy & Hm & Hdt).
  split; [|split].
  - unfold calendarDate. rewrite Hd, Hy, Hm, Hdt. reflexivity.
  - rewrite Hd. apply TimeWithinDay_setMonth.
  - split; [exact Hn|exact Hcells].
Qed.

(** X12. From an anchor on a day up to the 28th, steps of navigation
    add up: [navigateMonth a] then [navigateMonth b] leave the anchor
    [navigateMonth (a + b)] leaves, and a step back after a step forth
    brings the very anchor back. *)
Theorem navigateMonth_composes w (clock1 clock2 clock3 : nat -> Z) (a b : Z) :
  length (dayGrid w) = 42%nat ->
  getDate (dateDisplayed w) <= 28 ->
  exists w1 w2 w3,
    navigateMonth clock1 a w = Some w1 /\
    navigateMonth clock2 b w1 = Some w2 /\
    navigateMonth clock3 (a + b) w = Some w3 /\
    dateDisplayed w2 = dateDisplayed w3 /\
    (a + b = 0 -> dateDisplayed w2 = dateDisplayed w).
Proof.
  intros Hlen H28.
  destruct (navigateMonth_shows w clock1 a Hlen)
    as (w1 & Hn1 & Hd1 & _ & _ & _ & Hl1 & _).
  destruct (navigateMonth_shows w1 clock2 b Hl1)
    as (w2 & Hn2 & Hd2 & _).
  destruct (navigateMonth_shows w clock3 (a + b) Hlen)
    as (w3 & Hn3 & Hd3 & _).
  exists w1, w2, w3.
  split; [exact Hn1|]. split; [exact Hn2|]. split; [exact Hn3|].
  assert (Heq : dateDisplayed w2 = dateDisplayed w3).
  { rewrite Hd2, Hd3, Hd1. apply setMonth_setMonth, H28. }
  split; [exact Heq|].
  intros H0. rewrite Heq, Hd3, H0, Z.add_0_r. apply setMonth_same.
Qed.

(** ** What the events change *)

Lemma updateCalendar_frame w w' (clock : nat -> Z) (date : Z) :
  updateCalendar clock date w = Some w' ->
  dateChosen w' = dateChosen w /\ dateToday w' = dateToday w /\
  dateDisplayed w' = dateDisplayed w /\ starredDates w' = starredDates w /\
  onDayClick w' = onDayClick w.
Proof.
  unfold updateCalendar. cbv zeta.
  destruct (renderDays w date clock 0 (getDateArray date) (dayGrid w)) as [cells|];
    [|discriminate].
  intros H. injection H as <-. repeat split.
Qed.

Lemma navigateMonth_frame w w' (clock : nat -> Z) (change : Z) :
  navigateMonth clock change w = Some w' ->
  dateChosen w' = dateChosen w /\ dateToday w' = dateToday w /\
  starredDates w' = starredDates w /\ onDayClick w' = onDayClick w.
Proof.
  unfold navigateMonth. cbv zeta. intros H.
  apply updateCalendar_frame in H as (H1 & H2 & _ & H4 & H5).
  repeat split; assumption.
Qed.

Lemma bind_widget (o : option (CalendarWidget Host)) (W W' : World Host) :
  (w' ← o; Some (set_widget w' W)) = Some W' ->
  exists w', o = Some w' /\ W' = set_widget w' W.
Proof.
  destruct o as [w'|]; [|discriminate].
  intros H. injection H as <-. now exists w'.
Qed.

End Rendering.

(** ** Toggling the mark *)

Lemma classList_remove_toggle (l : list string) :
  classList_remove stateTokens (classList_toggle "marked" l)
  = classList_remove stateTokens l.
Proof.
  unfold classList_toggle, classList_remove.
  destruct (decide ("marked" ∈ l)) as [Hin|Hin].
  - clear Hin. induction l as [|c l IH]; [reflexivity|].
    rewrite (filter_cons (fun c => c ≠ "marked")).
    destruct (decide (c ≠ "marked")) as [Hc|Hc].
    + rewrite !(filter_cons (fun c => c ∉ stateTokens)).
      destruct (decide (c ∉ stateTokens)); [now rewrite IH|exact IH].
    + rewrite (filter_cons (fun c => c ∉ stateTokens) c l).
      destruct (decide (c ∉ stateTokens)) as [Hn|Hn]; [|exact IH].
      exfalso. apply Hc. intros ->. apply Hn. set_solver.
  - rewrite filter_app, filter_cons, filter_nil.
    destruct (decide ("marked" ∉ stateTokens)) as [Hn|Hn]; [|apply app_nil_r].
    exfalso. apply Hn. set_solver.
Qed.

Section Events.
Context {env : Env} {Host : Type}.
Implicit Types (w : CalendarWidget Host) (el : DayElement) (W : World Host).

(** X13. [toggleDayMarked] flips the class [marked] of a cell and
    touches nothing else; the next render of the cell forgets the
    toggle. *)
Theorem toggleDayMarked_flips w el (date now d : Z) :
  ("marked" ∈ classList (toggleDayMarked el) <-> "marked" ∉ classList el) /\
  (forall c, c ≠ "marked" ->
     (c ∈ classList (toggleDayMarked el) <-> c ∈ classList el)) /\
  textContent (toggleDayMarked el) = textContent el /\
  dataset_date (toggleDayMarked el) = dataset_date el /\
  renderDay w date now d (toggleDayMarked el) = renderDay w date now d el.
Proof.
  destruct el as [l t0 k0]. unfold toggleDayMarked, withClasses.
  cbn [classList textContent dataset_date].
  split; [|split; [|split; [reflexivity|split; [reflexivity|]]]].
  - unfold classList_toggle. destruct (decide ("marked" ∈ l)) as [Hin|Hin].
    + rewrite list_elem_of_filter. split; [intros [Hn _]; now destruct Hn|].
      intros Hn. contradiction.
    + split; [intros _; exact Hin|]. intros _. set_solver.
  - intros c Hc. unfold classList_toggle.
    destruct (decide ("marked" ∈ l)) as [Hin|Hin].
    + rewrite list_elem_of_filter. split; [now intros [_ H]|]. now intros H.
    + rewrite elem_of_app, list_elem_of_singleton. split; [|now left].
      intros [H|H]; [exact H|contradiction].
  - unfold renderDay, resetDayClasses, withClasses.
    cbn [classList textContent dataset_date].
    now rewrite classList_remove_toggle.
Qed.

(** ** The listener and the timeouts, case by case *)

Lemma click_DayCell_cases (clock : nat -> Z) (index : nat) W W' :
  click clock (DayCell index) W = Some W' ->
  W' = W \/
  exists callback chosen el key,
    onDayClick (widget W) = Some callback /\
    dayGrid (widget W) !! index = Some el /\
    dataset_date el = Some key /\
    parseDateOnly key = Some chosen /\
    W' = {| widget := set_dateChosen chosen (widget W);
            host := callback chosen index (host W);
            timeouts := S (timeouts W) |}.
Proof.
  unfold click. cbv zeta.
  destruct (dayGrid (widget W) !! index) as [el|]; [|intros [= <-]; now left].
  destruct (onDayClick (widget W)) as [callback|]; [|intros [= <-]; now left].
  destruct (dataset_date el) as [key|] eqn:Hkey; [|discriminate].
  cbn [mbind option_bind].
  destruct (parseDateOnly key) as [chosen|] eqn:Hp; [|discriminate].
  cbn [mbind option_bind]. intros [= <-]. right.
  exists callback, chosen, el, key. repeat split; assumption.
Qed.

Lemma timeout_cases (clock : nat -> Z) W W' :
  timeout clock W = Some W' ->
  W' = W \/
  exists n w',
    timeouts W = S n /\
    updateCalendar clock (dateChosen (widget W)) (widget W) = Some w' /\
    W' = {| widget := w'; host := host W; timeouts := n |}.
Proof.
  unfold timeout. destruct (timeouts W) as [|n]; [intros [= <-]; now left|].
  destruct (updateCalendar clock (dateChosen (widget W)) (widget W)) as [w'|];
    [|discriminate].
  cbn [mbind option_bind]. intros [= <-]. right. now exists n, w'.
Qed.

(** X14. What an event may change. No event changes [dateToday]: the
    date read at construction is never read again. Only the arrows and
    [navigateMonth] move the month anchor [dateDisplayed]: the header
    click and the delayed render do not. Only a click on a day changes
    [dateChosen] or reaches the host. Only the host adds starred keys,
    and none is ever taken away. *)
Theorem step_frame (clock : nat -> Z) (e : Event Host) W W' :
  step clock e W = Some W' ->
  dateToday (widget W') = dateToday (widget W) /\
  (dateDisplayed (widget W') <> dateDisplayed (widget W) -> movesAnchor e) /\
  (dateChosen (widget W') <> dateChosen (widget W) -> isDayClick e) /\
  (host W' <> host W -> isDayClick e) /\
  (exists keys, starredDates (widget W') = starredDates (widget W) ++ keys /\
                (keys <> [] -> e = PushStarred keys)).
Proof.
  intros Hstep.
  assert (Hsame : forall (w' : CalendarWidget Host),
    dateChosen w' = dateChosen (widget W) -> dateToday w' = dateToday (widget W) ->
    dateDisplayed w' = dateDisplayed (widget W) ->
    starredDates w' = starredDates (widget W) ->
    forall h n, W' = {| widget := w'; host := h; timeouts := n |} -> h = host W ->
    dateToday (widget W') = dateToday (widget W) /\
    (dateDisplayed (widget W') <> dateDisplayed (widget W) -> movesAnchor e) /\
    (dateChosen (widget W') <> dateChosen (widget W) -> isDayClick e) /\
    (host W' <> host W -> isDayClick e) /\
    (exists keys, starredDates (widget W') = starredDates (widget W) ++ keys /\
                  (keys <> [] -> e = PushStarred keys))).
  { intros w' H1 H2 H3 H4 h n -> ->. cbn [widget host].
    split; [exact H2|]. split; [intros H; now destruct H|].
    split; [intros H; now destruct H|]. split; [intros H; now destruct H|].
    exists []. rewrite app_nil_r. split; [exact H4|]. intros H; now destruct H. }
  assert (Hrender : forall date,
    (w' ← updateCalendar clock date (widget W); Some (set_widget w' W)) = Some W' ->
    dateToday (widget W') = dateToday (widget W) /\
    (dateDisplayed (widget W') <> dateDisplayed (widget W) -> movesAnchor e) /\
    (dateChosen (widget W') <> dateChosen (widget W) -> isDayClick e) /\
    (host W' <> host W -> isDayClick e) /\
    (exists keys, starredDates (widget W') = starredDates (widget W) ++ keys /\
                  (keys <> [] -> e = PushStarred keys))).
  { intros date H. apply bind_widget in H as (w' & Hw & ->).
    apply updateCalendar_frame in Hw as (H1 & H2 & H3 & H4 & _).
    now apply (Hsame w' H1 H2 H3 H4 (host W) (timeouts W)). }
  assert (Hnav : forall change, movesAnchor e ->
    (w' ← navigateMonth clock change (widget W); Some (set_widget w' W)) = Some W' ->
    dateToday (widget W') = dateToday (widget W) /\
    (dateDisplayed (widget W') <> dateDisplayed (widget W) -> movesAnchor e) /\
    (dateChosen (widget W') <> dateChosen (widget W) -> isDayClick e) /\
    (host W' <> host W -> isDayClick e) /\
    (exists keys, starredDates (widget W') = starredDates (widget W) ++ keys /\
                  (keys <> [] -> e = PushStarred keys))).
  { intros change Hmoves H. apply bind_widget in H as (w' & Hw & ->).
    apply navigateMonth_frame in Hw as (H1 & H2 & H4 & _).
    cbn [set_widget widget host].
    split; [exact H2|]. split; [intros _; exact Hmoves|].
    split; [intros H; now destruct H|]. split; [intros H; now destruct H|].
    exists []. rewrite app_nil_r. split; [exact H4|]. intros H; now destruct H. }
  destruct e as [target| |cb|keys|date|change].
  - change (click clock target W = Some W') in Hstep. destruct target.
    + rewrite click_NavigatorText in Hstep. exact (Hrender _ Hstep).
    + rewrite click_NavigatorLeft in Hstep. exact (Hnav _ I Hstep).
    + rewrite click_NavigatorRight in Hstep. exact (Hnav _ I Hstep).
    + apply click_DayCell_cases in Hstep
        as [->|(callback & chosen & el & key & _ & _ & _ & _ & ->)].
      * destruct W as [w h n].
        now apply (Hsame w eq_refl eq_refl eq_refl eq_refl h n).
      * cbn [widget host set_dateChosen dateToday dateDisplayed dateChosen
              starredDates].
        split; [reflexivity|]. split; [intros H; now destruct H|].
        split; [intros _; exact I|]. split; [intros _; exact I|].
        exists []. rewrite app_nil_r. split; [reflexivity|].
        intros H; now destruct H.
    + injection Hstep as <-. destruct W as [w h n].
      now apply (Hsame w eq_refl eq_refl eq_refl eq_refl h n).
    + injection Hstep as <-. destruct W as [w h n].
      now apply (Hsame w eq_refl eq_refl eq_refl eq_refl h n).
  - change (timeout clock W = Some W') in Hstep.
    apply timeout_cases in Hstep as [->|(n & w' & _ & Hw & ->)].
    + destruct W as [w h n].
      now apply (Hsame w eq_refl eq_refl eq_refl eq_refl h n).
    + apply updateCalendar_frame in Hw as (H1 & H2 & H3 & H4 & _).
      now apply (Hsame w' H1 H2 H3 H4 (host W) n).
  - injection Hstep as <-.
    now apply (Hsame (set_onDayClick cb (widget W)) eq_refl eq_refl eq_refl eq_refl
                 (host W) (timeouts W)).
  - injection Hstep as <-. cbn [set_widget widget host set_starredDates
      dateToday dateDisplayed dateChosen starredDates].
    split; [reflexivity|]. split; [intros H; now destruct H|].
    split; [intros H; now destruct H|]. split; [intros H; now destruct H|].
    exists keys. split; [reflexivity|]. intros _. reflexivity.
  - rewrite step_UpdateCalendar in Hstep. exact (Hrender _ Hstep).
  - rewrite step_NavigateMonth in Hstep. exact (Hnav _ I Hstep).
Qed.

(** ** The page stays well formed *)

Lemma showsMonth_view w w' (anchor : Z) :
  navigatorText w' = navigatorText w -> dayGrid w' = dayGrid w ->
  showsMonth w anchor -> showsMonth w' anchor.
Proof. unfold showsMonth. intros -> ->. exact id. Qed.

Lemma updateCalendar_showsMonth w (clock : nat -> Z) (date : Z) :
  length (dayGrid w) = 42%nat ->
  exists w', updateCalendar clock date w = Some w' /\
             length (dayGrid w') = 42%nat /\ showsMonth w' date.
Proof.
  intros Hlen.
  destruct (updateCalendar_shows w clock date Hlen)
    as (w' & Hrun & _ & _ & _ & _ & _ & Hn & Hl & Hcells).
  exists w'. split; [exact Hrun|]. split; [exact Hl|]. split; [exact Hn|exact Hcells].
Qed.

Lemma navigateMonth_showsMonth w (clock : nat -> Z) (change : Z) :
  length (dayGrid w) = 42%nat ->
  exists w', navigateMonth clock change w = Some w' /\
             length (dayGrid w') = 42%nat /\ showsMonth w' (dateDisplayed w').
Proof.
  intros Hlen.
  destruct (navigateMonth_shows w clock change Hlen)
    as (w' & Hrun & _ & _ & _ & Hn & Hl & Hcells).
  exists w'. split; [exact Hrun|]. split; [exact Hl|]. split; [exact Hn|exact Hcells].
Qed.

Lemma wellFormed_render (clock : nat -> Z) (date : Z) W W' :
  wellFormed W ->
  (w' ← updateCalendar clock date (widget W); Some (set_widget w' W)) = Some W' ->
  wellFormed W'.
Proof.
  intros [Hlen _] H.
  destruct (updateCalendar_showsMonth (widget W) clock date Hlen)
    as (w2 & Hrun & Hl & Hs).
  rewrite Hrun in H. cbn [mbind option_bind] in H. injection H as <-.
  split; [exact Hl|]. exists date. exact Hs.
Qed.

Lemma wellFormed_navigate (clock : nat -> Z) (change : Z) W W' :
  wellFormed W ->
  (w' ← navigateMonth clock change (widget W); Some (set_widget w' W)) = Some W' ->
  wellFormed W'.
Proof.
  intros [Hlen _] H.
  destruct (navigateMonth_showsMonth (widget W) clock change Hlen)
    as (w2 & Hrun & Hl & Hs).
  rewrite Hrun in H. cbn [mbind option_bind] in H. injection H as <-.
  split; [exact Hl|]. exists (dateDisplayed w2). exact Hs.
Qed.

Lemma wellFormed_step (clock : nat -> Z) (e : Event Host) W W' :
  wellFormed W -> step clock e W = Some W' -> wellFormed W'.
Proof.
  intros HW Hstep. destruct e as [target| |cb|keys|date|change].
  - change (click clock target W = Some W') in Hstep. destruct target.
    + rewrite click_NavigatorText in Hstep. exact (wellFormed_render _ _ _ _ HW Hstep).
    + rewrite click_NavigatorLeft in Hstep. exact (wellFormed_navigate _ _ _ _ HW Hstep).
    + rewrite click_NavigatorRight in Hstep. exact (wellFormed_navigate _ _ _ _ HW Hstep).
    + apply click_DayCell_cases in Hstep
        as [->|(callback & chosen & el & key & _ & _ & _ & _ & ->)]; [exact HW|].
      destruct HW as [Hlen [anchor Hs]]. split; [exact Hlen|]. exists anchor.
      exact (showsMonth_view (widget W) _ anchor eq_refl eq_refl Hs).
    + injection Hstep as <-. exact HW.
    + injection Hstep as <-. exact HW.
  - change (timeout clock W = Some W') in Hstep.
    apply timeout_cases in Hstep as [->|(n & w' & _ & Hw & ->)]; [exact HW|].
    destruct HW as [Hlen _].
    destruct (updateCalendar_showsMonth (widget W) clock (dateChosen (widget W)) Hlen)
      as (w2 & Hrun & Hl & Hs).
    rewrite Hrun in Hw. injection Hw as <-.
    split; [exact Hl|]. exists (dateChosen (widget W)). exact Hs.
  - injection Hstep as <-. destruct HW as [Hlen [anchor Hs]].
    split; [exact Hlen|]. exists anchor.
    exact (showsMonth_view (widget W) _ anchor eq_refl eq_refl Hs).
  - injection Hstep as <-. destruct HW as [Hlen [anchor Hs]].
    split; [exact Hlen|]. exists anchor.
    exact (showsMonth_view (widget W) _ anchor eq_refl eq_refl Hs).
  - rewrite step_UpdateCalendar in Hstep. exact (wellFormed_render _ _ _ _ HW Hstep).
  - rewrite step_NavigateMonth in Hstep. exact (wellFormed_navigate _ _ _ _ HW Hstep).
Qed.

Lemma construct_eq (now1 now2 now3 : Z) (clock : nat -> Z) :
  construct (Host := Host) now1 now2 now3 clock =
  updateCalendar clock now1
    {| starredDates := []; dateToday := now1; dateChosen := now2;
       dateDisplayed := now3; onDayClick := None;
       navigatorText := ""; dayGrid := replicate 42 blankDay |}.
Proof. reflexivity. Qed.

(** X15. The page is well formed from its construction on, whatever
    the events and the clock: there are 42 cells, and the label and the
    cells show one and the same month. *)
Theorem page_stays_wellFormed (now1 now2 now3 : Z) (clock0 : nat -> Z)
  (h : Host) (events : list ((nat -> Z) * Event Host)) :
  exists w,
    construct now1 now2 now3 clock0 = Some w /\
    wellFormed {| widget := w; host := h; timeouts := 0 |} /\
    forall W', runEvents events {| widget := w; host := h; timeouts := 0 |} = Some W' ->
               wellFormed W'.
Proof.
  rewrite construct_eq.
  destruct (updateCalendar_showsMonth
              {| starredDates := []; dateToday := now1; dateChosen := now2;
                 dateDisplayed := now3; onDayClick := None;
                 navigatorText := ""; dayGrid := replicate 42 blankDay |}
              clock0 now1 eq_refl) as (w & Hrun & Hl & Hs).
  exists w. split; [exact Hrun|].
  assert (HW : wellFormed {| widget := w; host := h; timeouts := 0 |}).
  { split; [exact Hl|]. exists now1. exact Hs. }
  split; [exact HW|].
  revert HW. generalize {| widget := w; host := h; timeouts := 0 |}.
  clear. induction events as [|[clock e] events IH]; intros W HW W' Hrun.
  - injection Hrun as <-. exact HW.
  - cbn [runEvents] in Hrun.
    destruct (step clock e W) as [W1|] eqn:Hstep; [|discriminate].
    exact (IH W1 (wellFormed_step clock e W W1 HW Hstep) W' Hrun).
Qed.

End Events.

(** ** No event fails *)

Section Progress.
Context {env : Env} {Host : Type}.
Implicit Types (w : CalendarWidget Host) (el : DayElement) (W : World Host).

Lemma DaysBeforeMonth_range mn l :
  0 <= mn <= 11 -> 0 <= l <= 1 -> 0 <= DaysBeforeMonth mn l <= 335.
Proof.
  intros Hm Hl. unfold DaysBeforeMonth.
  destruct mn as [|[p|p|]|]; try lia;
    repeat (destruct p as [p|p|]; try lia).
Qed.

Lemma grid_year_range t i d :
  getDateArray t !! i = Some d ->
  getFullYear t - 1 <= getFullYear d <= getFullYear t + 1.
Proof.
  intros H. destruct (getDateArray_lookup_inv t i d H) as [Hi _].
  pose proof (localDay_grid t i d H) as Hl.
  pose proof (gridStart_range (getFullYear t) (getMonth t)) as Hg.
  destruct (fields_of_date t) as (Hm & _ & _).
  rewrite (MakeDay_small (getFullYear t) (getMonth t) 1) in Hg by lia.
  pose proof (DaysBeforeMonth_range (getMonth t) _ Hm (leap_flag_range (getFullYear t)))
    as Hb.
  pose proof (YearFromTime_spec (LocalTime d)) as Hy.
  change (Day (LocalTime d)) with (localDay d) in Hy.
  change (YearFromTime (LocalTime d)) with (getFullYear d) in Hy.
  revert Hl Hg Hb Hy.
  generalize (gridStart (getFullYear t) (getMonth t))
    (DaysBeforeMonth (getMonth t) (if DaysInYear (getFullYear t) =? 366 then 1 else 0))
    (localDay d) (getFullYear d) (getFullYear t).
  intros g b D Y y Hl Hg Hb Hy.
  pose proof (DayFromYear_succ (y - 1)) as S1.
  replace (y - 1 + 1) with y in S1 by lia.
  pose proof (DayFromYear_succ y) as S2.
  pose proof (DayFromYear_succ (y + 1)) as S3.
  pose proof (DaysInYear_cases (y - 1)) as C1.
  pose proof (DaysInYear_cases y) as C2.
  pose proof (DaysInYear_cases (y + 1)) as C3.
  split.
  - destruct (Z_le_gt_dec (Y + 1) (y - 1)) as [Hlow|Hlow]; [|lia].
    pose proof (DayFromYear_mono (Y + 1) (y - 1) Hlow). lia.
  - destruct (Z_le_gt_dec (y + 1 + 1) Y) as [Hhigh|Hhigh]; [|lia].
    pose proof (DayFromYear_mono (y + 1 + 1) Y Hhigh). lia.
Qed.

(** X16. No event fails while the month shown lies in the years 1001
    to 9998: every render finds its 42 cells, and the key of every cell
    is read back as a date. *)
Theorem step_succeeds (clock : nat -> Z) (e : Event Host) W (anchor : Z) :
  length (dayGrid (widget W)) = 42%nat ->
  showsMonth (widget W) anchor ->
  1001 <= getFullYear anchor <= 9998 ->
  exists W', step clock e W = Some W'.
Proof.
  intros Hlen [_ Hcells] Hyear.
  assert (Hrender : forall date,
    exists W', (w' ← updateCalendar clock date (widget W); Some (set_widget w' W))
               = Some W').
  { intros date.
    destruct (updateCalendar_showsMonth (widget W) clock date Hlen) as (w' & -> & _).
    now eexists. }
  assert (Hnav : forall change,
    exists W', (w' ← navigateMonth clock change (widget W); Some (set_widget w' W))
               = Some W').
  { intros change.
    destruct (navigateMonth_showsMonth (widget W) clock change Hlen) as (w' & -> & _).
    now eexists. }
  destruct e as [target| |cb|keys|date|change].
  - change (exists W', click clock target W = Some W'). destruct target.
    + rewrite click_NavigatorText. apply Hrender.
    + rewrite click_NavigatorLeft. apply Hnav.
    + rewrite click_NavigatorRight. apply Hnav.
    + destruct (dayGrid (widget W) !! index) as [el|] eqn:Hel.
      * destruct (onDayClick (widget W)) as [callback|] eqn:Hcb.
        -- assert (Hi : (index < 42)%nat)
             by (rewrite <- Hlen; apply lookup_lt_is_Some; now exists el).
           pose proof (getDateArray_lookup anchor index Hi) as Hd.
           destruct (Hcells index _ Hd) as (el' & Hel' & _ & Hkey).
           rewrite Hel in Hel'. injection Hel' as <-.
           pose proof (grid_year_range anchor index _ Hd) as Hy.
           assert (Hp : parseDateOnly
                          (toShort (setDate (cloneDate anchor (dayOpt 1))
                                      (1 - mondayIndex anchor + Z.of_nat index)))
                        = Some (MakeDate
                                  (localDay (setDate (cloneDate anchor (dayOpt 1))
                                     (1 - mondayIndex anchor + Z.of_nat index))) 0))
             by (apply parse_toShort; lia).
           eexists.
           exact (click_day_with_callback clock index W callback el _ _ Hcb Hel Hkey Hp).
        -- exists W. unfold click. cbv zeta. now rewrite Hel, Hcb.
      * exists W. unfold click. cbv zeta. now rewrite Hel.
    + now exists W.
    + now exists W.
  - change (exists W', timeout clock W = Some W'). unfold timeout.
    destruct (timeouts W) as [|n]; [now exists W|].
    destruct (updateCalendar_showsMonth (widget W) clock (dateChosen (widget W)) Hlen)
      as (w' & -> & _).
    now eexists.
  - now eexists.
  - now eexists.
  - rewrite step_UpdateCalendar. apply Hrender.
  - rewrite step_NavigateMonth. apply Hnav.
Qed.

(** X17. A widget built on one day shows the month of that day with the
    cell of that day as [today], and marks no cell: the chosen date is
    the current date, and [today] comes before [marked]. *)
Theorem construct_highlights_today (now1 now2 now3 : Z) (clock : nat -> Z) :
  localDay now2 = localDay now1 ->
  (forall i, localDay (clock i) = localDay now1) ->
  exists w (i0 : nat) el,
    construct (Host := Host) now1 now2 now3 clock = Some w /\
    showsMonth w now1 /\
    dayGrid w !! i0 = Some el /\
    dataset_date el = Some (toShort now1) /\
    stateClasses el = ["today"] /\
    forall j el', dayGrid w !! j = Some el' -> "marked" ∉ classList el'.
Proof.
  intros Hchosen Hclock. rewrite construct_eq.
  set (w0 := {| starredDates := []; dateToday := now1; dateChosen := now2;
                dateDisplayed := now3; onDayClick := None;
                navigatorText := ""; dayGrid := replicate 42 blankDay |}
             : CalendarWidget Host).
  assert (Hlen : length (dayGrid w0) = 42%nat) by reflexivity.
  destruct (updateCalendar_spec w0 clock now1 Hlen) as (cells & Hrun & Hl & Hcells).
  destruct (updateCalendar_showsMonth w0 clock now1 Hlen) as (w & Hrun' & _ & Hs).
  rewrite Hrun in Hrun'. injection Hrun' as Hw.
  destruct (anchor_in_grid now1) as (i0 & Hi0 & Huniq).
  pose proof (getDateArray_lookup now1 i0 Hi0) as Hd0.
  revert Hd0.
  generalize (setDate (cloneDate now1 (dayOpt 1)) (1 - mondayIndex now1 + Z.of_nat i0)).
  intros d0 Hd0.
  destruct (lookup_lt_is_Some_2 (dayGrid w0) i0) as [el0 Hel0]; [now rewrite Hlen|].
  pose proof (Hcells i0 d0 el0 Hd0 Hel0) as Hcell0.
  assert (Hday0 : localDay d0 = localDay now1) by (now apply (Huniq i0 d0 Hd0)).
  exists w, i0, (renderDay w0 now1 (clock i0) d0 el0).
  split; [now rewrite Hrun, Hw|]. split; [exact Hs|].
  split; [now rewrite <- Hw|]. split; [|split].
  - destruct (renderDay_shows w0 now1 (clock i0) d0 el0) as [_ ->].
    f_equal. now apply toShort_time_of_day.
  - destruct (renderDay_classes w0 now1 (clock i0) i0 d0 el0 Hd0) as [-> _].
    rewrite classification_today; [reflexivity| |].
    + apply calendarDate_year_month, calendarDate_localDay. exact Hday0.
    + apply calendarDate_localDay. now rewrite Hclock.
  - intros j el' Hj. rewrite <- Hw in Hj. cbn [set_view dayGrid] in Hj.
    assert (Hj42 : (j < 42)%nat)
      by (rewrite <- Hl; apply lookup_lt_is_Some; now exists el').
    pose proof (getDateArray_lookup now1 j Hj42) as Hd.
    destruct (lookup_lt_is_Some_2 (dayGrid w0) j) as [el Hel]; [now rewrite Hlen|].
    rewrite (Hcells j _ el Hd Hel) in Hj. injection Hj as <-.
    rewrite marked_stateClasses.
    destruct (renderDay_classes w0 now1 (clock j) j _ el Hd) as [-> _].
    rewrite classification_marked. intros (_ & Hnot & Heq). apply Hnot.
    rewrite Heq. apply calendarDate_localDay.
    change (dateChosen w0) with now2. now rewrite Hclock.
Qed.

End Progress.

End WidgetMore.

(** * More on [SimpleDatabase] *)

Module DatabaseMore.
Import Database DatabaseFacts.

(** ** Valid strings *)

Lemma trimStart_blank (s : string) : trimStart s = "" <-> blank s = true.
Proof.
  induction s as [|c s IH]; [easy|].
  cbn [trimStart blank]. destruct (isWhiteSpace c); [exact IH|].
  split; discriminate.
Qed.

Lemma trimStart_shape (s : string) :
  trimStart s = "" \/ blank (trimStart s) = false.
Proof.
  induction s as [|c s IH]; [now left|].
  cbn [trimStart]. destruct (isWhiteSpace c) eqn:Hc; [exact IH|].
  right. cbn [blank]. now rewrite Hc.
Qed.

Lemma blank_rev_app (s1 s2 : string) :
  blank (String.rev_app s1 s2) = blank s1 && blank s2.
Proof.
  revert s2. induction s1 as [|c s1 IH]; intros s2; [reflexivity|].
  cbn [String.rev_app blank]. rewrite IH. cbn [blank].
  destruct (isWhiteSpace c), (blank s1), (blank s2); reflexivity.
Qed.

Lemma rev_app_empty (s1 s2 : string) :
  String.rev_app s1 s2 = "" <-> s1 = "" /\ s2 = "".
Proof.
  revert s2. induction s1 as [|c s1 IH]; intros s2; [easy|].
  cbn [String.rev_app]. rewrite IH. split; [intros [_ H]; discriminate|].
  intros [H _]; discriminate.
Qed.

Lemma trim_blank (s : string) : trim s = "" <-> blank s = true.
Proof.
  unfold trim, String.rev. rewrite rev_app_empty, trimStart_blank, blank_rev_app.
  rewrite <- trimStart_blank.
  destruct (trimStart_shape s) as [H|H]; rewrite H; [easy|].
  split; [intros [H1 _]; discriminate|].
  intros H1. rewrite H1 in H. discriminate.
Qed.

(** X18. [validString] accepts exactly the lists of strings that each
    hold a character other than white space: a value that is not a
    string, the empty string and a string of blanks are refused. *)
Theorem validString_nonblank (args : list JsValue) :
  validString args = true <->
  forall arg, arg ∈ args -> exists s, arg = JsString s /\ blank s = false.
Proof.
  unfold validString. rewrite forallb_forall. split.
  - intros H arg Hin. apply list_elem_of_In, H in Hin.
    destruct arg as [s| | | |]; try discriminate.
    exists s. split; [reflexivity|].
    destruct (blank s) eqn:Hb; [|reflexivity].
    apply trim_blank in Hb. rewrite bool_decide_eq_true_2 in Hin by exact Hb.
    discriminate.
  - intros H arg Hin. apply list_elem_of_In, H in Hin as (s & -> & Hb).
    rewrite bool_decide_eq_false_2; [reflexivity|].
    intros Ht. apply trim_blank in Ht. congruence.
Qed.

(** ** Writing *)

Lemma linked_db (st : State) : linked st -> exists db, _db st.1 = Some db.
Proof. intros [db H]. now exists db. Qed.

Lemma save_uncommitted (k : string) (value : JsValue) (events : list IDBEvent)
  (st : State) :
  linked st -> validString [JsString k; value] = true ->
  TransactionComplete ∉ events ->
  save (JsString k) value events st = (dispatch save_handlers events, st).
Proof.
  intros [db Hdb] Hv Hc. destruct st as [this browser]. cbn [fst] in Hdb.
  unfold save. rewrite Hdb, Hv. cbn [negb]. unfold committed.
  rewrite bool_decide_eq_false_2 by exact Hc. reflexivity.
Qed.

(** X19. [save] answers at the first event of the request. When the put
    request succeeds and the transaction does not complete afterwards,
    for one because it aborts, the answer is a success and nothing is
    stored: the state is as it was. *)
Theorem save_success_before_commit (k : string) (value : JsValue)
  (rest : list IDBEvent) (st : State) :
  linked st -> validString [JsString k; value] = true ->
  TransactionComplete ∉ rest ->
  save (JsString k) value (RequestSuccess :: rest) st = (Fulfilled succeeded, st).
Proof.
  intros Hl Hv Hc. rewrite save_uncommitted; [|exact Hl|exact Hv|].
  - now rewrite dispatch_save_success.
  - intros Hin. apply elem_of_cons in Hin as [Hin|Hin]; [discriminate|contradiction].
Qed.

Lemma save_state (k : string) (value : JsValue) (rest : list IDBEvent) (st : State) :
  linked st -> validString [JsString k; value] = true ->
  TransactionComplete ∈ rest ->
  linked (save (JsString k) value (RequestSuccess :: rest) st).2 /\
  storeOf (save (JsString k) value (RequestSuccess :: rest) st).2
  = <[k := value]> (storeOf st).
Proof.
  intros Hl Hv Hc. rewrite (save_run k value rest st Hl Hv Hc). cbn [snd].
  split; [exact Hl|]. destruct st as [this browser]. apply storeOf_saved.
Qed.

Lemma validString_key (k : string) (value : JsValue) :
  validString [JsString k; value] = true -> validString [JsString k] = true.
Proof.
  rewrite validString_cons. intros H. now apply andb_true_iff in H as [H _].
Qed.

Lemma getResult_string (st : State) (k v : string) :
  storeOf st !! k = Some (JsString v) -> getResult st k = Some (JsString v).
Proof. unfold getResult. now intros ->. Qed.

(** X20. The last write wins, and a write touches one key: after two
    committed saves under one key, [load] gives the second value; and a
    committed save under a key leaves what [load] gives under every
    other key. *)
Theorem save_overwrites (st : State) (k v1 v2 k' : string)
  (rest1 rest2 restL : list IDBEvent) :
  linked st ->
  validString [JsString k; JsString v1] = true ->
  validString [JsString k; JsString v2] = true ->
  validString [JsString k'] = true ->
  TransactionComplete ∈ rest1 -> TransactionComplete ∈ rest2 ->
  let st1 := (save (JsString k) (JsString v1) (RequestSuccess :: rest1) st).2 in
  let st2 := (save (JsString k) (JsString v2) (RequestSuccess :: rest2) st1).2 in
  (load (JsString k) (RequestSuccess :: restL) st2).1
  = Fulfilled (succeededWith (JsString v2)) /\
  (k' <> k ->
   (load (JsString k') (RequestSuccess :: restL) st2).1
   = (load (JsString k') (RequestSuccess :: restL) st).1).
Proof.
  intros Hl Hv1 Hv2 Hk' Hc1 Hc2 st1 st2.
  destruct (save_state k (JsString v1) rest1 st Hl Hv1 Hc1) as [Hl1 Hs1].
  fold st1 in Hl1, Hs1.
  destruct (save_state k (JsString v2) rest2 st1 Hl1 Hv2 Hc2) as [Hl2 Hs2].
  fold st2 in Hl2, Hs2. split.
  - rewrite (load_run k restL st2 Hl2 (validString_key _ _ Hv2)). cbn [fst].
    rewrite (getResult_string st2 k v2); [reflexivity|].
    rewrite Hs2. apply lookup_insert_eq.
  - intros Hne. rewrite (load_run k' restL st2 Hl2 Hk'), (load_run k' restL st Hl Hk').
    cbn [fst]. unfold getResult. rewrite Hs2, Hs1.
    rewrite !lookup_insert_ne by congruence. reflexivity.
Qed.

(** ** Reading the whole store *)

Lemma loadAll_cursor_run (records : list (string * JsValue))
  (data : gmap string JsValue) (rest : list IDBEvent) :
  loadAll_cursor records data
    (replicate (S (length records)) RequestSuccess ++ rest)
  = Fulfilled (succeededWith
                 (foldl (fun d kv => assign kv.1 kv.2 d) data records)).
Proof.
  revert data. induction records as [|[k v] records IH]; intros data;
    [reflexivity|].
  cbn [length replicate app loadAll_cursor foldl]. apply IH.
Qed.

Lemma loadAll_cursor_pending (records : list (string * JsValue))
  (data : gmap string JsValue) (n : nat) :
  (n <= length records)%nat ->
  loadAll_cursor records data (replicate n RequestSuccess) = Pending.
Proof.
  revert data n. induction records as [|[k v] records IH]; intros data n Hn.
  - destruct n; [reflexivity|]. cbn [length] in Hn. lia.
  - destruct n as [|n]; [reflexivity|].
    cbn [replicate loadAll_cursor]. apply IH. cbn [length] in Hn. lia.
Qed.

Lemma foldl_assign_lookup (records : list (string * JsValue))
  (data : gmap string JsValue) (k : string) :
  NoDup records.*1 ->
  foldl (fun d kv => assign kv.1 kv.2 d) data records !! k
  = match (list_to_map records : gmap string JsValue) !! k with
    | Some v => if bool_decide (k = "__proto__") then data !! k else Some v
    | None => data !! k
    end.
Proof.
  revert data. induction records as [|[k0 v0] records IH]; intros data Hnd.
  - cbn [foldl list_to_map foldr]. now rewrite lookup_empty.
  - apply NoDup_cons in Hnd as [Hk0 Hnd]. cbn [foldl fst snd].
    rewrite (IH _ Hnd), list_to_map_cons.
    destruct (decide (k = k0)) as [->|Hne].
    + rewrite lookup_insert_eq, (not_elem_of_list_to_map_1 records k0 Hk0).
      unfold assign. destruct (bool_decide (k0 = "__proto__")); [reflexivity|].
      apply lookup_insert_eq.
    + rewrite (lookup_insert_ne (list_to_map records) k0 k) by congruence.
      assert (Ha : assign k0 v0 data !! k = data !! k).
      { unfold assign. destruct (bool_decide (k0 = "__proto__")); [reflexivity|].
        now rewrite lookup_insert_ne by congruence. }
      now rewrite Ha.
Qed.

Lemma foldl_assign_map_to_list (m : gmap string JsValue) :
  foldl (fun d kv => assign kv.1 kv.2 d) (∅ : gmap string JsValue) (map_to_list m)
  = delete "__proto__" m.
Proof.
  apply map_eq. intros k.
  rewrite foldl_assign_lookup by apply NoDup_fst_map_to_list.
  rewrite list_to_map_to_list, lookup_empty.
  destruct (decide (k = "__proto__")) as [->|Hne].
  - rewrite lookup_delete_eq. now destruct (m !! "__proto__").
  - rewrite lookup_delete_ne by congruence.
    rewrite bool_decide_eq_false_2 by exact Hne. now destruct (m !! k).
Qed.

Lemma loadAll_run (st : State) (rest : list IDBEvent) :
  linked st ->
  loadAll (replicate (S (size (storeOf st))) RequestSuccess ++ rest) st
  = (Fulfilled (succeededWith (delete "__proto__" (storeOf st))), st).
Proof.
  intros [db Hdb]. unfold loadAll. rewrite Hdb.
  rewrite <- (length_map_to_list (storeOf st)).
  now rewrite loadAll_cursor_run, foldl_assign_map_to_list.
Qed.

(** X21. [loadAll] gives the store but for a record under the key
    ['__proto__']: once the cursor has announced every record and then
    its end, the answer is a success whose data has the records stored
    as its own properties, except that the key ['__proto__'] is never
    one of them; a store with no record under that key is given whole.
    Until the end is announced the promise is pending. The state is not
    changed. *)
Theorem loadAll_whole_store (st : State) (rest : list IDBEvent) (n : nat) :
  linked st ->
  loadAll (replicate (S (size (storeOf st))) RequestSuccess ++ rest) st
  = (Fulfilled (succeededWith (delete "__proto__" (storeOf st))), st) /\
  (delete "__proto__" (storeOf st) = storeOf st
   <-> storeOf st !! "__proto__" = None) /\
  ((n <= size (storeOf st))%nat ->
   loadAll (replicate n RequestSuccess) st = (Pending, st)).
Proof.
  intros Hl. split; [exact (loadAll_run st rest Hl)|]. split.
  - split.
    + intros Heq. rewrite <- Heq. apply lookup_delete_eq.
    + apply delete_id.
  - destruct Hl as [db Hdb]. unfold loadAll. rewrite Hdb.
    rewrite <- (length_map_to_list (storeOf st)).
    intros Hn. now rewrite loadAll_cursor_pending.
Qed.

(** The keys [_loadAllKeys] lists are the keys stored, each once,
    and the values [_loadAllValues] lists stand at the same places: the
    two lists, read side by side, are the mapping stored. *)
Lemma keys_and_values_agree (st : State) (rest1 rest2 : list IDBEvent) :
  linked st ->
  exists keys values,
    _loadAllKeys (RequestSuccess :: rest1) st
    = (Fulfilled (succeededWith keys), st) /\
    _loadAllValues (RequestSuccess :: rest2) st
    = (Fulfilled (succeededWith values), st) /\
    NoDup keys /\ length keys = length values /\
    forall k v, storeOf st !! k = Some v <->
                exists i : nat, keys !! i = Some k /\ values !! i = Some v.
Proof.
  intros [db Hdb].
  exists (map fst (map_to_list (storeOf st))), (map snd (map_to_list (storeOf st))).
  unfold _loadAllKeys, _loadAllValues. rewrite Hdb, !dispatch_load_success.
  split; [reflexivity|]. split; [reflexivity|].
  split; [exact (NoDup_fst_map_to_list (storeOf st))|].
  split; [now rewrite !length_map|].
  intros k v. rewrite <- elem_of_map_to_list, list_elem_of_lookup.
  change (map fst (map_to_list (storeOf st))) with ((map_to_list (storeOf st)).*1).
  change (map snd (map_to_list (storeOf st))) with ((map_to_list (storeOf st)).*2).
  split.
  - intros [i Hi]. exists i. rewrite !list_lookup_fmap, Hi. now split.
  - intros (i & Hk & Hv). exists i.
    rewrite list_lookup_fmap in Hk. rewrite list_lookup_fmap in Hv.
    destruct (map_to_list (storeOf st) !! i) as [[k0 v0]|]; [|discriminate].
    cbn in Hk, Hv. congruence.
Qed.

(** ** Closing, deleting, opening *)

Lemma unlinked_operations (st : State) :
  unlinked st ->
  (forall key value events, save key value events st = (notLinked, st)) /\
  (forall key events, load key events st = (notLinked, st)) /\
  (forall events, loadAll events st = (notLinked, st)) /\
  (forall events, _loadAllKeys events st = (notLinked, st)) /\
  (forall events, _loadAllValues events st = (notLinked, st)) /\
  (forall events, _destroy events st = (notLinked, st)).
Proof.
  intros Hun. unfold unlinked in Hun. destruct st as [this browser].
  cbn [fst] in Hun.
  unfold save, load, loadAll, _loadAllKeys, _loadAllValues, _destroy.
  cbn [fst]. rewrite Hun. repeat split.
Qed.

Lemma destroy_state (events : list IDBEvent) (st : State) :
  linked st ->
  unlinked (_destroy events st).2 /\
  _dbName (_destroy events st).2.1 = _dbName st.1 /\
  (_destroy events st).2.2
  = (if bool_decide (RequestSuccess ∈ events) then delete (_dbName st.1) st.2
     else st.2).
Proof.
  intros [db Hdb]. destruct st as [this browser]. cbn [fst] in Hdb.
  unfold _destroy, _close, unlinked. cbn [fst snd]. rewrite Hdb. cbn [fst snd].
  destruct (bool_decide (RequestSuccess ∈ events)); cbn [fst snd set_db _db _dbName];
    repeat split.
Qed.

(** X22. [_destroy] closes the connection before it asks for the
    deletion: whatever the browser answers, the instance is not linked
    afterwards, and every operation but [open] is refused with 'Database
    not currently linked'. The data is deleted when the deletion
    succeeds, and stays when it is blocked or fails. *)
Theorem destroy_unlinks (events : list IDBEvent) (st : State) :
  linked st ->
  let st' := (_destroy events st).2 in
  unlinked st' /\
  (forall key value evs, save key value evs st' = (notLinked, st')) /\
  (forall key evs, load key evs st' = (notLinked, st')) /\
  (forall evs, loadAll evs st' = (notLinked, st')) /\
  (forall evs, _destroy evs st' = (notLinked, st')) /\
  (RequestSuccess ∈ events -> st'.2 !! _dbName st.1 = None) /\
  (RequestSuccess ∉ events -> st'.2 = st.2).
Proof.
  intros Hl st'. destruct (destroy_state events st Hl) as (Hun & _ & Hb).
  fold st' in Hun, Hb.
  destruct (unlinked_operations st' Hun) as (H1 & H2 & H3 & _ & _ & H6).
  split; [exact Hun|]. split; [exact H1|]. split; [exact H2|].
  split; [exact H3|]. split; [exact H6|]. rewrite Hb. split.
  - intros Hin. rewrite bool_decide_eq_true_2 by exact Hin. apply lookup_delete_eq.
  - intros Hin. now rewrite bool_decide_eq_false_2 by exact Hin.
Qed.

Lemma open_handlers_settled ev (r : Result unit) :
  open_handlers ev (Fulfilled r) = Fulfilled r.
Proof. now destruct ev. Qed.

Lemma destroy_handlers_settled ev (r : Result unit) :
  destroy_handlers ev (Fulfilled r) = Fulfilled r.
Proof. now destruct ev. Qed.

Lemma open_run (pre rest : list IDBEvent) (st : State) :
  unlinked st -> Forall (fun ev => ev = UpgradeNeeded) pre ->
  (open (pre ++ RequestSuccess :: rest) st).1 = Fulfilled succeeded /\
  linked (open (pre ++ RequestSuccess :: rest) st).2 /\
  _dbName (open (pre ++ RequestSuccess :: rest) st).2.1 = _dbName st.1 /\
  storeOf (open (pre ++ RequestSuccess :: rest) st).2 = storeOf st /\
  is_Some ((open (pre ++ RequestSuccess :: rest) st).2.2 !! _dbName st.1).
Proof.
  intros Hun Hpre. unfold unlinked in Hun. destruct st as [this browser].
  cbn [fst] in Hun. unfold open. rewrite Hun.
  rewrite bool_decide_eq_true_2 by (apply elem_of_app; right; left).
  cbn [fst snd]. split; [|split; [|split; [|split]]].
  - unfold dispatch. rewrite foldl_app.
    assert (Hp : foldl (fun p ev => open_handlers ev p) Pending pre = Pending).
    { clear -Hpre. induction Hpre as [|ev pre -> _ IH]; [reflexivity|exact IH]. }
    rewrite Hp. cbn [foldl open_handlers resolve].
    apply dispatch_from_settled. intros ev. apply open_handlers_settled.
  - unfold linked. cbn [fst set_db _db]. now eexists.
  - reflexivity.
  - unfold storeOf. cbn [fst snd set_db _dbName].
    destruct (browser !! _dbName this) as [store|] eqn:Hb; [now rewrite Hb|].
    now rewrite lookup_insert_eq.
  - cbn [set_db _dbName].
    destruct (browser !! _dbName this) as [store|] eqn:Hb;
      [now rewrite Hb|now rewrite lookup_insert_eq].
Qed.

(** X23. [open] on a linked instance answers a success at once and
    changes nothing. On an instance that is not linked, when the browser
    opens the database (creating it first if there was none), [open]
    answers a success, links the instance and keeps the data: the store
    holds what the browser had under that name, nothing if it had none. *)
Theorem open_links_and_keeps (pre rest events : list IDBEvent) (st : State) :
  (linked st -> open events st = (Fulfilled succeeded, st)) /\
  (unlinked st -> Forall (fun ev => ev = UpgradeNeeded) pre ->
   (open (pre ++ RequestSuccess :: rest) st).1 = Fulfilled succeeded /\
   linked (open (pre ++ RequestSuccess :: rest) st).2 /\
   storeOf (open (pre ++ RequestSuccess :: rest) st).2 = storeOf st).
Proof.
  split.
  - intros [db Hdb]. destruct st as [this browser]. cbn [fst] in Hdb.
    unfold open. now rewrite Hdb.
  - intros Hun Hpre. destruct (open_run pre rest st Hun Hpre) as (H1 & H2 & _ & H4 & _).
    now split; [|split].
Qed.

Lemma close_state (st : State) :
  unlinked (_close st) /\ _dbName (_close st).1 = _dbName st.1 /\
  (_close st).2 = st.2.
Proof.
  unfold _close, unlinked. destruct (_db st.1) eqn:Hdb; cbn [fst snd set_db _db _dbName];
    repeat split. exact Hdb.
Qed.

Lemma storeOf_same (st st' : State) :
  _dbName st'.1 = _dbName st.1 -> st'.2 = st.2 -> storeOf st' = storeOf st.
Proof. unfold storeOf. now intros -> ->. Qed.

(** X24. What is saved outlives the connection: after a committed save,
    [_close] and a new [open], [load] under the key gives the value
    saved. Between [_close] and [open] the load is refused. *)
Theorem data_survives_reopen (st : State) (k v : string)
  (restS pre restO restL : list IDBEvent) :
  linked st ->
  validString [JsString k; JsString v] = true ->
  TransactionComplete ∈ restS ->
  Forall (fun ev => ev = UpgradeNeeded) pre ->
  let st1 := (save (JsString k) (JsString v) (RequestSuccess :: restS) st).2 in
  let st2 := _close st1 in
  let st3 := (open (pre ++ RequestSuccess :: restO) st2).2 in
  (load (JsString k) (RequestSuccess :: restL) st2).1 = notLinked /\
  (open (pre ++ RequestSuccess :: restO) st2).1 = Fulfilled succeeded /\
  (load (JsString k) (RequestSuccess :: restL) st3).1
  = Fulfilled (succeededWith (JsString v)).
Proof.
  intros Hl Hv Hc Hpre st1 st2 st3.
  destruct (save_state k (JsString v) restS st Hl Hv Hc) as [Hl1 Hs1].
  fold st1 in Hl1, Hs1.
  destruct (close_state st1) as (Hun2 & Hn2 & Hb2). fold st2 in Hun2, Hn2, Hb2.
  destruct (unlinked_operations st2 Hun2) as (_ & Hload & _).
  destruct (open_run pre restO st2 Hun2 Hpre) as (Ho & Hl3 & _ & Hs3 & _).
  fold st3 in Hl3, Hs3.
  split; [now rewrite Hload|]. split; [exact Ho|].
  rewrite (load_run k restL st3 Hl3 (validString_key _ _ Hv)). cbn [fst].
  rewrite (getResult_string st3 k v); [reflexivity|].
  rewrite Hs3, (storeOf_same st1 st2 Hn2 Hb2), Hs1. apply lookup_insert_eq.
Qed.

Lemma destroy_run (rest : list IDBEvent) (st : State) :
  linked st ->
  (_destroy (RequestSuccess :: rest) st).1 = Fulfilled succeeded.
Proof.
  intros [db Hdb]. unfold _destroy. rewrite Hdb. cbn [fst].
  unfold dispatch. cbn [foldl destroy_handlers resolve].
  apply dispatch_from_settled. intros ev. apply destroy_handlers_settled.
Qed.

Lemma destroy_blocked (rest : list IDBEvent) (st : State) :
  linked st ->
  exists r, (_destroy (Blocked :: rest) st).1 = Fulfilled r /\ success r = false.
Proof.
  intros [db Hdb]. unfold _destroy. rewrite Hdb. cbn [fst].
  unfold dispatch. cbn [foldl destroy_handlers resolve].
  rewrite dispatch_from_settled by (intros ev; apply destroy_handlers_settled).
  now eexists.
Qed.

(** X25. [reset] leaves an empty database, linked, when the deletion
    and the opening succeed: every [load] then answers 'Data was
    nullish'. When the deletion is blocked, [reset] answers that failure
    and does not open again: the instance stays unlinked. *)
Theorem reset_empties_or_unlinks (st : State) (k : string)
  (rest1 rest1' pre rest2 events2 restL : list IDBEvent) :
  linked st ->
  validString [JsString k] = true ->
  Forall (fun ev => ev = UpgradeNeeded) pre ->
  ((reset (RequestSuccess :: rest1) (pre ++ RequestSuccess :: rest2) st).1
   = Fulfilled succeeded /\
   linked (reset (RequestSuccess :: rest1) (pre ++ RequestSuccess :: rest2) st).2 /\
   storeOf (reset (RequestSuccess :: rest1) (pre ++ RequestSuccess :: rest2) st).2
   = ∅ /\
   (load (JsString k) (RequestSuccess :: restL)
      (reset (RequestSuccess :: rest1) (pre ++ RequestSuccess :: rest2) st).2).1
   = Fulfilled (failed "Data was nullish")) /\
  ((exists r, (reset (Blocked :: rest1') events2 st).1 = Fulfilled r /\
              success r = false) /\
   unlinked (reset (Blocked :: rest1') events2 st).2).
Proof.
  intros Hl Hk Hpre. split.
  - pose proof (destroy_run rest1 st Hl) as Hd.
    destruct (destroy_state (RequestSuccess :: rest1) st Hl) as (Hun & Hn & Hb).
    rewrite bool_decide_eq_true_2 in Hb by left.
    destruct (open_run pre rest2 _ Hun Hpre) as (Ho & Hl2 & _ & Hs2 & _).
    assert (Hreset : reset (RequestSuccess :: rest1) (pre ++ RequestSuccess :: rest2) st
                     = (Fulfilled succeeded,
                        (open (pre ++ RequestSuccess :: rest2)
                           (_destroy (RequestSuccess :: rest1) st).2).2)).
    { unfold reset.
      destruct (_destroy (RequestSuccess :: rest1) st) as [p1 st1].
      cbn [fst snd] in *. subst p1. cbn [success succeeded negb].
      destruct (open (pre ++ RequestSuccess :: rest2) st1) as [p2 st2].
      cbn [fst snd] in *. subst p2. reflexivity. }
    rewrite Hreset. cbn [fst snd].
    assert (Hempty : storeOf (open (pre ++ RequestSuccess :: rest2)
                                (_destroy (RequestSuccess :: rest1) st).2).2 = ∅).
    { rewrite Hs2. unfold storeOf. rewrite Hb, Hn, lookup_delete_eq. reflexivity. }
    split; [reflexivity|]. split; [exact Hl2|]. split; [exact Hempty|].
    rewrite (load_run k restL _ Hl2 Hk). cbn [fst]. unfold getResult.
    now rewrite Hempty, lookup_empty.
  - destruct (destroy_blocked rest1' st Hl) as (r & Hr & Hf).
    destruct (destroy_state (Blocked :: rest1') st Hl) as (Hun & _).
    assert (Hreset : reset (Blocked :: rest1') events2 st
                     = (Fulfilled r, (_destroy (Blocked :: rest1') st).2)).
    { unfold reset. destruct (_destroy (Blocked :: rest1') st) as [p1 st1].
      cbn [fst snd] in *. subst p1. now rewrite Hf. }
    rewrite Hreset. cbn [fst snd]. split; [now exists r|exact Hun].
Qed.

(** The constructor throws exactly on a name that is not a valid
    string; the instance it gives otherwise bears the name, has the one
    store 'default' and is not linked. *)
Lemma constructor_checks_name (dbName : JsValue) :
  match constructor dbName with
  | inl e => validString [dbName] = false /\
             e = newError "Expected non-empty string for dbName"
  | inr this => validString [dbName] = true /\
                JsString (_dbName this) = dbName /\
                _storeNames this = ["default"] /\ _storeName this = "default" /\
                _db this = None
  end.
Proof.
  unfold constructor. destruct dbName as [s| | | |]; try (split; reflexivity).
  destruct (validString [JsString s]); repeat split.
Qed.

End DatabaseMore.

(** * The page *)

Module PageFacts.
Import ESDate JSDate Tools Widget Database Page.
Import ESDateFacts ToolsFacts ToolsMore WidgetFacts WidgetMore.
Import DatabaseFacts DatabaseMore.
Local Open Scope Z_scope.

(** ** Themes *)

Lemma cycleTheme_fields (h : PageState) :
  themeIndex (cycleTheme h) = ((themeIndex h + 1) `mod` 8)%nat /\
  theme (cycleTheme h) = setTheme (THEMES.*2 !! ((themeIndex h + 1) `mod` 8)%nat) /\
  footerText (cycleTheme h) = footerText h /\
  footerDate (cycleTheme h) = footerDate h /\
  modalShown (cycleTheme h) = modalShown h /\
  textarea (cycleTheme h) = textarea h /\
  database (cycleTheme h) = database h /\
  responses (cycleTheme h) = responses h.
Proof. repeat split. Qed.

(** ** Notes *)

Lemma blank_app (s1 s2 : string) : blank (s1 +:+ s2) = blank s1 && blank s2.
Proof.
  induction s1 as [|c s1 IH]; [reflexivity|].
  change (String c s1 +:+ s2) with (String c (s1 +:+ s2)).
  cbn [blank]. rewrite IH. now rewrite andb_assoc.
Qed.

Lemma validString_one (s : string) :
  validString [JsString s] = negb (blank s).
Proof.
  unfold validString. cbn [forallb]. rewrite andb_true_r.
  destruct (blank s) eqn:Hb.
  - apply trim_blank in Hb. now rewrite bool_decide_eq_true_2.
  - rewrite bool_decide_eq_false_2; [reflexivity|].
    intros Ht. apply trim_blank in Ht. congruence.
Qed.

Lemma constructor_APP_NAME :
  constructor (JsString APP_NAME)
  = inr {| _dbName := APP_NAME; _storeNames := ["default"];
           _storeName := "default"; _db := None |}.
Proof. vm_compute. reflexivity. Qed.

Lemma not_linked_None : bool_decide (is_Some (None : option IDBDatabase)) = false.
Proof. reflexivity. Qed.

Lemma open_fails (e : option JsError) (rest : list IDBEvent) (st : State) :
  unlinked st -> RequestSuccess ∉ rest ->
  open (RequestError e :: rest) st
  = (Fulfilled (failedWith ("Error in the opening process: " +:+ nameOf e) e), st).
Proof.
  intros Hun Hno. unfold unlinked in Hun. destruct st as [this browser].
  cbn [fst] in Hun. unfold open. rewrite Hun.
  rewrite bool_decide_eq_false_2.
  - unfold dispatch. cbn [foldl open_handlers resolve].
    rewrite dispatch_from_settled by (intros ev; apply open_handlers_settled).
    reflexivity.
  - intros Hin. apply elem_of_cons in Hin as [Hin|Hin]; [discriminate|contradiction].
Qed.

Section PageFacts.
Context {env : Env}.

(** X30. Middle clicks walk through the eight themes in turn and come
    round: after [n + 1] clicks the index is the old one plus [n + 1],
    modulo 8, and the theme of the body is the value at that index, the
    empty theme for 'default'. Nothing else on the page changes. *)
Theorem middle_clicks_cycle_themes (W : World PageHost) (h : PageState) (n : nat) :
  host W = Some h ->
  exists h',
    runPage (replicate (S n) MiddleClick) W
    = Some {| widget := widget W; host := Some h'; timeouts := timeouts W |} /\
    themeIndex h' = ((themeIndex h + S n) `mod` 8)%nat /\
    theme h' = setTheme (THEMES.*2 !! ((themeIndex h + S n) `mod` 8)%nat) /\
    footerText h' = footerText h /\ footerDate h' = footerDate h /\
    modalShown h' = modalShown h /\ textarea h' = textarea h /\
    database h' = database h /\ responses h' = responses h.
Proof.
  revert W h. induction n as [|n IH]; intros W h Hh.
  - exists (cycleTheme h). cbn [replicate runPage pageStep]. unfold onHost.
    rewrite Hh. cbn [mbind option_bind]. split; [reflexivity|].
    rewrite Nat.add_1_r. destruct (cycleTheme_fields h) as (H1 & H2 & H3).
    rewrite Nat.add_1_r in H1, H2. now split; [|split].
  - destruct (IH {| widget := widget W; host := Some (cycleTheme h);
                    timeouts := timeouts W |} (cycleTheme h) eq_refl)
      as (h' & Hrun & Hi & Ht & H1 & H2 & H3 & H4 & H5 & H6).
    exists h'. split.
    + change (replicate (S (S n)) MiddleClick)
        with (MiddleClick :: replicate (S n) MiddleClick).
      cbn [runPage pageStep]. unfold onHost at 1. rewrite Hh.
      cbn [mbind option_bind]. exact Hrun.
    + destruct (cycleTheme_fields h) as (Hc & _).
      assert (Hmod : (((themeIndex h + 1) `mod` 8 + S n) `mod` 8
                      = (themeIndex h + S (S n)) `mod` 8)%nat).
      { rewrite Nat.Div0.add_mod_idemp_l. f_equal. lia. }
      rewrite Hc in Hi, Ht. rewrite Hmod in Hi, Ht.
      repeat split; assumption.
Qed.


(** A key is never blank: it holds a hyphen. *)
Lemma toShort_valid (d : Z) : validString [JsString (toShort d)] = true.
Proof.
  rewrite validString_one. unfold toShort, toLocaleDateString_enCA. cbv zeta.
  rewrite !blank_app. cbn [blank].
  replace (isWhiteSpace "-") with false by (vm_compute; reflexivity).
  now rewrite andb_false_r.
Qed.

Lemma asks_linked (args : list JsValue) (st : State) :
  linked st -> asks args st = validString args.
Proof.
  intros Hl. unfold asks. now rewrite bool_decide_eq_true_2.
Qed.

Lemma set_database_same (h : PageState) :
  set_database (database h) (responses h) h = h.
Proof. now destruct h. Qed.

Lemma saveNote_run (W : World PageHost) (h : PageState)
  (rest : list IDBEvent) (more : list (list IDBEvent)) :
  host W = Some h -> linked (database h) ->
  responses h = (RequestSuccess :: rest) :: more ->
  TransactionComplete ∈ rest ->
  blank (textarea h) = false -> blank (footerDate h) = false ->
  exists h',
    pageStep KeyCtrlS W
    = Some {| widget := set_starredDates
                          (starredDates (widget W) ++ [footerDate h]) (widget W);
              host := Some h'; timeouts := timeouts W |} /\
    storeOf (database h')
    = <[footerDate h := JsString (textarea h)]> (storeOf (database h)) /\
    linked (database h') /\ responses h' = more /\
    textarea h' = textarea h /\ footerDate h' = footerDate h.
Proof.
  intros Hh Hl Hrs Hc Ht Hd.
  assert (Hv : validString [JsString (footerDate h); JsString (textarea h)] = true).
  { rewrite validString_cons, !validString_one, Hd, Ht. reflexivity. }
  destruct (save_state (footerDate h) (JsString (textarea h)) rest (database h)
              Hl Hv Hc) as [Hl' Hs'].
  pose proof (save_run (footerDate h) (JsString (textarea h)) rest (database h)
                Hl Hv Hc) as Hrun.
  exists (set_database
            (save (JsString (footerDate h)) (JsString (textarea h))
               (RequestSuccess :: rest) (database h)).2 more h).
  split; [|now repeat split].
  cbn [pageStep]. unfold saveNote. rewrite Hh. cbn [mbind option_bind].
  unfold responseTo. rewrite (asks_linked _ _ Hl), Hv, Hrs. cbn [nextResponse].
  rewrite Hrun. reflexivity.
Qed.

(** X26. Ctrl+S saves the text of the text area under the date of the
    footer and, once the save has succeeded, adds that date to the
    starred dates, a second time if it was there; the grid is not
    rendered again. A text of white space only is refused: nothing is
    stored, nothing is starred, and the browser is not asked. *)
Theorem ctrl_s_saves_and_stars (W : World PageHost) (h : PageState)
  (rest : list IDBEvent) (more : list (list IDBEvent)) :
  host W = Some h -> linked (database h) ->
  responses h = (RequestSuccess :: rest) :: more ->
  TransactionComplete ∈ rest ->
  (blank (textarea h) = false -> blank (footerDate h) = false ->
   exists h',
     pageStep KeyCtrlS W
     = Some {| widget := set_starredDates
                           (starredDates (widget W) ++ [footerDate h]) (widget W);
               host := Some h'; timeouts := timeouts W |} /\
     storeOf (database h')
     = <[footerDate h := JsString (textarea h)]> (storeOf (database h)) /\
     linked (database h') /\ responses h' = more /\
     textarea h' = textarea h /\ footerDate h' = footerDate h) /\
  (blank (textarea h) = true -> pageStep KeyCtrlS W = Some W).
Proof.
  intros Hh Hl Hrs Hc. split.
  - intros Ht Hd. exact (saveNote_run W h rest more Hh Hl Hrs Hc Ht Hd).
  - intros Ht.
    assert (Hv : validString [JsString (footerDate h); JsString (textarea h)] = false).
    { rewrite validString_cons, (validString_one (textarea h)), Ht.
      apply andb_false_r. }
    cbn [pageStep]. unfold saveNote. rewrite Hh. cbn [mbind option_bind].
    unfold responseTo. rewrite (asks_linked _ _ Hl), Hv.
    destruct Hl as [db Hdb]. unfold save.
    destruct (database h) as [this browser] eqn:Hst. cbn [fst] in Hdb.
    rewrite Hdb, Hv. cbn [negb success failed].
    rewrite <- Hst, set_database_same. destruct W as [w ho n].
    cbn [host] in Hh. now rewrite Hh.
Qed.

Lemma toPretty_time_of_day (a b : Z) : localDay a = localDay b -> toPretty a = toPretty b.
Proof.
  intros H. unfold toPretty, toDayName, toLocaleString_weekday, toOrdinal,
    toMonthName, toLocaleString_month, toYear. cbv zeta.
  rewrite !(getDay_localDay a), !(getDay_localDay b), H.
  rewrite (getDate_localDay a b H), (getMonth_localDay a b H),
    (getFullYear_localDay a b H). reflexivity.
Qed.

Lemma getResult_note (st : State) (k : string) :
  holdsStrings st ->
  match getResult st k with
  | Some v => v = JsString (noteOf st k)
  | None => noteOf st k = ""
  end.
Proof.
  intros Hs. unfold getResult, noteOf.
  destruct (storeOf st !! k) as [v|] eqn:Hk; [|reflexivity].
  destruct (Hs k v Hk) as [text ->]. reflexivity.
Qed.

Lemma callback_run (chosen : Z) (i : nat) (h : PageState)
  (rest : list IDBEvent) (more : list (list IDBEvent)) :
  linked (database h) -> holdsStrings (database h) ->
  responses h = (RequestSuccess :: rest) :: more ->
  exists h',
    onDayClickCallback chosen i (Some h) = Some h' /\
    footerText h' = toPretty chosen /\ footerDate h' = toShort chosen /\
    modalShown h' = false /\
    textarea h' = noteOf (database h) (toShort chosen) /\
    database h' = database h /\ responses h' = more /\
    theme h' = theme h /\ themeIndex h' = themeIndex h.
Proof.
  intros Hl Hs Hrs. unfold onDayClickCallback. cbn [mbind option_bind].
  cbv zeta. cbn [footerDate set_modalShown set_footer].
  unfold responseTo. cbn [database responses set_modalShown set_footer].
  rewrite (asks_linked _ _ Hl), toShort_valid, Hrs. cbn [nextResponse].
  rewrite (load_run (toShort chosen) rest (database h) Hl (toShort_valid chosen)).
  pose proof (getResult_note (database h) (toShort chosen) Hs) as Hn.
  destruct (getResult (database h) (toShort chosen)) as [v|].
  - subst v. cbn [success succeededWith data]. eexists. split; [reflexivity|].
    cbn [footerText footerDate modalShown textarea database responses theme
           themeIndex set_textarea set_database set_modalShown set_footer].
    repeat split.
  - cbn [success failed]. eexists. split; [reflexivity|].
    cbn [footerText footerDate modalShown textarea database responses theme
           themeIndex set_textarea set_database set_modalShown set_footer].
    rewrite Hn. repeat split.
Qed.

Lemma day_click_run (clock : nat -> Z) (W : World PageHost) (h : PageState)
  (i : nat) (el : DayElement) (d : Z)
  (rest : list IDBEvent) (more : list (list IDBEvent)) :
  0 <= LocalTZA < msPerDay ->
  host W = Some h -> linked (database h) -> holdsStrings (database h) ->
  onDayClick (widget W) = Some onDayClickCallback ->
  dayGrid (widget W) !! i = Some el -> dataset_date el = Some (toShort d) ->
  1000 <= getFullYear d <= 9999 ->
  responses h = (RequestSuccess :: rest) :: more ->
  exists chosen h',
    pageStep (WidgetClick clock (DayCell i)) W
    = Some {| widget := set_dateChosen chosen (widget W); host := Some h';
              timeouts := S (timeouts W) |} /\
    calendarDate chosen = calendarDate d /\
    footerText h' = toPretty d /\ footerDate h' = toShort d /\
    modalShown h' = false /\
    textarea h' = noteOf (database h) (toShort d) /\
    database h' = database h /\ responses h' = more /\
    theme h' = theme h /\ themeIndex h' = themeIndex h.
Proof.
  intros Htz Hh Hl Hs Hcb Hel Hkey Hy Hrs.
  pose proof (parse_toShort d Hy) as Hp.
  pose proof (localDay_midnight_east (localDay d) Htz) as Hday.
  revert Hp Hday. generalize (MakeDate (localDay d) 0). intros chosen Hp Hday.
  destruct (callback_run chosen i h rest more Hl Hs Hrs)
    as (h' & Hrun & H1 & H2 & H3 & H4 & H5 & H6 & H7 & H8).
  exists chosen, h'. split.
  - cbn [pageStep].
    rewrite (click_day_with_callback clock i W onDayClickCallback el (toShort d)
               chosen Hcb Hel Hkey Hp).
    now rewrite Hh, Hrun.
  - split; [now apply calendarDate_localDay|].
    rewrite H1, H2, H4, (toPretty_time_of_day chosen d Hday),
      (toShort_time_of_day chosen d Hday).
    repeat split; assumption.
Qed.

Lemma holdsStrings_insert (st st' : State) (k text : string) :
  holdsStrings st -> storeOf st' = <[k := JsString text]> (storeOf st) ->
  holdsStrings st'.
Proof.
  intros Hs Heq key value. rewrite Heq.
  destruct (decide (key = k)) as [->|Hne].
  - rewrite lookup_insert_eq. intros [= <-]. now eexists.
  - rewrite lookup_insert_ne by congruence. apply Hs.
Qed.

(** X27. A note comes back. At or east of Greenwich: choose a day,
    type a text that is not blank, press Ctrl+S, choose another day,
    choose the first day again: the text area holds the text saved, the
    footer bears the key of the day, and the key is among the starred
    dates. *)
Theorem note_round_trip (clock1 clock2 clock3 : nat -> Z) (W : World PageHost)
  (h : PageState) (i j : nat) (eli elj : DayElement) (di dj : Z) (text : string)
  (rest1 rest2 rest3 rest4 : list IDBEvent) (more : list (list IDBEvent)) :
  0 <= LocalTZA < msPerDay ->
  host W = Some h -> linked (database h) -> holdsStrings (database h) ->
  onDayClick (widget W) = Some onDayClickCallback ->
  dayGrid (widget W) !! i = Some eli -> dataset_date eli = Some (toShort di) ->
  1000 <= getFullYear di <= 9999 ->
  dayGrid (widget W) !! j = Some elj -> dataset_date elj = Some (toShort dj) ->
  1000 <= getFullYear dj <= 9999 ->
  blank text = false ->
  responses h = (RequestSuccess :: rest1) :: (RequestSuccess :: rest2)
                  :: (RequestSuccess :: rest3) :: (RequestSuccess :: rest4)
                  :: more ->
  TransactionComplete ∈ rest2 ->
  exists W' h',
    runPage [WidgetClick clock1 (DayCell i); Typing text; KeyCtrlS;
             WidgetClick clock2 (DayCell j); WidgetClick clock3 (DayCell i)] W
    = Some W' /\
    host W' = Some h' /\
    textarea h' = text /\ footerDate h' = toShort di /\
    toShort di ∈ starredDates (widget W') /\
    dayGrid (widget W') = dayGrid (widget W) /\
    timeouts W' = S (S (S (timeouts W))).
Proof.
  intros Htz Hh Hl Hs Hcb Hi Hki Hyi Hj Hkj Hyj Hb Hrs Hc.
  destruct (day_click_run clock1 W h i eli di rest1 _ Htz Hh Hl Hs Hcb Hi Hki Hyi Hrs)
    as (c1 & h1 & Hstep1 & _ & _ & Hfd1 & _ & _ & Hdb1 & Hrs1 & _).
  set (W1 := {| widget := set_dateChosen c1 (widget W); host := Some h1;
                timeouts := S (timeouts W) |}) in *.
  set (h2 := set_textarea text h1).
  set (W2 := {| widget := widget W1; host := Some h2; timeouts := timeouts W1 |}).
  assert (Hstep2 : pageStep (Typing text) W1 = Some W2) by reflexivity.
  assert (Hl2 : linked (database h2)) by (cbn [h2 set_textarea database]; now rewrite Hdb1).
  assert (Hb2 : blank (footerDate h2) = false).
  { cbn [h2 set_textarea footerDate]. rewrite Hfd1.
    pose proof (toShort_valid di) as Hv. rewrite validString_one in Hv.
    now destruct (blank (toShort di)). }
  destruct (saveNote_run W2 h2 rest2 _ eq_refl Hl2 Hrs1 Hc Hb Hb2)
    as (h3 & Hstep3 & Hst3 & Hl3 & Hrs3 & _ & _).
  cbn [h2 set_textarea footerDate textarea database] in Hst3, Hstep3.
  rewrite Hfd1, Hdb1 in Hst3. rewrite Hfd1 in Hstep3.
  set (W3 := {| widget := set_starredDates
                            (starredDates (widget W2) ++ [toShort di]) (widget W2);
                host := Some h3; timeouts := timeouts W2 |}) in *.
  assert (Hs3 : holdsStrings (database h3))
    by exact (holdsStrings_insert _ _ _ _ Hs Hst3).
  destruct (day_click_run clock2 W3 h3 j elj dj rest3 _ Htz eq_refl Hl3 Hs3 Hcb Hj Hkj
              Hyj Hrs3)
    as (c4 & h4 & Hstep4 & _ & _ & _ & _ & _ & Hdb4 & Hrs4 & _).
  set (W4 := {| widget := set_dateChosen c4 (widget W3); host := Some h4;
                timeouts := S (timeouts W3) |}) in *.
  assert (Hl4 : linked (database h4)) by now rewrite Hdb4.
  assert (Hs4 : holdsStrings (database h4)) by now rewrite Hdb4.
  destruct (day_click_run clock3 W4 h4 i eli di rest4 _ Htz eq_refl Hl4 Hs4 Hcb Hi Hki
              Hyi Hrs4)
    as (c5 & h5 & Hstep5 & _ & _ & Hfd5 & _ & Hta5 & _).
  eexists _, h5. split.
  - cbn [runPage]. rewrite Hstep1, Hstep2, Hstep3, Hstep4, Hstep5. reflexivity.
  - cbn [host widget timeouts]. split; [reflexivity|].
    split; [|split; [exact Hfd5|split; [|split; reflexivity]]].
    + rewrite Hta5, Hdb4. unfold noteOf. now rewrite Hst3, lookup_insert_eq.
    + cbn [W4 W3 W2 W1 widget set_dateChosen set_starredDates starredDates].
      apply elem_of_app. right. now left.
Qed.

(** ** The [load] handler *)

Lemma construct_succeeds (now1 now2 now3 : Z) (clock : nat -> Z) :
  exists w : CalendarWidget PageHost,
    construct now1 now2 now3 clock = Some w /\
    dateToday w = now1 /\ dateChosen w = now2 /\ dateDisplayed w = now3 /\
    starredDates w = [] /\ onDayClick w = None /\
    length (dayGrid w) = 42%nat.
Proof.
  rewrite construct_eq.
  destruct (updateCalendar_shows
              ({| starredDates := []; dateToday := now1; dateChosen := now2;
                  dateDisplayed := now3; onDayClick := None;
                  navigatorText := ""; dayGrid := replicate 42 blankDay |}
               : CalendarWidget PageHost) clock now1 eq_refl)
    as (w & Hrun & H1 & H2 & H3 & H4 & H5 & _ & Hl & _).
  exists w. repeat split; assumption.
Qed.

(** X29. When the browser cannot open the database, the [load]
    handler throws: [_loadAllKeys] answers that the database is not
    linked, without data, and the spread of [result.data] into [push]
    is a TypeError. The handler stops there: [onDayClick] is not set and
    the footer is not filled. *)
Theorem setup_throws (now1 now2 now3 : Z) (clock0 : nat -> Z) (now4 : Z)
  (clock1 : nat -> Z) (browser : Browser) (e : option JsError)
  (rest : list IDBEvent) (more : list (list IDBEvent)) (text0 : string)
  (modal0 : bool) :
  RequestSuccess ∉ rest ->
  setup now1 now2 now3 clock0 now4 clock1 browser ((RequestError e :: rest) :: more)
    text0 modal0
  = Throws "TypeError".
Proof.
  intros Hno. unfold setup. rewrite constructor_APP_NAME.
  cbn [fst snd _db]. rewrite not_linked_None. cbn [nextResponse].
  rewrite (open_fails e rest
             ({| _dbName := APP_NAME; _storeNames := ["default"];
                 _storeName := "default"; _db := None |}, browser)
             eq_refl Hno).
  cbn [await fst snd _db]. rewrite not_linked_None.
  unfold loadAll at 1. cbn [await fst snd _db].
  destruct (construct_succeeds now1 now2 now3 clock0) as (w & -> & _).
  rewrite not_linked_None.
  unfold _loadAllKeys at 1. cbn [await fst snd _db data failed].
  reflexivity.
Qed.

(** X28. When the browser opens the database and answers the
    requests, the [load] handler leaves the page ready: the starred
    dates are the keys stored, the callback of the page is set, the grid
    shows the month of the last reading of the clock, the footer bears
    the date read by the constructor, and the text area holds the note
    of that date if there is one, else what it held. *)
Theorem setup_ready (now1 now2 now3 : Z) (clock0 : nat -> Z) (now4 : Z)
  (clock1 : nat -> Z) (browser : Browser)
  (pre rest1 rest2 rest3 rest4 : list IDBEvent) (more : list (list IDBEvent))
  (text0 : string) (modal0 : bool) :
  Forall (fun ev => ev = UpgradeNeeded) pre ->
  (forall key value, notesIn browser !! key = Some value ->
                     exists text, value = JsString text) ->
  exists w h,
    setup now1 now2 now3 clock0 now4 clock1 browser
      ((pre ++ RequestSuccess :: rest1)
       :: (replicate (S (size (notesIn browser))) RequestSuccess ++ rest2)
       :: (RequestSuccess :: rest3) :: (RequestSuccess :: rest4) :: more)
      text0 modal0
    = Ready {| widget := w; host := Some h; timeouts := 0 |} /\
    onDayClick w = Some onDayClickCallback /\
    (forall key, key ∈ starredDates w <-> is_Some (notesIn browser !! key)) /\
    dateToday w = now1 /\ dateChosen w = now2 /\ dateDisplayed w = now3 /\
    length (dayGrid w) = 42%nat /\ showsMonth w now4 /\
    footerText h = toPretty now1 /\ footerDate h = toShort now1 /\
    textarea h = match notesIn browser !! toShort now1 with
                 | Some (JsString text) => text
                 | _ => text0
                 end /\
    modalShown h = modal0 /\ theme h = "emerald" /\ themeIndex h = 0%nat /\
    linked (database h) /\ storeOf (database h) = notesIn browser /\
    responses h = more.
Proof.
  intros Hpre Hstrings. unfold setup. rewrite constructor_APP_NAME.
  cbn [fst snd _db]. rewrite not_linked_None. cbn [nextResponse].
  set (st0 := ({| _dbName := APP_NAME; _storeNames := ["default"];
                  _storeName := "default"; _db := None |}, browser) : State).
  destruct (open_run pre rest1 st0 eq_refl Hpre) as (Ho & Hl1 & Hn1 & Hs1 & _).
  change (storeOf st0) with (notesIn browser) in Hs1.
  destruct (open (pre ++ RequestSuccess :: rest1) st0) as [p1 st1].
  cbn [fst snd] in Ho, Hl1, Hn1, Hs1. subst p1. cbn [await].
  assert (Hb1 : bool_decide (is_Some (_db st1.1)) = true)
    by (now apply bool_decide_eq_true_2).
  rewrite Hb1. cbn [nextResponse]. rewrite <- Hs1.
  rewrite (loadAll_run st1 rest2 Hl1). cbn [await].
  destruct (construct_succeeds now1 now2 now3 clock0)
    as (w0 & -> & Ht0 & Hc0 & Hd0 & Hst0 & _ & Hlen0).
  rewrite Hb1. cbn [nextResponse].
  unfold _loadAllKeys at 1. destruct Hl1 as [db Hdb]. rewrite Hdb.
  rewrite dispatch_load_success. cbn [await data succeededWith].
  rewrite Hst0. cbn [app].
  destruct (updateCalendar_shows
              (set_starredDates (map fst (map_to_list (storeOf st1))) w0)
              clock1 now4 Hlen0)
    as (w1 & -> & Hc1 & Ht1 & Hd1 & Hst1 & _ & Hn & Hlen1 & Hcells).
  cbn [set_starredDates dateChosen dateToday dateDisplayed starredDates] in
    Hc1, Ht1, Hd1, Hst1.
  cbn [footerDate database]. unfold responseTo. cbn [database responses].
  assert (Hl1 : linked st1) by (now exists db).
  rewrite (asks_linked _ _ Hl1), toShort_valid. cbn [nextResponse].
  rewrite (load_run (toShort (dateToday w1)) rest4 st1 Hl1 (toShort_valid _)).
  rewrite Ht1, Ht0.
  assert (Hkeys : forall key, key ∈ starredDates w1
                              <-> is_Some (storeOf st1 !! key)).
  { intros key. rewrite Hst1.
    change (map fst (map_to_list (storeOf st1))) with ((map_to_list (storeOf st1)).*1).
    rewrite list_elem_of_fmap. split.
    - intros ([k v] & -> & Hin). apply elem_of_map_to_list in Hin. now exists v.
    - intros [v Hv]. exists (key, v). split; [reflexivity|].
      now apply elem_of_map_to_list. }
  unfold getResult.
  destruct (storeOf st1 !! toShort now1) as [v|] eqn:Hnote.
  - assert (Hv : exists text, v = JsString text)
      by (apply (Hstrings (toShort now1)); now rewrite <- Hs1).
    destruct Hv as [text ->]. cbn [default nullish await success succeededWith data].
    eexists _, _. split; [reflexivity|].
    cbn [set_onDayClick onDayClick starredDates dateToday dateChosen dateDisplayed
           dayGrid footerText footerDate textarea modalShown theme themeIndex
           database responses set_textarea set_database].
    split; [reflexivity|]. split; [exact Hkeys|].
    split; [congruence|]. split; [congruence|]. split; [congruence|].
    split; [exact Hlen1|]. split; [split; [exact Hn|exact Hcells]|].
    repeat split; try reflexivity. exact Hl1.
  - cbn [default nullish await success failed].
    eexists _, _. split; [reflexivity|].
    cbn [set_onDayClick onDayClick starredDates dateToday dateChosen dateDisplayed
           dayGrid footerText footerDate textarea modalShown theme themeIndex
           database responses set_textarea set_database].
    split; [reflexivity|]. split; [exact Hkeys|].
    split; [congruence|]. split; [congruence|]. split; [congruence|].
    split; [exact Hlen1|]. split; [split; [exact Hn|exact Hcells]|].
    repeat split; try reflexivity. exact Hl1.
Qed.

End PageFacts.
End PageFacts.

(** * The statements on pages and dates of the examples *)

Module Scenarios.
Import ESDate JSDate Tools Widget Samples.
Import ESDateFacts ToolsFacts ObjectsFacts WidgetFacts.
Local Open Scope Z_scope.

(** ** Navigation *)

(** C3, the failing input. The anchor is 2025-01-31, 10:00; one step to
    the next month shows March 2025, and the anchor becomes 2025-03-03:
    [setMonth] keeps the day 31, which February does not have. *)
Theorem navigateMonth_skips_short_month :
  let january31 := localDate (env := utc) 2025 0 31 36000000 in
  (W ← page (env := utc) january31 None;
   W' ← click (env := utc) (fixedClock january31) NavigatorRight W;
   Some (navigatorText (widget W),
         navigatorText (widget W'),
         toShort (env := utc) (dateDisplayed (widget W'))))
  = Some ("January 2025", "March 2025", "2025-03-03").
Proof. vm_compute. reflexivity. Qed.

(** C4, the failing input. The widget is built on 2025-08-31 at
    23:59; the header is clicked six minutes later, on 2025-09-01. The
    grid shown is August 2025, the month of [dateToday], not the month
    of the clock, and [dateDisplayed] is left as it was: no date is read
    at the click and the anchor is not set. On the page built on
    2025-08-15, after three steps to the right (November) and a click on
    the header, the label is August while the anchor is still in
    November; a step to the right then shows December. *)
Theorem header_click_shows_construction_month :
  let born := localDate (env := utc) 2025 7 31 86340000 in
  let later := localDate (env := utc) 2025 8 1 300000 in
  (W ← page (env := utc) born None;
   W' ← click (env := utc) (fixedClock later) NavigatorText W;
   Some (monthLabel (env := utc) later,
         navigatorText (widget W'),
         toShort (env := utc) (dateDisplayed (widget W')),
         bool_decide (dateDisplayed (widget W') = dateDisplayed (widget W))))
  = Some ("September 2025", "August 2025", "2025-08-31", true) /\
  (fun W => (navigatorText (widget W),
             toShort (env := utc) (dateDisplayed (widget W)))) <$>
    run (env := utc) august15
      [Click NavigatorRight; Click NavigatorRight; Click NavigatorRight;
       Click NavigatorText]
      (page (env := utc) august15 None)
  = Some ("August 2025", "2025-11-15") /\
  (navigatorText ∘ widget) <$>
    run (env := utc) august15
      [Click NavigatorRight; Click NavigatorRight; Click NavigatorRight;
       Click NavigatorText; Click NavigatorRight]
      (page (env := utc) august15 None)
  = Some "December 2025".
Proof. split; [|split]; vm_compute; reflexivity. Qed.

(** ** Keys read back *)

(** C6, the failing input. Five hours west of Greenwich, the key of
    2025-01-03 is ["2025-01-03"]; read back by [new Date(key)] and
    printed again, it is ["2025-01-02"]. A click on the cell of August 3
    chooses and marks August 2. *)
Theorem key_read_back_west_of_utc :
  toShort (env := utcMinus5) (localDate (env := utcMinus5) 2025 0 3 0)
  = "2025-01-03" /\
  toShort (env := utcMinus5) <$> parseDateOnly "2025-01-03"
  = Some "2025-01-02" /\
  (fun W => (toShort (env := utcMinus5) (dateChosen (widget W)),
             cellsWith "marked" W)) <$>
    run (env := utcMinus5) (localDate (env := utcMinus5) 2025 7 15 36000000)
      [Click (DayCell 6); Timeout]
      (page (env := utcMinus5) (localDate (env := utcMinus5) 2025 7 15 36000000)
         (Some spy))
  = Some ("2025-08-02", ["2"]).
Proof. split; [|split]; vm_compute; reflexivity. Qed.

(** ** Day clicks *)

(** C5, a counterexample. On the page built on 2025-08-15, a click on
    the cell of that day (index 18) chooses it and calls the callback
    once; when the timeout has fired, that cell is today and no cell is
    marked. On the same page with no callback, a click on the cell of
    August 3 (index 6) leaves the chosen date at August 15. With the
    callback, a click on the cell of August 3 and then one on the cell
    of August 4 (index 7), before a timeout has fired: the first
    timeout marks the cell of August 4, and so does the second. *)
Lemma day_click_on_today_marks_none :
  (fun W => (toShort (env := utc) (dateChosen (widget W)),
             length (host W), cellsWith "today" W, cellsWith "marked" W)) <$>
    run (env := utc) august15 [Click (DayCell 18); Timeout] (Some augustPage)
  = Some ("2025-08-15", 1%nat, ["15"], []) /\
  (fun W => (toShort (env := utc) (dateChosen (widget W)), timeouts W,
             cellsWith "marked" W)) <$>
    run (env := utc) august15 [Click (DayCell 6); Timeout]
      (page (env := utc) august15 None)
  = Some ("2025-08-15", 0%nat, []) /\
  (fun W => (toShort (env := utc) (dateChosen (widget W)), timeouts W,
             cellsWith "marked" W)) <$>
    run (env := utc) august15 [Click (DayCell 6); Click (DayCell 7); Timeout]
      (Some augustPage)
  = Some ("2025-08-04", 1%nat, ["4"]) /\
  (fun W => (toShort (env := utc) (dateChosen (widget W)), timeouts W,
             cellsWith "marked" W)) <$>
    run (env := utc) august15
      [Click (DayCell 6); Click (DayCell 7); Timeout; Timeout]
      (Some augustPage)
  = Some ("2025-08-04", 0%nat, ["4"]).
Proof. split; [|split; [|split]]; vm_compute; reflexivity. Qed.

(** ** Navigation after a day click *)

(** C10, a counterexample. On the page built on 2025-08-15, a click on
    the first cell (July 28) and its timeout show July 2025, the anchor
    still being August 15. A click on the cell of index 10 (July 10) and
    its timeout keep July shown; a step to the right then shows
    September 2025, one month after the anchor, and not August 2025, one
    month after the month shown before the click. *)
Lemma navigation_ignores_month_shown :
  (fun W => (navigatorText (widget W),
             toShort (env := utc) (dateDisplayed (widget W)))) <$>
    run (env := utc) august15 [Click (DayCell 0); Timeout] (Some augustPage)
  = Some ("July 2025", "2025-08-15") /\
  (fun W => (navigatorText (widget W),
             toShort (env := utc) (dateChosen (widget W)),
             toShort (env := utc) (dateDisplayed (widget W)))) <$>
    run (env := utc) august15
      [Click (DayCell 0); Timeout; Click (DayCell 10); Timeout]
      (Some augustPage)
  = Some ("July 2025", "2025-07-10", "2025-08-15") /\
  (fun W => (navigatorText (widget W),
             toShort (env := utc) (dateDisplayed (widget W)))) <$>
    run (env := utc) august15
      [Click (DayCell 0); Timeout; Click (DayCell 10); Timeout; NavigateMonth 1]
      (Some augustPage)
  = Some ("September 2025", "2025-09-15").
Proof. split; [|split]; vm_compute; reflexivity. Qed.

(** ** The theorems at the examples *)

Lemma getDateArray_month_grid_witness :
  (0 < 41)%nat /\
  getFullYear (env := utc) august15 = 2025 /\
  getMonth (env := utc) august15 = 7 /\
  (exists d d', Tools.getDateArray (env := utc) august15 !! 0%nat = Some d /\
                Tools.getDateArray (env := utc) august15 !! 1%nat = Some d' /\
                localDay (env := utc) d' = localDay (env := utc) d + 1 /\
                d' = d + msPerDay) /\
  toShort (env := utc) <$> Tools.getDateArray (env := utc) august15 !! 0%nat
  = Some "2025-07-28" /\
  toShort (env := utc) <$> Tools.getDateArray (env := utc) august15 !! 41%nat
  = Some "2025-09-07" /\
  toShort (env := utc) <$> Tools.getDateArray (env := utc) august15 !! 4%nat
  = Some "2025-08-01".
Proof.
  assert (Hi : (0 < 41)%nat) by lia.
  assert (Hy : getFullYear (env := utc) august15 = 2025) by (vm_compute; reflexivity).
  assert (Hm : getMonth (env := utc) august15 = 7) by (vm_compute; reflexivity).
  destruct (getDateArray_month_grid (env := utc) august15)
    as (_ & Hnext & _ & _ & Hkeys).
  split; [exact Hi|]. split; [exact Hy|]. split; [exact Hm|].
  split; [exact (Hnext 0%nat Hi)|]. exact (Hkeys Hy Hm).
Defined.

Lemma getDateArray_month_only_and_pure_witness :
  exists refsA hA refsB hB,
    Objects.getDateArray (env := utc) 0%nat augustHeap = Some (refsA, hA) /\
    Objects.getDateArray (env := utc) 1%nat augustHeap = Some (refsB, hB) /\
    length refsA = 42%nat /\ length refsB = 42%nat /\
    calendarDate (env := utc) <$> Tools.getDateArray (env := utc) (localDate (env := utc) 2025 7 1 0)
    = calendarDate (env := utc) <$> Tools.getDateArray (env := utc) august15 /\
    hA !! 0%nat = Some (localDate (env := utc) 2025 7 1 0) /\
    hB !! 1%nat = Some august15.
Proof.
  destruct (getDateArray_month_only_and_pure (env := utc) augustHeap 0%nat 1%nat
              (localDate (env := utc) 2025 7 1 0) august15)
    as (refsA & hA & refsB & hB & HA & HB & HlA & HlB & _ & _ & Hsame & HfA & HfB & _);
    [reflexivity|reflexivity|vm_compute; reflexivity|vm_compute; reflexivity|].
  exists refsA, hA, refsB, hB.
  exact (conj HA (conj HB (conj HlA (conj HlB (conj Hsame (conj HfA HfB)))))).
Defined.

Lemma updateCalendar_classifies_witness :
  length (dayGrid (widget augustPage)) = 42%nat /\
  exists w',
    updateCalendar (env := utc) (fixedClock august15) august3 (widget augustPage)
    = Some w' /\
    length (dayGrid w') = 42%nat.
Proof.
  assert (Hlen : length (dayGrid (widget augustPage)) = 42%nat)
    by (vm_compute; reflexivity).
  split; [exact Hlen|].
  destruct (updateCalendar_classifies (env := utc) (widget augustPage)
              (fixedClock august15) august3 Hlen) as (w' & Hrun & Hl & _).
  exists w'. split; assumption.
Defined.

Lemma header_click_renders_dateToday_witness :
  length (dayGrid (widget augustPage)) = 42%nat /\
  exists W' : World Log,
    click (env := utc) (fixedClock august3) NavigatorText augustPage = Some W' /\
    navigatorText (widget W') = monthLabel (env := utc) (dateToday (widget augustPage)).
Proof.
  assert (Hlen : length (dayGrid (widget augustPage)) = 42%nat)
    by (vm_compute; reflexivity).
  split; [exact Hlen|].
  destruct (header_click_renders_dateToday (env := utc) (fixedClock august3)
              augustPage Hlen) as (W' & Hclick & _ & _ & Hn & _).
  exists W'. exact (conj Hclick Hn).
Defined.

Lemma click_day_without_callback_witness :
  onDayClick (widget blankWorld) = None /\
  click (env := utc) (fixedClock august15) (DayCell 3) blankWorld = Some blankWorld.
Proof.
  split; [reflexivity|].
  exact (click_day_without_callback (env := utc) (fixedClock august15) 3
           blankWorld eq_refl).
Defined.

Lemma day_click_marks_chosen_witness :
  0 <= LocalTZA (Env := utc) < msPerDay /\
  length (dayGrid (widget pendingPage)) = 42%nat /\
  onDayClick (widget pendingPage) = Some spy /\
  dayGrid (widget pendingPage) !! 6%nat = Some august3Cell /\
  dataset_date august3Cell = Some (toShort (env := utc) august3) /\
  1000 <= getFullYear (env := utc) august3 <= 9999 /\
  Forall (fun ce : (nat -> Z) * Event Log => ~ isDayClick ce.2) quietEvents /\
  (firings quietEvents <= timeouts pendingPage)%nat /\
  exists (chosen : Z) (W1 W1' W2 : World Log),
    click (env := utc) (fixedClock august15) (DayCell 6) pendingPage = Some W1 /\
    calendarDate (env := utc) chosen = calendarDate (env := utc) august3 /\
    host W1 = spy chosen 6%nat (host pendingPage) /\
    timeouts W1 = S (timeouts pendingPage) /\
    runEvents (env := utc) quietEvents W1 = Some W1' /\
    dateChosen (widget W1') = chosen /\
    timeouts W1' = 1%nat /\
    timeout (env := utc) (fixedClock august15) W1' = Some W2 /\
    timeouts W2 = 0%nat.
Proof.
  assert (Hz : 0 <= LocalTZA (Env := utc) < msPerDay)
    by (cbn [LocalTZA utc]; unfold msPerDay; lia).
  assert (Hlen : length (dayGrid (widget pendingPage)) = 42%nat)
    by (vm_compute; reflexivity).
  assert (Hcb : onDayClick (widget pendingPage) = Some spy) by (vm_compute; reflexivity).
  assert (Hel : dayGrid (widget pendingPage) !! 6%nat = Some august3Cell)
    by (vm_compute; reflexivity).
  assert (Hkey : dataset_date august3Cell = Some (toShort (env := utc) august3))
    by (vm_compute; reflexivity).
  assert (Hy : 1000 <= getFullYear (env := utc) august3 <= 9999).
  { replace (getFullYear (env := utc) august3) with 2025 by (vm_compute; reflexivity).
    lia. }
  assert (Hquiet : Forall (fun ce : (nat -> Z) * Event Log => ~ isDayClick ce.2)
                     quietEvents).
  { unfold quietEvents. repeat (constructor; [exact (fun H : False => H)|]).
    constructor. }
  assert (Hfirings : firings quietEvents = 1%nat) by reflexivity.
  assert (Hpending : timeouts pendingPage = 1%nat) by (vm_compute; reflexivity).
  assert (Hfire : (firings quietEvents <= timeouts pendingPage)%nat)
    by (rewrite Hfirings, Hpending; lia).
  do 8 (split; [assumption|]).
  destruct (day_click_marks_chosen (env := utc) pendingPage spy 6%nat august3Cell
              august3 (fixedClock august15) (fixedClock august15) quietEvents
              Hz Hlen Hcb Hel Hkey Hy Hquiet Hfire)
    as (chosen & W1 & W1' & W2 & j0 & Hclick & _ & Hsame & Hhost & Htime
        & Hrun & Hchosen & _ & Htime' & Htimeout & _ & Htime2 & _).
  exists chosen, W1, W1', W2.
  rewrite Hfirings, Hpending in Htime', Htime2.
  exact (conj Hclick (conj Hsame (conj Hhost (conj Htime (conj Hrun
           (conj Hchosen (conj Htime' (conj Htimeout Htime2)))))))).
Defined.

Lemma delayed_render_keeps_dateDisplayed_witness :
  length (dayGrid (widget augustPage)) = 42%nat /\
  onDayClick (widget augustPage) = Some spy /\
  dayGrid (widget augustPage) !! 6%nat = Some august3Cell /\
  dataset_date august3Cell = Some "2025-08-03" /\
  parseDateOnly "2025-08-03" = Some august3 /\
  exists (W1 W2 : World Log) (w3 : CalendarWidget Log),
    click (env := utc) (fixedClock august15) (DayCell 6) augustPage = Some W1 /\
    timeout (env := utc) (fixedClock august15) W1 = Some W2 /\
    dateDisplayed (widget W2) = dateDisplayed (widget augustPage) /\
    navigateMonth (env := utc) (fixedClock august15) 1 (widget W2) = Some w3 /\
    dateDisplayed w3 =
      setMonth (env := utc) (dateDisplayed (widget augustPage))
        (getMonth (env := utc) (dateDisplayed (widget augustPage)) + 1).
Proof.
  assert (Hlen : length (dayGrid (widget augustPage)) = 42%nat)
    by (vm_compute; reflexivity).
  assert (Hcb : onDayClick (widget augustPage) = Some spy) by (vm_compute; reflexivity).
  assert (Hel : dayGrid (widget augustPage) !! 6%nat = Some august3Cell)
    by (vm_compute; reflexivity).
  assert (Hkey : dataset_date august3Cell = Some "2025-08-03")
    by (vm_compute; reflexivity).
  assert (Hparse : parseDateOnly "2025-08-03" = Some august3)
    by (vm_compute; reflexivity).
  do 5 (split; [assumption|]).
  destruct (delayed_render_keeps_dateDisplayed (env := utc) augustPage spy 6%nat
              august3Cell "2025-08-03" august3 (fixedClock august15)
              (fixedClock august15) (fixedClock august15) 1
              Hlen Hcb Hel Hkey Hparse)
    as (W1 & W2 & w3 & Hclick & _ & Hfire & _ & _ & Hd & Hnav & Hd3 & _).
  exists W1, W2, w3.
  exact (conj Hclick (conj Hfire (conj Hd (conj Hnav Hd3)))).
Defined.

(** ** The database *)



End Scenarios.

(** * The further statements at the examples *)

Module MoreScenarios.
Import ESDate JSDate Tools Widget Database Page Samples.
Import ESDateFacts ToolsFacts ObjectsFacts WidgetFacts DatabaseFacts.
Import ToolsMore ObjectsMore WidgetMore DatabaseMore PageFacts.
Local Open Scope Z_scope.

Lemma utc_east : 0 <= LocalTZA (Env := utc) < msPerDay.
Proof. cbn [LocalTZA utc]. unfold msPerDay. lia. Qed.

Lemma august_years :
  1000 <= getFullYear (env := utc) august15 <= 9999 /\
  1000 <= getFullYear (env := utc) august3 <= 9999 /\
  1000 <= getFullYear (env := utc) august4 <= 9999 /\
  1000 <= getFullYear (env := utc) august15Midnight <= 9999.
Proof.
  replace (getFullYear (env := utc) august15) with 2025 by (vm_compute; reflexivity).
  replace (getFullYear (env := utc) august3) with 2025 by (vm_compute; reflexivity).
  replace (getFullYear (env := utc) august4) with 2025 by (vm_compute; reflexivity).
  replace (getFullYear (env := utc) august15Midnight) with 2025
    by (vm_compute; reflexivity).
  lia.
Qed.

(** ** Dates *)

Lemma getDateArray_holds_month_witness :
  1 <= 3 <= DaysInMonth (getFullYear (env := utc) august15)
              (getMonth (env := utc) august15) /\
  exists d,
    Tools.getDateArray (env := utc) august15
      !! Z.to_nat (mondayIndex (env := utc) august15 + 3 - 1) = Some d /\
    calendarDate (env := utc) d
    = (getFullYear (env := utc) august15, getMonth (env := utc) august15, 3).
Proof.
  assert (Hk : 1 <= 3 <= DaysInMonth (getFullYear (env := utc) august15)
                          (getMonth (env := utc) august15))
    by (vm_compute; split; discriminate).
  split; [exact Hk|].
  destruct (getDateArray_holds_month (env := utc) august15 3 Hk) as (d & Hd & Hc & _).
  exists d. exact (conj Hd Hc).
Defined.

Lemma getDateArray_in_month_witness :
  Tools.getDateArray (env := utc) august15 !! 6%nat = Some august3Morning /\
  (getMonth (env := utc) august3Morning = getMonth (env := utc) august15 <->
   mondayIndex (env := utc) august15 <= Z.of_nat 6
   < mondayIndex (env := utc) august15
     + DaysInMonth (getFullYear (env := utc) august15)
         (getMonth (env := utc) august15)).
Proof.
  assert (Hd : Tools.getDateArray (env := utc) august15 !! 6%nat = Some august3Morning)
    by (vm_compute; reflexivity).
  split; [exact Hd|].
  exact (getDateArray_in_month (env := utc) august15 6 august3Morning Hd).
Defined.

Lemma cloneDate_all_options_witness :
  getDate (env := utc) august15 <= 28 /\ 0 <= 1 <= 11 /\
  1 <= 29 <= DaysInMonth 2024 1 /\
  calendarDate (env := utc)
    (Tools.cloneDate (env := utc) august15
       {| day := Some 29; month := Some 1; year := Some 2024 |})
  = (2024, 1, 29).
Proof.
  assert (H28 : getDate (env := utc) august15 <= 28) by (vm_compute; discriminate).
  assert (Hm : 0 <= 1 <= 11) by lia.
  assert (Hd : 1 <= 29 <= DaysInMonth 2024 1) by (vm_compute; split; discriminate).
  split; [exact H28|]. split; [exact Hm|]. split; [exact Hd|].
  exact (proj1 (cloneDate_all_options (env := utc) august15 2024 1 29 H28 Hm Hd)).
Defined.

Lemma isSameDate_same_day_witness :
  isSameDate (env := utc) august15 august15Midnight = true /\
  isSameDate (env := utc) august15Midnight august15 = true /\
  isSameDate (env := utc) august15 august15 = true.
Proof.
  assert (H1 : isSameDate (env := utc) august15 august15Midnight = true)
    by (vm_compute; reflexivity).
  assert (H2 : isSameDate (env := utc) august15Midnight august15 = true)
    by (vm_compute; reflexivity).
  destruct (isSameDate_same_day (env := utc)) as (_ & _ & _ & Htrans).
  split; [exact H1|]. split; [exact H2|].
  exact (Htrans august15 august15Midnight august15 H1 H2).
Defined.

Lemma toShort_injective_witness :
  1000 <= getFullYear (env := utc) august15 <= 9999 /\
  1000 <= getFullYear (env := utc) august15Midnight <= 9999 /\
  calendarDate (env := utc) august15 = calendarDate (env := utc) august15Midnight /\
  toShort (env := utc) august15 = toShort (env := utc) august15Midnight.
Proof.
  destruct august_years as (Ha & _ & _ & Hb).
  assert (Hc : calendarDate (env := utc) august15
               = calendarDate (env := utc) august15Midnight)
    by (vm_compute; reflexivity).
  split; [exact Ha|]. split; [exact Hb|]. split; [exact Hc|].
  exact (proj2 (toShort_injective (env := utc) august15 august15Midnight Ha Hb) Hc).
Defined.

Lemma toShort_read_back_east_witness :
  0 <= LocalTZA (Env := utc) < msPerDay /\
  1000 <= getFullYear (env := utc) august15 <= 9999 /\
  exists back,
    parseDateOnly (toShort (env := utc) august15) = Some back /\
    toShort (env := utc) back = toShort (env := utc) august15 /\
    isSameDate (env := utc) back august15 = true.
Proof.
  destruct august_years as (Ha & _).
  split; [exact utc_east|]. split; [exact Ha|].
  exact (toShort_read_back_east (env := utc) august15 utc_east Ha).
Defined.

Lemma cloneDate_new_object_witness :
  augustHeap !! 1%nat = Some august15 /\
  exists output h',
    Objects.cloneDate (env := utc) 1%nat (dayOpt 1) augustHeap = Some (output, h') /\
    augustHeap !! output = None /\
    h' !! 1%nat = Some august15 /\
    exists h'', Objects.setDate (env := utc) output 20 h' = Some (tt, h'') /\
                h'' !! 1%nat = Some august15.
Proof.
  assert (Ht : augustHeap !! 1%nat = Some august15) by reflexivity.
  split; [exact Ht|].
  destruct (cloneDate_new_object (env := utc) 1%nat (dayOpt 1) augustHeap august15 20 Ht)
    as (output & h' & Hrun & Hnew & _ & _ & Hold & h'' & Hset & Hsrc & _).
  exists output, h'.
  exact (conj Hrun (conj Hnew (conj (Hold 1%nat august15 Ht)
           (ex_intro _ h'' (conj Hset Hsrc))))).
Defined.

(** ** The widget *)

Lemma augustPage_grid : length (dayGrid (widget augustPage)) = 42%nat.
Proof. vm_compute. reflexivity. Qed.

Lemma updateCalendar_idempotent_witness :
  length (dayGrid (widget augustPage)) = 42%nat /\
  updateCalendar (env := utc) (fixedClock august15) august3 (widget augustPage)
  = Some august3View /\
  updateCalendar (env := utc) (fixedClock august15) august3 august3View
  = Some august3View.
Proof.
  assert (Hrun : updateCalendar (env := utc) (fixedClock august15) august3
                   (widget augustPage) = Some august3View)
    by (vm_compute; reflexivity).
  split; [exact augustPage_grid|]. split; [exact Hrun|].
  exact (updateCalendar_idempotent (env := utc) (widget augustPage) august3View
           (fixedClock august15) august3 augustPage_grid Hrun).
Defined.

Lemma augustPage_fits (change : Z) :
  getDate (env := utc) (dateDisplayed (widget augustPage)) <= 28.
Proof. vm_compute. discriminate. Qed.

Lemma navigateMonth_exact_witness :
  length (dayGrid (widget augustPage)) = 42%nat /\
  getDate (env := utc) (dateDisplayed (widget augustPage))
  <= DaysInMonth
       (getFullYear (env := utc) (dateDisplayed (widget augustPage))
        + (getMonth (env := utc) (dateDisplayed (widget augustPage)) + 5) / 12)
       ((getMonth (env := utc) (dateDisplayed (widget augustPage)) + 5) mod 12) /\
  exists w',
    navigateMonth (env := utc) (fixedClock august15) 5 (widget augustPage) = Some w' /\
    calendarDate (env := utc) (dateDisplayed w')
    = (getFullYear (env := utc) (dateDisplayed (widget augustPage))
       + (getMonth (env := utc) (dateDisplayed (widget augustPage)) + 5) / 12,
       (getMonth (env := utc) (dateDisplayed (widget augustPage)) + 5) mod 12,
       getDate (env := utc) (dateDisplayed (widget augustPage))).
Proof.
  assert (Hfit : getDate (env := utc) (dateDisplayed (widget augustPage))
    <= DaysInMonth
         (getFullYear (env := utc) (dateDisplayed (widget augustPage))
          + (getMonth (env := utc) (dateDisplayed (widget augustPage)) + 5) / 12)
         ((getMonth (env := utc) (dateDisplayed (widget augustPage)) + 5) mod 12))
    by (vm_compute; discriminate).
  split; [exact augustPage_grid|]. split; [exact Hfit|].
  destruct (navigateMonth_exact (env := utc) (widget augustPage) (fixedClock august15)
              5 augustPage_grid Hfit) as (w' & Hnav & Hc & _).
  exists w'. exact (conj Hnav Hc).
Defined.

Lemma navigateMonth_composes_witness :
  length (dayGrid (widget augustPage)) = 42%nat /\
  getDate (env := utc) (dateDisplayed (widget augustPage)) <= 28 /\
  exists w1 w2,
    navigateMonth (env := utc) (fixedClock august15) 7 (widget augustPage) = Some w1 /\
    navigateMonth (env := utc) (fixedClock august15) (-7) w1 = Some w2 /\
    dateDisplayed w2 = dateDisplayed (widget augustPage).
Proof.
  split; [exact augustPage_grid|]. split; [exact (augustPage_fits 0)|].
  destruct (navigateMonth_composes (env := utc) (widget augustPage)
              (fixedClock august15) (fixedClock august15) (fixedClock august15)
              7 (-7) augustPage_grid (augustPage_fits 0))
    as (w1 & w2 & w3 & H1 & H2 & _ & _ & Hback).
  exists w1, w2. exact (conj H1 (conj H2 (Hback eq_refl))).
Defined.

Lemma toggleDayMarked_flips_witness :
  ("marked" ∉ classList august3Cell) /\
  ("marked" ∈ classList (toggleDayMarked august3Cell)) /\
  (("cell" ∈ classList (toggleDayMarked august3Cell))
   <-> ("cell" ∈ classList august3Cell)).
Proof.
  assert (Hn : "marked" ∉ classList august3Cell).
  { intros Hin. apply list_elem_of_In in Hin. vm_compute in Hin.
    repeat (destruct Hin as [Hin|Hin]; [discriminate|]). exact Hin. }
  destruct (toggleDayMarked_flips (env := utc) (widget augustPage) august3Cell
              august15 august15 august3) as (Hflip & Hother & _).
  split; [exact Hn|]. split; [exact (proj2 Hflip Hn)|].
  apply Hother. discriminate.
Defined.

Lemma step_frame_witness :
  step (env := utc) (fixedClock august15) (Click NavigatorRight) augustPage
  = Some septemberPage /\
  dateToday (widget septemberPage) = dateToday (widget augustPage) /\
  (dateDisplayed (widget septemberPage) <> dateDisplayed (widget augustPage) ->
   movesAnchor (Click (Host := Log) NavigatorRight)).
Proof.
  assert (Hstep : step (env := utc) (fixedClock august15) (Click NavigatorRight)
                    augustPage = Some septemberPage) by (vm_compute; reflexivity).
  split; [exact Hstep|].
  destruct (step_frame (env := utc) (fixedClock august15) (Click NavigatorRight)
              augustPage septemberPage Hstep) as (Ht & Hd & _).
  exact (conj Ht Hd).
Defined.

Lemma page_stays_wellFormed_witness :
  runEvents (env := utc) [(fixedClock august15, Click NavigatorRight)] freshPage
  = Some freshSeptemberPage /\
  wellFormed (env := utc) freshPage /\
  wellFormed (env := utc) freshSeptemberPage.
Proof.
  assert (Hrun : runEvents (env := utc) [(fixedClock august15, Click NavigatorRight)]
                   freshPage = Some freshSeptemberPage) by (vm_compute; reflexivity).
  destruct (page_stays_wellFormed (env := utc) august15 august15 august15
              (fixedClock august15) ([] : Log)
              [(fixedClock august15, Click NavigatorRight)])
    as (w & Hc & Hw & Hall).
  assert (Hfresh : construct (env := utc) (Host := Log) august15 august15 august15
                     (fixedClock august15) = Some (widget freshPage))
    by (vm_compute; reflexivity).
  rewrite Hc in Hfresh. apply (inj Some) in Hfresh. subst w.
  split; [exact Hrun|]. split; [exact Hw|]. exact (Hall freshSeptemberPage Hrun).
Defined.

Lemma august3View_shows :
  length (dayGrid august3View) = 42%nat /\ showsMonth (env := utc) august3View august3.
Proof.
  destruct (updateCalendar_showsMonth (env := utc) (widget augustPage)
              (fixedClock august15) august3 augustPage_grid) as (w' & Hrun & Hl & Hs).
  assert (Hview : updateCalendar (env := utc) (fixedClock august15) august3
                    (widget augustPage) = Some august3View)
    by (vm_compute; reflexivity).
  rewrite Hrun in Hview. apply (inj Some) in Hview. subst w'. exact (conj Hl Hs).
Qed.

Lemma step_succeeds_witness :
  length (dayGrid august3View) = 42%nat /\
  showsMonth (env := utc) august3View august3 /\
  1001 <= getFullYear (env := utc) august3 <= 9998 /\
  exists W',
    step (env := utc) (fixedClock august15) (Click (DayCell 6))
      {| widget := august3View; host := ([] : Log); timeouts := 0 |} = Some W'.
Proof.
  destruct august3View_shows as [Hl Hs].
  assert (Hy : 1001 <= getFullYear (env := utc) august3 <= 9998).
  { replace (getFullYear (env := utc) august3) with 2025 by (vm_compute; reflexivity).
    lia. }
  split; [exact Hl|]. split; [exact Hs|]. split; [exact Hy|].
  exact (step_succeeds (env := utc) (fixedClock august15) (Click (DayCell 6))
           {| widget := august3View; host := ([] : Log); timeouts := 0 |}
           august3 Hl Hs Hy).
Defined.

Lemma construct_highlights_today_witness :
  localDay (env := utc) august15 = localDay (env := utc) august15 /\
  (forall i : nat,
     localDay (env := utc) (fixedClock august15Midnight i)
     = localDay (env := utc) august15) /\
  exists (w : CalendarWidget Log) (i0 : nat) el,
    construct (env := utc) august15 august15 august3 (fixedClock august15Midnight)
    = Some w /\
    dayGrid w !! i0 = Some el /\
    dataset_date el = Some (toShort (env := utc) august15) /\
    stateClasses el = ["today"].
Proof.
  assert (Hclock : forall i : nat,
            localDay (env := utc) (fixedClock august15Midnight i)
            = localDay (env := utc) august15)
    by (intros i; vm_compute; reflexivity).
  split; [reflexivity|]. split; [exact Hclock|].
  destruct (construct_highlights_today (env := utc) (Host := Log) august15 august15
              august3 (fixedClock august15Midnight) eq_refl Hclock)
    as (w & i0 & el & Hc & _ & Hel & Hkey & Hst & _).
  exists w, i0, el. exact (conj Hc (conj Hel (conj Hkey Hst))).
Defined.

(** ** The database *)

Lemma openedDatabase_linked : linked openedDatabase.
Proof. eexists. vm_compute. reflexivity. Qed.

Lemma note_valid :
  validString [JsString "2025-08-03"; JsString "note text"] = true /\
  validString [JsString "2025-08-03"; JsString "another text"] = true /\
  validString [JsString "2025-08-03"] = true /\
  validString [JsString "2025-08-04"] = true.
Proof. repeat split; vm_compute; reflexivity. Qed.

Lemma validString_nonblank_witness :
  validString [JsString "2025-08-03"; JsString "note text"] = true /\
  forall arg, arg ∈ [JsString "2025-08-03"; JsString "note text"] ->
              exists s, arg = JsString s /\ blank s = false.
Proof.
  destruct note_valid as (Hv & _).
  split; [exact Hv|].
  exact (proj1 (validString_nonblank [JsString "2025-08-03"; JsString "note text"]) Hv).
Defined.

Lemma save_success_before_commit_witness :
  linked openedDatabase /\
  validString [JsString "2025-08-03"; JsString "note text"] = true /\
  (TransactionComplete ∉ [TransactionAbort]) /\
  save (JsString "2025-08-03") (JsString "note text")
    [RequestSuccess; TransactionAbort] openedDatabase
  = (Fulfilled succeeded, openedDatabase).
Proof.
  destruct note_valid as (Hv & _).
  assert (Hc : TransactionComplete ∉ [TransactionAbort]).
  { intros Hin. apply list_elem_of_singleton in Hin. discriminate. }
  split; [exact openedDatabase_linked|]. split; [exact Hv|]. split; [exact Hc|].
  exact (save_success_before_commit "2025-08-03" (JsString "note text")
           [TransactionAbort] openedDatabase openedDatabase_linked Hv Hc).
Defined.

Lemma committed_events : TransactionComplete ∈ [TransactionComplete].
Proof. apply list_elem_of_here. Qed.

Lemma save_overwrites_witness :
  linked openedDatabase /\
  validString [JsString "2025-08-03"; JsString "note text"] = true /\
  validString [JsString "2025-08-03"; JsString "another text"] = true /\
  validString [JsString "2025-08-04"] = true /\
  TransactionComplete ∈ [TransactionComplete] /\
  (load (JsString "2025-08-03") [RequestSuccess]
     (save (JsString "2025-08-03") (JsString "another text")
        [RequestSuccess; TransactionComplete]
        (save (JsString "2025-08-03") (JsString "note text")
           [RequestSuccess; TransactionComplete] openedDatabase).2).2).1
  = Fulfilled (succeededWith (JsString "another text")).
Proof.
  destruct note_valid as (Hv1 & Hv2 & _ & Hk').
  split; [exact openedDatabase_linked|]. split; [exact Hv1|]. split; [exact Hv2|].
  split; [exact Hk'|]. split; [exact committed_events|].
  exact (proj1 (save_overwrites openedDatabase "2025-08-03" "note text"
                  "another text" "2025-08-04" [TransactionComplete]
                  [TransactionComplete] [] openedDatabase_linked Hv1 Hv2 Hk'
                  committed_events committed_events)).
Defined.

Lemma protoDatabase_linked : linked protoDatabase.
Proof. now eexists. Qed.

Lemma loadAll_whole_store_witness :
  linked protoDatabase /\
  (2 <= size (storeOf protoDatabase))%nat /\
  storeOf protoDatabase !! "__proto__" = Some (JsString "a note") /\
  loadAll (replicate (S (size (storeOf protoDatabase))) RequestSuccess ++ [])
    protoDatabase
  = (Fulfilled (succeededWith (delete "__proto__" (storeOf protoDatabase))),
     protoDatabase) /\
  delete "__proto__" (storeOf protoDatabase) !! "__proto__" = None /\
  delete "__proto__" (storeOf protoDatabase) !! "2025-08-03"
  = Some (JsString "note text") /\
  loadAll (replicate 2 RequestSuccess) protoDatabase = (Pending, protoDatabase).
Proof.
  assert (Hn : (2 <= size (storeOf protoDatabase))%nat)
    by (vm_compute; lia).
  destruct (loadAll_whole_store protoDatabase [] 2 protoDatabase_linked)
    as (Hall & _ & Hpending).
  split; [exact protoDatabase_linked|]. split; [exact Hn|].
  split; [vm_compute; reflexivity|]. split; [exact Hall|].
  split; [vm_compute; reflexivity|]. split; [vm_compute; reflexivity|].
  exact (Hpending Hn).
Defined.

Lemma destroy_unlinks_witness :
  linked openedDatabase /\
  unlinked (_destroy [Blocked] openedDatabase).2 /\
  save (JsString "2025-08-03") (JsString "note text")
    [RequestSuccess; TransactionComplete] (_destroy [Blocked] openedDatabase).2
  = (notLinked, (_destroy [Blocked] openedDatabase).2) /\
  (RequestSuccess ∉ [Blocked]) /\
  (_destroy [Blocked] openedDatabase).2.2 = openedDatabase.2.
Proof.
  assert (Hno : RequestSuccess ∉ [Blocked]).
  { intros Hin. apply list_elem_of_singleton in Hin. discriminate. }
  destruct (destroy_unlinks [Blocked] openedDatabase openedDatabase_linked)
    as (Hun & Hsave & _ & _ & _ & _ & Hkeep).
  split; [exact openedDatabase_linked|]. split; [exact Hun|].
  split; [exact (Hsave (JsString "2025-08-03") (JsString "note text")
                   [RequestSuccess; TransactionComplete])|].
  split; [exact Hno|exact (Hkeep Hno)].
Defined.

Lemma upgrade_first : Forall (fun ev => ev = UpgradeNeeded) [UpgradeNeeded].
Proof. repeat constructor. Qed.

Lemma open_links_and_keeps_witness :
  linked openedDatabase /\
  open [RequestSuccess] openedDatabase = (Fulfilled succeeded, openedDatabase) /\
  unlinked (_close openedDatabase) /\
  Forall (fun ev => ev = UpgradeNeeded) [UpgradeNeeded] /\
  linked (open ([UpgradeNeeded] ++ RequestSuccess :: []) (_close openedDatabase)).2 /\
  storeOf (open ([UpgradeNeeded] ++ RequestSuccess :: []) (_close openedDatabase)).2
  = storeOf (_close openedDatabase).
Proof.
  assert (Hun : unlinked (_close openedDatabase)) by (vm_compute; reflexivity).
  split; [exact openedDatabase_linked|].
  split; [exact (proj1 (open_links_and_keeps [] [] [RequestSuccess] openedDatabase)
                   openedDatabase_linked)|].
  split; [exact Hun|]. split; [exact upgrade_first|].
  exact (proj2 (proj2 (open_links_and_keeps [UpgradeNeeded] [] []
                         (_close openedDatabase)) Hun upgrade_first)).
Defined.

Lemma data_survives_reopen_witness :
  linked openedDatabase /\
  validString [JsString "2025-08-03"; JsString "note text"] = true /\
  TransactionComplete ∈ [TransactionComplete] /\
  Forall (fun ev => ev = UpgradeNeeded) [] /\
  (load (JsString "2025-08-03") [RequestSuccess]
     (open ([] ++ RequestSuccess :: [])
        (_close (save (JsString "2025-08-03") (JsString "note text")
                   [RequestSuccess; TransactionComplete] openedDatabase).2)).2).1
  = Fulfilled (succeededWith (JsString "note text")).
Proof.
  destruct note_valid as (Hv & _).
  split; [exact openedDatabase_linked|]. split; [exact Hv|].
  split; [exact committed_events|]. split; [exact (Forall_nil_2 _)|].
  exact (proj2 (proj2 (data_survives_reopen openedDatabase "2025-08-03" "note text"
                         [TransactionComplete] [] [] [] openedDatabase_linked Hv
                         committed_events (Forall_nil_2 _)))).
Defined.

Lemma reset_empties_or_unlinks_witness :
  linked openedDatabase /\
  validString [JsString "2025-08-03"] = true /\
  Forall (fun ev => ev = UpgradeNeeded) [UpgradeNeeded] /\
  (reset [RequestSuccess] ([UpgradeNeeded] ++ RequestSuccess :: []) openedDatabase).1
  = Fulfilled succeeded /\
  storeOf (reset [RequestSuccess] ([UpgradeNeeded] ++ RequestSuccess :: [])
             openedDatabase).2 = ∅ /\
  unlinked (reset [Blocked] [UpgradeNeeded; RequestSuccess] openedDatabase).2.
Proof.
  destruct note_valid as (_ & _ & Hk & _).
  destruct (reset_empties_or_unlinks openedDatabase "2025-08-03" [] []
              [UpgradeNeeded] [] [UpgradeNeeded; RequestSuccess] []
              openedDatabase_linked Hk upgrade_first)
    as ((Hok & _ & Hempty & _) & (_ & Hun)).
  split; [exact openedDatabase_linked|]. split; [exact Hk|].
  split; [exact upgrade_first|]. split; [exact Hok|]. split; [exact Hempty|exact Hun].
Defined.

(** ** The page *)

Lemma notesState_linked text answers : linked (database (notesState text answers)).
Proof. exact openedDatabase_linked. Qed.

Lemma notesState_strings text answers :
  holdsStrings (database (notesState text answers)).
Proof.
  intros key value H. cbn [notesState database] in H.
  replace (storeOf openedDatabase) with (∅ : Store) in H by (vm_compute; reflexivity).
  rewrite lookup_empty in H. discriminate.
Qed.

Lemma ctrl_s_saves_and_stars_witness :
  host (notesPage "note text" [[RequestSuccess; TransactionComplete]])
  = Some (notesState "note text" [[RequestSuccess; TransactionComplete]]) /\
  linked (database (notesState "note text" [[RequestSuccess; TransactionComplete]])) /\
  TransactionComplete ∈ [TransactionComplete] /\
  blank "note text" = false /\ blank "2025-08-15" = false /\
  exists h',
    pageStep (env := utc) KeyCtrlS
      (notesPage "note text" [[RequestSuccess; TransactionComplete]])
    = Some {| widget := set_starredDates
                          (starredDates notesWidget ++ ["2025-08-15"]) notesWidget;
              host := Some h'; timeouts := 0 |} /\
    storeOf (database h')
    = <["2025-08-15" := JsString "note text"]> (storeOf openedDatabase).
Proof.
  assert (Ht : blank "note text" = false) by (vm_compute; reflexivity).
  assert (Hd : blank "2025-08-15" = false) by (vm_compute; reflexivity).
  split; [reflexivity|]. split; [exact (notesState_linked _ _)|].
  split; [exact committed_events|]. split; [exact Ht|]. split; [exact Hd|].
  destruct (proj1 (ctrl_s_saves_and_stars (env := utc)
                     (notesPage "note text" [[RequestSuccess; TransactionComplete]])
                     (notesState "note text" [[RequestSuccess; TransactionComplete]])
                     [TransactionComplete] [] eq_refl (notesState_linked _ _)
                     eq_refl committed_events) Ht Hd)
    as (h' & Hstep & Hstore & _).
  exists h'. exact (conj Hstep Hstore).
Defined.

Lemma note_round_trip_witness :
  0 <= LocalTZA (Env := utc) < msPerDay /\
  dayGrid notesWidget !! 6%nat = Some august3Cell /\
  dataset_date august3Cell = Some (toShort (env := utc) august3) /\
  dayGrid notesWidget !! 7%nat = Some august4Cell /\
  dataset_date august4Cell = Some (toShort (env := utc) august4) /\
  blank "note text" = false /\
  exists W' h',
    runPage (env := utc)
      [WidgetClick (fixedClock august15) (DayCell 6); Typing "note text"; KeyCtrlS;
       WidgetClick (fixedClock august15) (DayCell 7);
       WidgetClick (fixedClock august15) (DayCell 6)]
      (notesPage ""
         [[RequestSuccess]; [RequestSuccess; TransactionComplete];
          [RequestSuccess]; [RequestSuccess]])
    = Some W' /\
    host W' = Some h' /\ textarea h' = "note text" /\
    footerDate h' = toShort (env := utc) august3 /\
    toShort (env := utc) august3 ∈ starredDates (widget W').
Proof.
  assert (Hi : dayGrid notesWidget !! 6%nat = Some august3Cell)
    by (vm_compute; reflexivity).
  assert (Hki : dataset_date august3Cell = Some (toShort (env := utc) august3))
    by (vm_compute; reflexivity).
  assert (Hj : dayGrid notesWidget !! 7%nat = Some august4Cell)
    by (vm_compute; reflexivity).
  assert (Hkj : dataset_date august4Cell = Some (toShort (env := utc) august4))
    by (vm_compute; reflexivity).
  assert (Hb : blank "note text" = false) by (vm_compute; reflexivity).
  destruct august_years as (_ & Hyi & Hyj & _).
  split; [exact utc_east|]. split; [exact Hi|]. split; [exact Hki|].
  split; [exact Hj|]. split; [exact Hkj|]. split; [exact Hb|].
  destruct (note_round_trip (env := utc) (fixedClock august15) (fixedClock august15)
              (fixedClock august15)
              (notesPage ""
                 [[RequestSuccess]; [RequestSuccess; TransactionComplete];
                  [RequestSuccess]; [RequestSuccess]])
              (notesState ""
                 [[RequestSuccess]; [RequestSuccess; TransactionComplete];
                  [RequestSuccess]; [RequestSuccess]])
              6%nat 7%nat august3Cell august4Cell august3 august4 "note text"
              [] [TransactionComplete] [] [] []
              utc_east eq_refl (notesState_linked _ _) (notesState_strings _ _)
              eq_refl Hi Hki Hyi Hj Hkj Hyj Hb eq_refl committed_events)
    as (W' & h' & Hrun & Hh & Ht & Hf & Hs & _).
  exists W', h'. exact (conj Hrun (conj Hh (conj Ht (conj Hf Hs)))).
Defined.

Lemma empty_browser_strings :
  forall key value, notesIn ∅ !! key = Some value ->
                    exists text, value = JsString text.
Proof.
  intros key value H. unfold notesIn in H. rewrite lookup_empty in H.
  cbn [default] in H. rewrite lookup_empty in H. discriminate.
Qed.

Lemma setup_ready_witness :
  Forall (fun ev => ev = UpgradeNeeded) [UpgradeNeeded] /\
  (forall key value, notesIn ∅ !! key = Some value ->
                     exists text, value = JsString text) /\
  exists w h,
    setup (env := utc) august15 august15 august15 (fixedClock august15) august15
      (fixedClock august15) ∅
      (([UpgradeNeeded] ++ RequestSuccess :: [])
       :: (replicate (S (size (notesIn ∅))) RequestSuccess ++ [])
       :: (RequestSuccess :: []) :: (RequestSuccess :: []) :: [])
      "" true
    = Ready {| widget := w; host := Some h; timeouts := 0 |} /\
    onDayClick w = Some (onDayClickCallback (env := utc)) /\
    footerDate h = toShort (env := utc) august15.
Proof.
  split; [exact upgrade_first|]. split; [exact empty_browser_strings|].
  destruct (setup_ready (env := utc) august15 august15 august15 (fixedClock august15)
              august15 (fixedClock august15) ∅ [UpgradeNeeded] [] [] [] [] []
              "" true upgrade_first empty_browser_strings)
    as (w & h & Hrun & Hcb & _ & _ & _ & _ & _ & _ & _ & Hfd & _).
  exists w, h. exact (conj Hrun (conj Hcb Hfd)).
Defined.

Lemma setup_throws_witness :
  (RequestSuccess ∉ ([] : list IDBEvent)) /\
  setup (env := utc) august15 august15 august15 (fixedClock august15) august15
    (fixedClock august15) ∅
    [[RequestError (Some (newError "VersionError"))]] "" true
  = Throws "TypeError".
Proof.
  assert (Hno : RequestSuccess ∉ ([] : list IDBEvent)) by apply not_elem_of_nil.
  split; [exact Hno|].
  exact (setup_throws (env := utc) august15 august15 august15 (fixedClock august15)
           august15 (fixedClock august15) ∅ (Some (newError "VersionError")) [] []
           "" true Hno).
Defined.

Lemma middle_clicks_cycle_themes_witness :
  host (notesPage "" []) = Some (notesState "" []) /\
  exists h',
    runPage (env := utc) (replicate 8 MiddleClick) (notesPage "" [])
    = Some {| widget := notesWidget; host := Some h'; timeouts := 0 |} /\
    themeIndex h' = 0%nat /\ theme h' = "".
Proof.
  split; [reflexivity|].
  destruct (middle_clicks_cycle_themes (env := utc) (notesPage "" [])
              (notesState "" []) 7 eq_refl)
    as (h' & Hrun & Hi & Ht & _).
  exists h'. exact (conj Hrun (conj Hi Ht)).
Defined.

End MoreScenarios.
